(** * bingWallpaper: the bingclient package, embedded and verified

    A shallow embedding of [pkg/bingclient] (client.go, downloader.go, the
    storage / file-name generator file and the helper file holding
    [ExtractWallpaperDescription]).

    Go strings are byte sequences, so they are Rocq [string]s (one [ascii]
    per byte; a Chinese literal is its UTF-8 bytes).  Go [int] is [Z].
    A nilable [error] is [option error]; a nilable pointer is an [option].
    The network, the storage back end, the logger and the clock are the
    outside world: a function of the package takes the world's state,
    returns the new one, and emits the trace of the calls it made. *)

From Stdlib Require Import ZArith List Lia Bool Ascii String DecimalString
  DecimalZ.
Import ListNotations.
Open Scope string_scope.

(** ** The parts of Go's standard library the package calls *)

(** [bytes_of l] is the string whose bytes have the codes [l]. *)
Definition bytes_of (l : list nat) : string :=
  string_of_list_ascii (map ascii_of_nat l).

Fixpoint string_rev (s : string) : string :=
  match s with
  | "" => ""
  | String c s' => string_rev s' ++ String c ""
  end.

Module strings.

(** [strings.Split(s, sep)] for a non-empty [sep] (every call of the package
    passes a literal separator): the pieces of [s] between the successive,
    non-overlapping occurrences of [sep], found from the left.
    [split_from sep skip s] returns the piece being read and the pieces
    after it; [skip] counts the bytes of a separator still to be dropped.
    (For an empty [sep] Go explodes [s] into UTF-8 sequences; that case is
    outside this model.) *)
Fixpoint split_from (sep : string) (skip : nat) (s : string)
  : string * list string :=
  match s with
  | "" => ("", [])
  | String c s' =>
      match skip with
      | S k => split_from sep k s'
      | O =>
          if prefix sep s
          then ("", let (p, ps) := split_from sep (length sep - 1) s' in p :: ps)
          else let (p, ps) := split_from sep 0 s' in (String c p, ps)
      end
  end.

Definition Split (s sep : string) : list string :=
  let (p, ps) := split_from sep 0 s in p :: ps.

(** [strings.Replace(s, old, new, n)] for a non-empty [old]: the first [n]
    non-overlapping occurrences of [old], found from the left, become
    [new]; all of them when [n] is negative.  [budget] is the number of
    replacements still allowed ([None]: no limit), [skip] the bytes of a
    replaced occurrence still to be dropped. *)
Fixpoint replace_from (old new : string) (budget : option nat) (skip : nat)
    (s : string) : string :=
  match s with
  | "" => ""
  | String c s' =>
      match skip with
      | S k => replace_from old new budget k s'
      | O =>
          match budget with
          | Some O => s
          | _ =>
              if prefix old s
              then new ++ replace_from old new (option_map pred budget)
                            (length old - 1) s'
              else String c (replace_from old new budget 0 s')
          end
      end
  end.

Definition Replace (s old new : string) (n : Z) : string :=
  replace_from old new (if (n <? 0)%Z then None else Some (Z.to_nat n)) 0 s.

(** [strings.ReplaceAll(s, old, new)] is [Replace(s, old, new, -1)]. *)
Definition ReplaceAll (s old new : string) : string :=
  Replace s old new (-1).

(** The UTF-8 encodings of the code points for which [unicode.IsSpace]
    holds: U+0009..U+000D, U+0020, U+0085, U+00A0, U+1680, U+2000..U+200A,
    U+2028, U+2029, U+202F, U+205F, U+3000. *)
Definition space_runes : list string :=
  map bytes_of
    ([ [9]; [10]; [11]; [12]; [13]; [32];
       [194; 133]; [194; 160]; [225; 154; 128] ]
     ++ map (fun b => [226; 128; b]) (seq 128 11)
     ++ [ [226; 128; 168]; [226; 128; 169]; [226; 128; 175];
          [226; 129; 159]; [227; 128; 128] ]).

(** Length of the white-space rune [s] starts with, if any. *)
Definition leading_space (runes : list string) (s : string) : option nat :=
  option_map length (find (fun r => prefix r s) runes).

Fixpoint trim_left_from (runes : list string) (skip : nat) (s : string)
  : string :=
  match s with
  | "" => ""
  | String c s' =>
      match skip with
      | S k => trim_left_from runes k s'
      | O =>
          match leading_space runes s with
          | Some n => trim_left_from runes (n - 1) s'
          | None => s
          end
      end
  end.

Definition TrimLeftSpace (s : string) : string :=
  trim_left_from space_runes 0 s.

(** A string ends with a rune exactly when its reversal starts with the
    reversed encoding. *)
Definition TrimRightSpace (s : string) : string :=
  string_rev (trim_left_from (map string_rev space_runes) 0 (string_rev s)).

(** [strings.TrimSpace(s)]: [s] without its leading and trailing white
    space, as [unicode.IsSpace] defines it. *)
Definition TrimSpace (s : string) : string :=
  TrimRightSpace (TrimLeftSpace s).

(** [strings.Join(elems, sep)]. *)
Definition Join (elems : list string) (sep : string) : string :=
  String.concat sep elems.

End strings.

(** [error]: a value with an [Error()] message. *)
Record error : Type := mkError { Error : string }.

Module fmt.

(** The operands the package passes to the formatting functions. *)
Inductive operand : Type :=
| OpString (s : string)
| OpInt (n : Z)
| OpError (e : option error).

(** [%d] of an int. *)
Definition decimal (n : Z) : string :=
  NilEmpty.string_of_int (Z.to_int n).

(** One verb applied to one operand, for the verbs [%v], [%s] and [%d]
    (the package uses [%s] with strings, [%d] with ints and [%v] with
    errors; other verbs are outside this model).  A string or an int under
    a verb that does not fit prints as [%!verb(type=value)]; an error
    prints its message under [%v] and [%s], and a nil one prints [<nil>]
    under [%v]. *)
Definition render (verb : ascii) (a : operand) : string :=
  match a, verb with
  | OpString s, ("v" | "s")%char => s
  | OpString s, _ => "%!" ++ String verb ("(string=" ++ s ++ ")")
  | OpInt n, ("v" | "d")%char => decimal n
  | OpInt n, _ => "%!" ++ String verb ("(int=" ++ decimal n ++ ")")
  | OpError (Some e), ("v" | "s")%char => Error e
  | OpError (Some e), _ => "&{%!" ++ String verb ("(string=" ++ Error e ++ ")}")
  | OpError None, "v"%char => "<nil>"
  | OpError None, _ => "%!" ++ String verb "(<nil>)"
  end.

(** [fmt.Sprintf(format, args...)]: the format is read from the left; [%%]
    is a percent sign, [%c] consumes the next operand ([%!c(MISSING)] when
    none is left), a lone [%] at the end prints [%!(NOVERB)].  Operands are
    never re-read as formats. *)
Fixpoint Sprintf (format : string) (args : list operand) : string :=
  match format with
  | "" => ""
  | String "%" "" => "%!(NOVERB)"
  | String "%" (String "%" rest) => String "%" (Sprintf rest args)
  | String "%" (String verb rest) =>
      match args with
      | a :: args' => render verb a ++ Sprintf rest args'
      | [] => "%!" ++ String verb ("(MISSING)" ++ Sprintf rest [])
      end
  | String c rest => String c (Sprintf rest args)
  end.

(** [fmt.Errorf(format, args...)] without [%w]: an error whose message is
    the formatted text. *)
Definition Errorf (format : string) (args : list operand) : option error :=
  Some (mkError (Sprintf format args)).

End fmt.

Module filepath.

(** Go's [path/filepath] on a Unix system: the separator is [/] and there
    is no volume name. *)

Definition is_dotdot (e : string) : bool := String.eqb e "..".

(** The elements of a path, cleaned: empty and [.] elements go, [..]
    removes the element before it, is dropped at the root, and is kept at
    the start of a relative path.  [kept] is the cleaned prefix, last
    element first. *)
Fixpoint clean_elems (rooted : bool) (kept : list string) (elems : list string)
  : list string :=
  match elems with
  | [] => rev kept
  | e :: es =>
      if String.eqb e "" || String.eqb e "." then clean_elems rooted kept es
      else if is_dotdot e then
        match kept with
        | top :: below =>
            if is_dotdot top then clean_elems rooted (e :: kept) es
            else clean_elems rooted below es
        | [] =>
            if rooted then clean_elems rooted [] es
            else clean_elems rooted [e] es
        end
      else clean_elems rooted (e :: kept) es
  end.

(** [filepath.Clean(path)]. *)
Definition Clean (path : string) : string :=
  let rooted := prefix "/" path in
  let out := (if rooted then "/" else "")
             ++ strings.Join (clean_elems rooted [] (strings.Split path "/")) "/" in
  if String.eqb out "" then "." else out.

(** [filepath.Join(elem...)]: leading empty elements are ignored, the rest
    is joined with the separator and cleaned; the result is empty when
    every element is. *)
Fixpoint Join (elem : list string) : string :=
  match elem with
  | [] => ""
  | e :: rest =>
      if String.eqb e "" then Join rest
      else Clean (strings.Join elem "/")
  end.

End filepath.

(** ** Data model (client.go, downloader.go) *)

Record ImageData : Type := mkImageData {
  Startdate : string;
  Fullstartdate : string;
  Enddate : string;
  URL : string;
  Urlbase : string;
  Copyright : string;
  Copyrightlink : string;
  Title : string;
  Quiz : string;
  Wp : bool;
  Hsh : string;
  Drk : Z;
  Top : Z;
  Bot : Z;
  Hs : list string
}.

Record Tooltips : Type := mkTooltips {
  Loading : string;
  Previous : string;
  Next : string;
  Walle : string;
  Walls : string
}.

Record HPImageArchiveResponse : Type := mkHPImageArchiveResponse {
  Images : list ImageData;
  TooltipsOf : Tooltips
}.

(** The configuration part of [Client]; its logger and its [http.Client]
    belong to the outside world below.  [timeout] is a [time.Duration], in
    nanoseconds. *)
Record Client : Type := mkClient {
  baseURL : string;
  timeout : Z;
  userAgent : string;
  locale : string;
  highQuality : bool
}.

Definition ClientOption : Type := Client -> Client.

Definition time_Second : Z := 1000000000.

Definition WithTimeout (t : Z) : ClientOption :=
  fun c => mkClient (baseURL c) t (userAgent c) (locale c) (highQuality c).
Definition WithHighQuality (enabled : bool) : ClientOption :=
  fun c => mkClient (baseURL c) (timeout c) (userAgent c) (locale c) enabled.
Definition WithLocale (l : string) : ClientOption :=
  fun c => mkClient (baseURL c) (timeout c) (userAgent c) l (highQuality c).
Definition WithUserAgent (ua : string) : ClientOption :=
  fun c => mkClient (baseURL c) (timeout c) ua (locale c) (highQuality c).
Definition WithBaseURL (u : string) : ClientOption :=
  fun c => mkClient u (timeout c) (userAgent c) (locale c) (highQuality c).

Definition NewClient (options : list ClientOption) : Client :=
  fold_left (fun client option => option client) options
    (mkClient "https://www.bing.com/HPImageArchive.aspx"
       (10 * time_Second)
       "Mozilla/5.0 (Windows NT 10.0; Win64; x64) AppleWebKit/537.36 (KHTML, like Gecko) Chrome/91.0.4472.124 Safari/537.36"
       "zh-CN"
       true).

Record DownloadResult : Type := mkDownloadResult {
  ImageDataOf : ImageData;
  ImagePath : string;
  JsonPath : string;
  DownloadErr : option error;
  JsonErr : option error
}.

(** Go's zero values, as [&DownloadResult{}] has them. *)
Definition zero_ImageData : ImageData :=
  mkImageData "" "" "" "" "" "" "" "" "" false "" 0 0 0 [].
Definition zero_DownloadResult : DownloadResult :=
  mkDownloadResult zero_ImageData "" "" None None.

Definition set_ImageData (r : DownloadResult) (d : ImageData) :=
  mkDownloadResult d (ImagePath r) (JsonPath r) (DownloadErr r) (JsonErr r).
Definition set_ImagePath (r : DownloadResult) (p : string) :=
  mkDownloadResult (ImageDataOf r) p (JsonPath r) (DownloadErr r) (JsonErr r).
Definition set_JsonPath (r : DownloadResult) (p : string) :=
  mkDownloadResult (ImageDataOf r) (ImagePath r) p (DownloadErr r) (JsonErr r).
Definition set_DownloadErr (r : DownloadResult) (e : option error) :=
  mkDownloadResult (ImageDataOf r) (ImagePath r) (JsonPath r) e (JsonErr r).
Definition set_JsonErr (r : DownloadResult) (e : option error) :=
  mkDownloadResult (ImageDataOf r) (ImagePath r) (JsonPath r) (DownloadErr r) e.

(** ** Pure helpers *)

(** The full-width comma U+FF0C and the double quote, byte by byte. *)
Definition fullwidth_comma : string := bytes_of [239; 188; 140].
Definition double_quote : string := bytes_of [34].

(** [l[0]] on a slice; out of range it panics in Go, which the callers
    below exclude because [strings.Split] never returns an empty slice. *)
Definition index0 (l : list string) : string := nth 0 l "".

(** [ExtractWallpaperDescription], from the helper file. *)
Definition ExtractWallpaperDescription (imageData : ImageData) : string :=
  let description := Title imageData in
  let description :=
    if String.eqb description "" then
      let description := index0 (strings.Split (Copyright imageData) fullwidth_comma) in
      index0 (strings.Split description "(")
    else description in
  let description := strings.TrimSpace description in
  let description := strings.ReplaceAll description " " "_" in
  let description := strings.ReplaceAll description "/" "-" in
  let description := strings.ReplaceAll description "\" "-" in
  let description := strings.ReplaceAll description ":" "-" in
  let description := strings.ReplaceAll description "?" "" in
  let description := strings.ReplaceAll description "*" "" in
  let description := strings.ReplaceAll description "<" "" in
  let description := strings.ReplaceAll description ">" "" in
  let description := strings.ReplaceAll description "|" "-" in
  let description := strings.ReplaceAll description double_quote "'" in
  description.

(** The [description] local of [DefaultFilenameGenerator.GenerateImageFilename]
    as it stands just before the file name is formatted (storage file,
    lines 125-145). *)
Definition GenerateImageFilename_description (imageData : ImageData) : string :=
  let description := Title imageData in
  let description :=
    if String.eqb description "" then
      let description := index0 (strings.Split (Copyright imageData) fullwidth_comma) in
      index0 (strings.Split description "(")
    else description in
  let description := strings.TrimSpace description in
  let description := strings.ReplaceAll description " " "_" in
  let description := strings.ReplaceAll description "/" "-" in
  let description := strings.ReplaceAll description "\" "-" in
  let description := strings.ReplaceAll description ":" "-" in
  let description := strings.ReplaceAll description "?" "" in
  let description := strings.ReplaceAll description "*" "" in
  let description := strings.ReplaceAll description "<" "" in
  let description := strings.ReplaceAll description ">" "" in
  let description := strings.ReplaceAll description "|" "-" in
  let description := strings.ReplaceAll description double_quote "'" in
  description.

(** The replacement lines alone (the ten [strings.ReplaceAll] calls both
    functions share). *)
Definition replace_special (description : string) : string :=
  let description := strings.ReplaceAll description " " "_" in
  let description := strings.ReplaceAll description "/" "-" in
  let description := strings.ReplaceAll description "\" "-" in
  let description := strings.ReplaceAll description ":" "-" in
  let description := strings.ReplaceAll description "?" "" in
  let description := strings.ReplaceAll description "*" "" in
  let description := strings.ReplaceAll description "<" "" in
  let description := strings.ReplaceAll description ">" "" in
  let description := strings.ReplaceAll description "|" "-" in
  let description := strings.ReplaceAll description double_quote "'" in
  description.

(** [Client.GetBingImageURL]. *)
Definition GetBingImageURL (c : Client) (imageData : ImageData) : string :=
  let imageURL := fmt.Sprintf "https://www.bing.com%s" [fmt.OpString (URL imageData)] in
  if highQuality c then strings.Replace imageURL "1920x1080" "UHD" 1
  else imageURL.

(** [Client.GetBingApiURL]. *)
Definition GetBingApiURL (c : Client) (daysAgo count : Z) : string :=
  fmt.Sprintf "%s?format=js&n=%d&idx=%d&mkt=%s"
    [fmt.OpString (baseURL c); fmt.OpInt count; fmt.OpInt daysAgo;
     fmt.OpString (locale c)].

(** ** Effects: the outside world, the trace and the monad *)

Inductive LogLevel : Type :=
| LogLevelDebug | LogLevelInfo | LogLevelWarning | LogLevelError.

(** An outgoing request as [sendRequest] builds it. *)
Record Request : Type := mkRequest {
  Method : string;
  RequestURL : string;
  UserAgentHeader : string
}.

(** What [httpClient.Do] hands back: the status code and what
    [io.ReadAll(resp.Body)] will give. *)
Record Response : Type := mkResponse {
  StatusCode : Z;
  Body : list Byte.byte * option error
}.

Definition http_StatusOK : Z := 200.

(** Every call that leaves the package, in the order it is made. *)
Inductive Event : Type :=
| EvLog (level : LogLevel) (format : string) (args : list fmt.operand)
| EvDo (clientTimeout : Z) (req : Request)
| EvSave (data : list Byte.byte) (path : string)
| EvSleep (duration : Z).

(** The collaborators the package does not implement: request
    construction and the transport of [net/http], [json.Unmarshal] into an
    [HPImageArchiveResponse], and the [Storage] interface's [Save].  [W] is
    whatever state the outside world has.  (A call on the [Logger]
    interface and [time.Sleep] return nothing the package reads: they only
    leave their event.) *)
Class Env (W : Type) : Type := {
  http_NewRequest : string -> string -> option error;
  httpClient_Do : Z -> Request -> W -> (Response * option error) * W;
  json_Unmarshal : list Byte.byte -> HPImageArchiveResponse * option error;
  Storage_Save : list Byte.byte -> string -> W -> option error * W
}.

(** A call either returns or panics (a run-time error of Go). *)
Inductive outcome (A : Type) : Type :=
| Ret (a : A)
| Panic (msg : string).
Arguments Ret {A} _.
Arguments Panic {A} _.

(** A computation reads the world and yields its outcome, the world it
    leaves and the events it emitted, oldest first. *)
Definition M (W A : Type) : Type := W -> outcome A * W * list Event.

Definition ret {W A} (a : A) : M W A := fun w => (Ret a, w, []).

Definition bind {W A B} (m : M W A) (k : A -> M W B) : M W B :=
  fun w =>
    match m w with
    | (Ret a, w', t) =>
        match k a w' with
        | (r, w'', t') => (r, w'', (t ++ t')%list)
        end
    | (Panic msg, w', t) => (Panic msg, w', t)
    end.

Definition panic {W A} (msg : string) : M W A := fun w => (Panic msg, w, []).

Notation "x <- m ;; k" := (bind m (fun x => k))
  (at level 61, m at next level, right associativity).
Notation "' pat <- m ;; k" := (bind m (fun x => match x with pat => k end))
  (at level 61, pat pattern, m at next level, right associativity).
Notation "m ;;; k" := (bind m (fun _ => k))
  (at level 61, right associativity).

Section Package.

Context {W : Type} {env : Env W}.

Definition emit (e : Event) : M W unit := fun w => (Ret tt, w, [e]).

(** The [Logger] interface: the call is recorded as it is made. *)
Definition Logger_Debug (format : string) (args : list fmt.operand) : M W unit :=
  emit (EvLog LogLevelDebug format args).
Definition Logger_Info (format : string) (args : list fmt.operand) : M W unit :=
  emit (EvLog LogLevelInfo format args).
Definition Logger_Warning (format : string) (args : list fmt.operand) : M W unit :=
  emit (EvLog LogLevelWarning format args).
Definition Logger_Error (format : string) (args : list fmt.operand) : M W unit :=
  emit (EvLog LogLevelError format args).

Definition time_Sleep (duration : Z) : M W unit := emit (EvSleep duration).

(** [c.httpClient.Do(req)], with the client's timeout. *)
Definition Do (c : Client) (req : Request) : M W (Response * option error) :=
  fun w =>
    let (r, w') := httpClient_Do (timeout c) req w in
    (Ret r, w', [EvDo (timeout c) req]).

(** [Storage.Save(data, path)]. *)
Definition Save (data : list Byte.byte) (path : string) : M W (option error) :=
  fun w =>
    let (r, w') := Storage_Save data path w in
    (Ret r, w', [EvSave data path]).

Definition len {A} (l : list A) : Z := Z.of_nat (List.length l).

(** ** client.go *)

(** [Client.sendRequest].  (The deferred [resp.Body.Close()] returns
    nothing that is read.) *)
Definition sendRequest (c : Client) (method url : string)
  : M W (list Byte.byte * option error) :=
  Logger_Debug "发送 %s 请求到 %s" [fmt.OpString method; fmt.OpString url] ;;;
  match http_NewRequest method url with
  | Some err =>
      Logger_Error "创建请求失败: %v" [fmt.OpError (Some err)] ;;;
      ret ([], fmt.Errorf "创建请求失败: %v" [fmt.OpError (Some err)])
  | None =>
      let req := mkRequest method url (userAgent c) in
      '(resp, err) <- Do c req ;;
      match err with
      | Some _ =>
          Logger_Error "请求失败: %v" [fmt.OpError err] ;;;
          ret ([], fmt.Errorf "请求失败: %v" [fmt.OpError err])
      | None =>
          if negb (StatusCode resp =? http_StatusOK)%Z then
            Logger_Error "HTTP错误状态码: %d" [fmt.OpInt (StatusCode resp)] ;;;
            ret ([], fmt.Errorf "HTTP错误状态码: %d" [fmt.OpInt (StatusCode resp)])
          else
            let '(body, err) := Body resp in
            match err with
            | Some _ =>
                Logger_Error "读取响应失败: %v" [fmt.OpError err] ;;;
                ret ([], fmt.Errorf "读取响应失败: %v" [fmt.OpError err])
            | None =>
                Logger_Debug "成功收到响应 (%d 字节)" [fmt.OpInt (len body)] ;;;
                ret (body, None)
            end
      end
  end.

(** [Client.parseImageResponse]. *)
Definition parseImageResponse (c : Client) (data : list Byte.byte)
  : M W (list ImageData * option error) :=
  Logger_Debug "正在解析 API 响应数据..." [] ;;;
  let '(archiveResp, err) := json_Unmarshal data in
  match err with
  | Some _ =>
      Logger_Error "JSON解析失败: %v" [fmt.OpError err] ;;;
      ret ([], fmt.Errorf "JSON解析失败: %v" [fmt.OpError err])
  | None =>
      if (len (Images archiveResp) =? 0)%Z then
        Logger_Error "未找到图片数据" [] ;;;
        ret ([], fmt.Errorf "未找到图片数据" [])
      else
        Logger_Debug "成功解析 %d 条图片数据" [fmt.OpInt (len (Images archiveResp))] ;;;
        ret (Images archiveResp, None)
  end.

(** [Client.FetchRawImageData]. *)
Definition FetchRawImageData (c : Client) (imageData : ImageData)
  : M W (list Byte.byte * option error) :=
  let imageURL := GetBingImageURL c imageData in
  Logger_Info "获取图片数据: %s" [fmt.OpString imageURL] ;;;
  sendRequest c "GET" imageURL.

(** [Client.FetchRawJsonData]. *)
Definition FetchRawJsonData (c : Client) (apiURL : string)
  : M W (list Byte.byte * option error) :=
  Logger_Info "获取 JSON 数据: %s" [fmt.OpString apiURL] ;;;
  sendRequest c "GET" apiURL.

(** [Client.fetchMultipleImageData], the internal one. *)
Definition fetchMultipleImageData (c : Client) (daysAgo count : Z)
  : M W (list ImageData * option error) :=
  let apiURL := GetBingApiURL c daysAgo count in
  Logger_Info "正在获取壁纸数据: daysAgo=%d, count=%d, URL=%s"
    [fmt.OpInt daysAgo; fmt.OpInt count; fmt.OpString apiURL] ;;;
  '(body, err) <- FetchRawJsonData c apiURL ;;
  match err with
  | Some _ => ret ([], err)
  | None =>
      '(images, err) <- parseImageResponse c body ;;
      match err with
      | Some _ => ret ([], err)
      | None =>
          Logger_Info "成功获取 %d 天的壁纸数据" [fmt.OpInt (len images)] ;;;
          ret (images, None)
      end
  end.

(** [Client.FetchImageData]: the record is [&images[0]]. *)
Definition FetchImageData (c : Client) (daysAgo : Z)
  : M W (option ImageData * option error) :=
  '(images, err) <- fetchMultipleImageData c daysAgo 1 ;;
  match err with
  | Some _ => ret (None, err)
  | None =>
      match images with
      | [] =>
          Logger_Error "未找到图片数据" [] ;;;
          ret (None, fmt.Errorf "未找到图片数据" [])
      | image0 :: _ =>
          Logger_Info "成功获取壁纸数据" [] ;;;
          Logger_Debug "壁纸标题: %s" [fmt.OpString (Title image0)] ;;;
          ret (Some image0, None)
      end
  end.

(** [Client.FetchMultipleImageData], the exported one. *)
Definition FetchMultipleImageData (c : Client) (days : Z)
  : M W (list ImageData * option error) :=
  if (days <=? 0)%Z || (days >? 16)%Z then
    ret ([], fmt.Errorf "days 必须在 1-16 之间，当前值: %d" [fmt.OpInt days])
  else fetchMultipleImageData c 0 days.

(** ** The storage file: file-name generators and [BingImageStorage] *)

(** The [ImageFilenameGenerator] interface. *)
Record ImageFilenameGenerator : Type := mkImageFilenameGenerator {
  GenerateImageFilename : ImageData -> string -> M W string;
  GenerateJsonFilename : ImageData -> string -> M W string
}.

(** [DefaultFilenameGenerator.GenerateImageFilename]. *)
Definition DefaultFilenameGenerator_GenerateImageFilename
    (imageData : ImageData) (basePath : string) : M W string :=
  let description := GenerateImageFilename_description imageData in
  let filename :=
    fmt.Sprintf "%s_%s.jpg"
      [fmt.OpString (Startdate imageData); fmt.OpString description] in
  Logger_Debug "生成图片文件名: %s" [fmt.OpString filename] ;;;
  ret (filepath.Join [basePath; filename]).

(** [DefaultFilenameGenerator.GenerateJsonFilename]. *)
Definition DefaultFilenameGenerator_GenerateJsonFilename
    (imageData : ImageData) (basePath : string) : M W string :=
  let filename :=
    fmt.Sprintf "bing_data_%s.json" [fmt.OpString (Startdate imageData)] in
  Logger_Debug "生成 JSON 文件名: %s" [fmt.OpString filename] ;;;
  ret (filepath.Join [basePath; filename]).

Definition NewDefaultFilenameGenerator : ImageFilenameGenerator :=
  mkImageFilenameGenerator
    DefaultFilenameGenerator_GenerateImageFilename
    DefaultFilenameGenerator_GenerateJsonFilename.

(** [BingImageStorage]; its [Storage] and [Logger] fields are the
    environment's. *)
Record BingImageStorage : Type := mkBingImageStorage {
  Generator : ImageFilenameGenerator;
  OutputDir : string
}.

Definition NewBingImageStorage (outputDir : string) : BingImageStorage :=
  mkBingImageStorage NewDefaultFilenameGenerator outputDir.

Definition SetFilenameGenerator (bis : BingImageStorage)
    (generator : ImageFilenameGenerator) : BingImageStorage :=
  mkBingImageStorage generator (OutputDir bis).

Definition SetOutputDir (bis : BingImageStorage) (outputDir : string)
  : BingImageStorage :=
  mkBingImageStorage (Generator bis) outputDir.

(** [BingImageStorage.SaveImage]. *)
Definition SaveImage (bis : BingImageStorage) (data : list Byte.byte)
    (imageData : ImageData) : M W (string * option error) :=
  Logger_Info "保存图片数据..." [] ;;;
  filePath <- GenerateImageFilename (Generator bis) imageData (OutputDir bis) ;;
  err <- Save data filePath ;;
  match err with
  | Some _ => ret ("", err)
  | None => ret (filePath, None)
  end.

(** [BingImageStorage.SaveJson]. *)
Definition SaveJson (bis : BingImageStorage) (data : list Byte.byte)
    (imageData : ImageData) : M W (string * option error) :=
  Logger_Info "保存 JSON 数据..." [] ;;;
  filePath <- GenerateJsonFilename (Generator bis) imageData (OutputDir bis) ;;
  err <- Save data filePath ;;
  match err with
  | Some _ => ret ("", err)
  | None => ret (filePath, None)
  end.

(** ** downloader.go *)

Record Downloader : Type := mkDownloader {
  Downloader_Client : Client;
  Downloader_Storage : BingImageStorage;
  SaveJsonData : bool
}.

Definition NewDownloader (client : Client) (storage : BingImageStorage)
  : Downloader :=
  mkDownloader client storage true.

Definition not_nil (e : option error) : bool :=
  match e with Some _ => true | None => false end.

(** [Downloader.SaveWallpaper].  [imageData] is the record behind the
    pointer the method receives; a nil pointer is the caller's [None] (see
    [FetchAndSaveWallpaper]). *)
Definition SaveWallpaper (d : Downloader) (imageData : ImageData) (daysAgo : Z)
  : M W (option DownloadResult * option error) :=
  let result := zero_DownloadResult in
  let result := set_ImageData result imageData in
  Logger_Info "下载并保存图片..." [] ;;;
  '(imageBytes, err) <- FetchRawImageData (Downloader_Client d) imageData ;;
  match err with
  | Some _ =>
      let result := set_DownloadErr result err in
      Logger_Warning "图片下载失败: %v" [fmt.OpError err] ;;;
      ret (Some result, fmt.Errorf "图片下载失败: %v" [fmt.OpError err])
  | None =>
      '(imagePath, err) <- SaveImage (Downloader_Storage d) imageBytes imageData ;;
      match err with
      | Some _ =>
          let result := set_DownloadErr result err in
          Logger_Warning "图片保存失败: %v" [fmt.OpError err] ;;;
          ret (Some result, fmt.Errorf "图片保存失败: %v" [fmt.OpError err])
      | None =>
          let result := set_ImagePath result imagePath in
          Logger_Info "图片已保存到: %s" [fmt.OpString imagePath] ;;;
          result <-
            (if SaveJsonData d then
               Logger_Info "下载并保存 JSON 数据..." [] ;;;
               '(jsonBytes, err) <-
                 FetchRawJsonData (Downloader_Client d)
                   (GetBingApiURL (Downloader_Client d) daysAgo 1) ;;
               match err with
               | Some _ =>
                   let result := set_JsonErr result err in
                   Logger_Warning "JSON 数据获取失败: %v" [fmt.OpError err] ;;;
                   ret result
               | None =>
                   '(jsonPath, err) <-
                     SaveJson (Downloader_Storage d) jsonBytes imageData ;;
                   match err with
                   | Some _ =>
                       let result := set_JsonErr result err in
                       Logger_Warning "JSON 数据保存失败: %v" [fmt.OpError err] ;;;
                       ret result
                   | None =>
                       let result := set_JsonPath result jsonPath in
                       Logger_Info "JSON 数据已保存到: %s" [fmt.OpString jsonPath] ;;;
                       ret result
                   end
               end
             else
               Logger_Debug "跳过 JSON 数据保存（已禁用）" [] ;;;
               ret result) ;;
          Logger_Info "===== 壁纸处理完成 =====" [] ;;;
          ret (Some result, None)
      end
  end.

(** [Downloader.FetchAndSaveWallpaper].  [FetchImageData] never returns a
    nil record with a nil error; were it to, [SaveWallpaper] would
    dereference nil. *)
Definition FetchAndSaveWallpaper (d : Downloader) (daysAgo : Z)
  : M W (option DownloadResult * option error) :=
  Logger_Info "===== 开始处理 %d 天前的壁纸 =====" [fmt.OpInt daysAgo] ;;;
  '(imageData, err) <- FetchImageData (Downloader_Client d) daysAgo ;;
  match err with
  | Some _ =>
      Logger_Error "获取图片数据失败: %v" [fmt.OpError err] ;;;
      ret (None, fmt.Errorf "获取图片数据失败: %v" [fmt.OpError err])
  | None =>
      match imageData with
      | Some imageData => SaveWallpaper d imageData daysAgo
      | None =>
          panic "runtime error: invalid memory address or nil pointer dereference"
      end
  end.

(** The statements after the loop of [FetchAndSaveWallpapers]. *)
Definition FetchAndSaveWallpapers_end (days : Z) (continueOnError : bool)
    (results : list (option DownloadResult)) (lastError : option error)
  : M W (list (option DownloadResult) * option error) :=
  Logger_Info "所有壁纸处理完成！共 %d 张，成功 %d 张"
    [fmt.OpInt days; fmt.OpInt (len results)] ;;;
  if not_nil lastError && continueOnError then
    ret (results, fmt.Errorf "有部分壁纸处理失败: %v" [fmt.OpError lastError])
  else ret (results, None).

(** The loop [for i := 0; i < days; i++] of [FetchAndSaveWallpapers], over
    the values [i] still to come. *)
Fixpoint FetchAndSaveWallpapers_loop (d : Downloader) (days : Z)
    (continueOnError : bool) (indices : list Z)
    (results : list (option DownloadResult)) (lastError : option error)
  : M W (list (option DownloadResult) * option error) :=
  match indices with
  | [] => FetchAndSaveWallpapers_end days continueOnError results lastError
  | i :: indices' =>
      '(result, err) <- FetchAndSaveWallpaper d i ;;
      match err with
      | Some _ =>
          Logger_Error "处理第 %d 天的壁纸失败: %v" [fmt.OpInt i; fmt.OpError err] ;;;
          let lastError :=
            fmt.Errorf "处理第 %d 天的壁纸失败: %v" [fmt.OpInt i; fmt.OpError err] in
          if negb continueOnError then ret (results, lastError)
          else
            let results :=
              match result with
              | Some _ => (results ++ [result])%list
              | None => results
              end in
            (if (i <? days - 1)%Z then
               Logger_Debug "等待1秒后继续..." [] ;;;
               time_Sleep (1 * time_Second)
             else ret tt) ;;;
            FetchAndSaveWallpapers_loop d days continueOnError indices'
              results lastError
      | None =>
          let results := (results ++ [result])%list in
          (if (i <? days - 1)%Z then
             Logger_Debug "等待1秒后继续..." [] ;;;
             time_Sleep (1 * time_Second)
           else ret tt) ;;;
          FetchAndSaveWallpapers_loop d days continueOnError indices'
            results lastError
      end
  end.

(** The values [0, 1, ..., days-1] the loop variable takes. *)
Definition loop_indices (days : Z) : list Z :=
  map Z.of_nat (seq 0 (Z.to_nat days)).

(** [Downloader.FetchAndSaveWallpapers].  [make] with a negative capacity
    panics.  (So does a capacity past the allocation limit, 2^45 pointers
    on a 64-bit platform; the capacity is not bounded from above here.) *)
Definition FetchAndSaveWallpapers (d : Downloader) (days : Z)
    (continueOnError : bool)
  : M W (list (option DownloadResult) * option error) :=
  if (days <? 0)%Z then panic "runtime error: makeslice: cap out of range"
  else
    let results := [] in
    let lastError := None in
    Logger_Info "开始处理最近 %d 天的壁纸" [fmt.OpInt days] ;;;
    FetchAndSaveWallpapers_loop d days continueOnError (loop_indices days)
      results lastError.

(** The statements after the loop of [SaveWallpapers]. *)
Definition SaveWallpapers_end (n : Z) (continueOnError : bool)
    (results : list (option DownloadResult)) (lastError : option error)
  : M W (list (option DownloadResult) * option error) :=
  Logger_Info "所有壁纸处理完成！共处理 %d 张，成功 %d 张"
    [fmt.OpInt n; fmt.OpInt (len results)] ;;;
  if not_nil lastError && continueOnError then
    ret (results, fmt.Errorf "有部分壁纸处理失败: %v" [fmt.OpError lastError])
  else ret (results, None).

(** The loop [for i, imageData := range imageDataList] of [SaveWallpapers];
    [n] is [len(imageDataList)], [i] the index of the head of [rest]. *)
Fixpoint SaveWallpapers_loop (d : Downloader) (n : Z) (continueOnError : bool)
    (i : Z) (rest : list ImageData)
    (results : list (option DownloadResult)) (lastError : option error)
  : M W (list (option DownloadResult) * option error) :=
  match rest with
  | [] => SaveWallpapers_end n continueOnError results lastError
  | imageData :: rest' =>
      let daysAgo := i in
      '(result, err) <- SaveWallpaper d imageData daysAgo ;;
      match err with
      | Some _ =>
          Logger_Error "处理第 %d 张壁纸失败: %v" [fmt.OpInt i; fmt.OpError err] ;;;
          let lastError :=
            fmt.Errorf "处理第 %d 张壁纸失败: %v" [fmt.OpInt i; fmt.OpError err] in
          if negb continueOnError then ret (results, lastError)
          else
            let results :=
              match result with
              | Some _ => (results ++ [result])%list
              | None => results
              end in
            (if (i <? n - 1)%Z then
               Logger_Debug "等待1秒后继续..." [] ;;;
               time_Sleep (1 * time_Second)
             else ret tt) ;;;
            SaveWallpapers_loop d n continueOnError (i + 1) rest'
              results lastError
      | None =>
          let results := (results ++ [result])%list in
          (if (i <? n - 1)%Z then
             Logger_Debug "等待1秒后继续..." [] ;;;
             time_Sleep (1 * time_Second)
           else ret tt) ;;;
          SaveWallpapers_loop d n continueOnError (i + 1) rest'
            results lastError
      end
  end.

(** [Downloader.SaveWallpapers]. *)
Definition SaveWallpapers (d : Downloader) (imageDataList : list ImageData)
    (continueOnError : bool)
  : M W (list (option DownloadResult) * option error) :=
  let results := [] in
  let lastError := None in
  Logger_Info "开始处理 %d 张壁纸" [fmt.OpInt (len imageDataList)] ;;;
  SaveWallpapers_loop d (len imageDataList) continueOnError 0 imageDataList
    results lastError.

(** [Downloader.DownloadLatestWallpapers]. *)
Definition DownloadLatestWallpapers (d : Downloader) (days : Z)
    (continueOnError : bool)
  : M W (list (option DownloadResult) * option error) :=
  if (days <=? 0)%Z || (days >? 16)%Z then
    ret ([], fmt.Errorf "days 必须在 1-16 之间，当前值: %d" [fmt.OpInt days])
  else
    Logger_Info "正在批量获取最近 %d 天的壁纸" [fmt.OpInt days] ;;;
    '(imagesData, err) <-
      FetchMultipleImageData (Downloader_Client d) days ;;
    match err with
    | Some _ =>
        Logger_Error "获取壁纸数据失败: %v" [fmt.OpError err] ;;;
        ret ([], err)
    | None => SaveWallpapers d imagesData continueOnError
    end.

End Package.

Arguments ImageFilenameGenerator : clear implicits.
Arguments BingImageStorage : clear implicits.
Arguments Downloader : clear implicits.

(** ** Specification-side definitions *)

(** The text of [s] before the first occurrence of [sep]. *)
Fixpoint text_before (sep s : string) : string :=
  match s with
  | "" => ""
  | String c s' => if prefix sep s then "" else String c (text_before sep s')
  end.

(** What the replacement lines do to one byte. *)
Definition replace_byte (c : ascii) : string :=
  if Ascii.eqb c " " then "_"
  else if Ascii.eqb c "/" || Ascii.eqb c "\" || Ascii.eqb c ":" || Ascii.eqb c "|"
  then "-"
  else if Ascii.eqb c "?" || Ascii.eqb c "*" || Ascii.eqb c "<" || Ascii.eqb c ">"
  then ""
  else if Ascii.eqb c "034" then "'"
  else String c "".

(** The description as the specification words it: the title, or else the
    copyright text before the first full-width comma and then before the
    first opening parenthesis; trimmed; every unsafe byte replaced. *)
Definition description_spec (imageData : ImageData) : string :=
  let raw :=
    if String.eqb (Title imageData) "" then
      text_before "(" (text_before fullwidth_comma (Copyright imageData))
    else Title imageData in
  String.concat ""
    (map replace_byte (list_ascii_of_string (strings.TrimSpace raw))).

(** The bytes a description must not contain. *)
Definition unsafe_bytes : list ascii :=
  ["/"; "\"; ":"; "?"; "*"; "<"; ">"; "034"; " "]%char.

Definition contains (s : string) (c : ascii) : Prop :=
  In c (list_ascii_of_string s).

(** ** Notions used to state the properties of the downloader *)

Section Notions.

Context {W : Type} {env : Env W}.

(** A generator is well behaved when both methods return and the image
    path is not empty. *)
Definition well_behaved (g : ImageFilenameGenerator W) : Prop :=
  (forall imageData basePath w, exists p w' t,
      GenerateImageFilename g imageData basePath w = (Ret p, w', t) /\ p <> "")
  /\ (forall imageData basePath w, exists p w' t,
         GenerateJsonFilename g imageData basePath w = (Ret p, w', t)).

(** The record [SaveWallpaper] starts from. *)
Definition fresh_result (imageData : ImageData) : DownloadResult :=
  set_ImageData zero_DownloadResult imageData.

(** The downloader the package builds: the default file-name generator
    over an output directory, with the JSON stage switched on or off. *)
Definition default_downloader (c : Client) (outputDir : string) (saveJson : bool)
  : Downloader W :=
  mkDownloader c (NewBingImageStorage outputDir) saveJson.

(** [m] succeeds, or fails, whenever it is run. *)
Definition succeeds {A} (m : M W (A * option error)) : Prop :=
  forall w, exists a w' t, m w = (Ret (a, None), w', t).
Definition fails {A} (m : M W (A * option error)) : Prop :=
  forall w, exists a e w' t, m w = (Ret (a, Some e), w', t).

(** [entry] and [err] are what some call of [SaveWallpaper] on [imageData]
    returned. *)
Definition produced (d : Downloader W) (imageData : ImageData)
    (entry : option DownloadResult) (err : option error) : Prop :=
  exists daysAgo w w' t,
    SaveWallpaper d imageData daysAgo w = (Ret (entry, err), w', t).

(** An entry that carries no download error. *)
Definition entry_ok (entry : option DownloadResult) : Prop :=
  exists r, entry = Some r /\ DownloadErr r = None /\ ImagePath r <> "".

(** An entry that carries a download error and no image path. *)
Definition entry_failed (entry : option DownloadResult) : Prop :=
  exists r, entry = Some r /\ DownloadErr r <> None /\ ImagePath r = "".

(** [entry] is the record of [imageData], saved without a download error. *)
Definition saved_entry (imageData : ImageData) (entry : option DownloadResult)
  : Prop :=
  exists r, entry = Some r /\ ImageDataOf r = imageData
            /\ DownloadErr r = None /\ ImagePath r <> "".

(** [FetchImageData] answers [imageData] for day [daysAgo], whenever asked. *)
Definition metadata_is (c : Client) (daysAgo : Z) (imageData : ImageData)
  : Prop :=
  forall w, exists w' t,
    FetchImageData c daysAgo w = (Ret (Some imageData, None), w', t).

(** What a batch that stopped at the record after [pre] has returned: one
    saved entry per record of [pre], in order, and nothing else. *)
Definition stopped_after (pre : list ImageData)
    (results : list (option DownloadResult)) : Prop :=
  List.length results = List.length pre
  /\ Forall2 saved_entry pre results
  /\ forall r, In (Some r) results -> DownloadErr r = None.

(** The first thing [FetchAndSaveWallpaper] does for a day. *)
Definition day_started (daysAgo : Z) : Event :=
  EvLog LogLevelInfo "===== 开始处理 %d 天前的壁纸 =====" [fmt.OpInt daysAgo].

(** The closing log line of [FetchAndSaveWallpapers]. *)
Definition days_finished (days : Z) (results : list (option DownloadResult))
  : Event :=
  EvLog LogLevelInfo "所有壁纸处理完成！共 %d 张，成功 %d 张"
    [fmt.OpInt days; fmt.OpInt (len results)].

End Notions.

(** ** A scripted environment, for concrete runs *)

(** The world is the set of files written so far.  A stub says which URLs
    the transport refuses, which paths cannot be written, and which records
    the archive holds behind each API URL (a response body is the URL that
    was asked for, and decoding looks the URL up). *)
Definition Files : Type := list (string * list Byte.byte).

Record Stub : Type := mkStub {
  stub_refused : string -> bool;
  stub_unwritable : string -> bool;
  stub_archive : list (string * list ImageData)
}.

Definition stub_lookup (table : list (string * list ImageData)) (url : string)
  : list ImageData :=
  match find (fun entry => String.eqb (fst entry) url) table with
  | Some entry => snd entry
  | None => []
  end.

Definition StubEnv (s : Stub) : Env Files := {|
  http_NewRequest := fun _ _ => None;
  httpClient_Do := fun _ req w =>
    if stub_refused s (RequestURL req)
    then ((mkResponse 0 ([], None), Some (mkError "connection refused")), w)
    else ((mkResponse 200 (list_byte_of_string (RequestURL req), None), None), w);
  json_Unmarshal := fun data =>
    (mkHPImageArchiveResponse
       (stub_lookup (stub_archive s) (string_of_list_byte data))
       (mkTooltips "" "" "" "" ""),
     None);
  Storage_Save := fun data path w =>
    if stub_unwritable s path
    then (Some (mkError "permission denied"), w)
    else (None, (path, data) :: w)
|}.

Definition sample (date title : string) : ImageData :=
  mkImageData date (date ++ "1600") date
    ("/th?id=OHR." ++ date ++ "_1920x1080.jpg") ("/th?id=OHR." ++ date)
    "" "" title "" true "" 1 0 0 [].

Definition aurora : ImageData := sample "20240115" "Aurora Borealis".

(** Five days, most recent first. *)
Definition five_days : list ImageData :=
  [ aurora;
    sample "20240114" "Day 1";
    sample "20240113" "Day 2";
    sample "20240112" "Day 3";
    sample "20240111" "Day 4" ].

Definition sample_client : Client := NewClient [].

(** The archive of the five days: one record behind each single-day URL
    and all five behind the batch URL. *)
Definition sample_archive : list (string * list ImageData) :=
  (GetBingApiURL sample_client 0 5, five_days)
  :: map (fun i => (GetBingApiURL sample_client (Z.of_nat i) 1,
                    [nth i five_days zero_ImageData]))
       (seq 0 5).

Definition no_files : Files := [].

Definition day2 : ImageData := nth 2 five_days zero_ImageData.

(** A transport that refuses the image of day 2. *)
Definition refuse_day2 : Stub :=
  mkStub (String.eqb (GetBingImageURL sample_client day2))
    (fun _ => false) sample_archive.

(** A storage that cannot write the image of day 2. *)
Definition unwritable_day2 : Stub :=
  mkStub (fun _ => false) (String.eqb "/out/20240113_Day_2.jpg") sample_archive.

(** A transport that refuses the metadata request for day 1. *)
Definition no_metadata_day1 : Stub :=
  mkStub (String.eqb (GetBingApiURL sample_client 1 1))
    (fun _ => false) sample_archive.

(** A transport that refuses the metadata request for day 0, which is also
    the request of the JSON stage for that day. *)
Definition no_json_day0 : Stub :=
  mkStub (String.eqb (GetBingApiURL sample_client 0 1))
    (fun _ => false) sample_archive.

Definition sample_downloader : Downloader Files :=
  default_downloader sample_client "/out" true.

(** The four environments the concrete runs use. *)
Definition refused_image_env : Env Files := StubEnv refuse_day2.
Definition unwritable_image_env : Env Files := StubEnv unwritable_day2.
Definition no_metadata_env : Env Files := StubEnv no_metadata_day1.
Definition no_json_env : Env Files := StubEnv no_json_day0.

(** * More of the program *)

(** ** The helper file: dates and summaries *)

(** [len(s)] of a string: its number of bytes. *)
Definition len_string (s : string) : Z := Z.of_nat (String.length s).

(** [s[lo:hi]], for [lo <= hi <= len(s)] (outside that range Go panics;
    every use below is guarded by a length test). *)
Definition slice (s : string) (lo hi : nat) : string := substring lo (hi - lo) s.

Definition newline : string := bytes_of [10].

(** [FormatDate]. *)
Definition FormatDate (dateStr : string) : string * option error :=
  if negb (len_string dateStr =? 8)%Z then
    ("", fmt.Errorf "无效的日期格式: %s" [fmt.OpString dateStr])
  else
    let year := slice dateStr 0 4 in
    let month := slice dateStr 4 6 in
    let day := slice dateStr 6 8 in
    (fmt.Sprintf "%s年%s月%s日"
       [fmt.OpString year; fmt.OpString month; fmt.OpString day], None).

(** [FormatFullDateTime]. *)
Definition FormatFullDateTime (fullDateStr : string) : string * option error :=
  if (len_string fullDateStr <? 12)%Z then
    ("", fmt.Errorf "无效的完整日期时间格式: %s" [fmt.OpString fullDateStr])
  else
    let year := slice fullDateStr 0 4 in
    let month := slice fullDateStr 4 6 in
    let day := slice fullDateStr 6 8 in
    let hour := slice fullDateStr 8 10 in
    let minute := slice fullDateStr 10 12 in
    (fmt.Sprintf "%s年%s月%s日 %s:%s"
       [fmt.OpString year; fmt.OpString month; fmt.OpString day;
        fmt.OpString hour; fmt.OpString minute], None).

(** [GetImageSummary]; the [strings.Builder] is the text written so far. *)
Definition GetImageSummary (imageData : ImageData) : string :=
  let builder := "" in
  let builder :=
    if negb (String.eqb (Title imageData) "") then
      builder ++ fmt.Sprintf ("标题: %s" ++ newline) [fmt.OpString (Title imageData)]
    else builder in
  let builder :=
    if negb (String.eqb (Copyright imageData) "") then
      builder ++ fmt.Sprintf ("描述: %s" ++ newline) [fmt.OpString (Copyright imageData)]
    else builder in
  let builder :=
    if negb (String.eqb (Startdate imageData) "") then
      let '(date, err) := FormatDate (Startdate imageData) in
      match err with
      | None => builder ++ fmt.Sprintf ("日期: %s" ++ newline) [fmt.OpString date]
      | Some _ => builder
      end
    else builder in
  strings.TrimSpace builder.

(** [imageData] with another [Startdate]. *)
Definition set_Startdate (imageData : ImageData) (date : string) : ImageData :=
  mkImageData date (Fullstartdate imageData) (Enddate imageData)
    (URL imageData) (Urlbase imageData) (Copyright imageData)
    (Copyrightlink imageData) (Title imageData) (Quiz imageData)
    (Wp imageData) (Hsh imageData) (Drk imageData) (Top imageData)
    (Bot imageData) (Hs imageData).

(** ** More of [path/filepath] *)

(** [filepath.Ext(path)]: the suffix of the last element that starts at its
    last dot, found from the end; empty without a dot.  [ext_scan] reads
    the reversed path and keeps what it has passed. *)
Fixpoint ext_scan (reversed : string) (passed : string) : string :=
  match reversed with
  | "" => ""
  | String c rest =>
      if Ascii.eqb c "/" then ""
      else if Ascii.eqb c "." then String "." passed
      else ext_scan rest (String c passed)
  end.

Definition filepath_Ext (path : string) : string :=
  ext_scan (string_rev path) "".

(** The bytes of a reversed path after its first element. *)
Fixpoint drop_element (reversed : string) : string :=
  match reversed with
  | "" => ""
  | String c rest => if Ascii.eqb c "/" then reversed else drop_element rest
  end.

(** [filepath.Dir(path)]: the path up to and including its last separator,
    cleaned. *)
Definition filepath_Dir (path : string) : string :=
  filepath.Clean (string_rev (drop_element (string_rev path))).

(** An element without a separator. *)
Definition no_slash (s : string) : Prop := ~ contains s "/".

(** A path element [filepath.Clean] keeps as it is. *)
Definition plain_element (e : string) : Prop :=
  no_slash e /\ e <> "" /\ e <> "." /\ e <> "..".

(** [name] placed in the cleaned directory [dir]. *)
Definition in_directory (dir name : string) : string :=
  if String.eqb dir "/" then "/" ++ name
  else if String.eqb dir "." then name
  else dir ++ "/" ++ name.

(** What [clean_elems] keeps, last element first: a kept [..] has only
    [..] under it and occurs in relative paths only. *)
Fixpoint kept_ok (rooted : bool) (kept : list string) : Prop :=
  match kept with
  | [] => True
  | top :: below =>
      (no_slash top /\ top <> "" /\ top <> ".")
      /\ (top = ".." -> rooted = false /\ Forall (eq "..") below)
      /\ kept_ok rooted below
  end.

(** The elements [filepath.Clean] keeps of a path. *)
Definition cleaned_elements (path : string) : list string :=
  filepath.clean_elems (prefix "/" path) [] (strings.Split path "/").

(** ** The command line (package main) *)

(** [CustomFilenameGenerator]: the embedded default generator and the name
    asked for on the command line. *)
Record CustomFilenameGenerator : Type := mkCustomFilenameGenerator {
  CustomFilename : string
}.

(** The path [main] probes before it downloads, when a name is given and
    overwriting is off (the statements under [if !overwrite]). *)
Definition main_guarded_path (absOutputDir customName : string) : string :=
  let filePath := filepath.Join [absOutputDir; customName] in
  if String.eqb (filepath_Ext filePath) "" then filePath ++ ".jpg"
  else filePath.

(** The loop [for _, result := range results] of [main], which counts the
    records without and with a [DownloadErr]; a nil record is
    dereferenced. *)
Fixpoint main_count (results : list (option DownloadResult))
    (success failed : Z) : outcome (Z * Z) :=
  match results with
  | [] => Ret (success, failed)
  | None :: _ =>
      Panic "runtime error: invalid memory address or nil pointer dereference"
  | Some result :: results' =>
      match DownloadErr result with
      | None => main_count results' (success + 1) failed
      | Some _ => main_count results' success (failed + 1)
      end
  end.

(** ** The logger file *)

(** The integer behind a [LogLevel] ([iota]). *)
Definition LogLevel_value (l : LogLevel) : Z :=
  match l with
  | LogLevelDebug => 0
  | LogLevelInfo => 1
  | LogLevelWarning => 2
  | LogLevelError => 3
  end.

(** [DefaultLogger]; the writer is the text written to it so far, or nil. *)
Record DefaultLogger : Type := mkDefaultLogger {
  writer : option string;
  level : LogLevel;
  showTime : bool;
  showLevel : bool
}.

Definition LoggerOption : Type := DefaultLogger -> DefaultLogger.

Definition WithWriter (w : option string) : LoggerOption :=
  fun l => mkDefaultLogger w (level l) (showTime l) (showLevel l).
Definition WithLevel (v : LogLevel) : LoggerOption :=
  fun l => mkDefaultLogger (writer l) v (showTime l) (showLevel l).
Definition WithTimeDisplay (show : bool) : LoggerOption :=
  fun l => mkDefaultLogger (writer l) (level l) show (showLevel l).
Definition WithLevelDisplay (show : bool) : LoggerOption :=
  fun l => mkDefaultLogger (writer l) (level l) (showTime l) show.

(** [NewLogger]; [stdout] is what standard output holds. *)
Definition NewLogger (stdout : string) (options : list LoggerOption)
  : DefaultLogger :=
  fold_left (fun logger option => option logger) options
    (mkDefaultLogger (Some stdout) LogLevelInfo true true).

(** [DefaultLogger.formatMessage]; [now] is the formatted [time.Now()]. *)
Definition formatMessage (l : DefaultLogger) (now : string)
    (msgLevel : LogLevel) (format : string) (args : list fmt.operand) : string :=
  let result := "" in
  let result :=
    if showTime l then result ++ fmt.Sprintf "[%s] " [fmt.OpString now]
    else result in
  let result :=
    if showLevel l then
      let levelTag :=
        match msgLevel with
        | LogLevelDebug => "DEBUG"
        | LogLevelInfo => "INFO"
        | LogLevelWarning => "WARN"
        | LogLevelError => "ERROR"
        end in
      result ++ fmt.Sprintf "[%s] " [fmt.OpString levelTag]
    else result in
  let message := fmt.Sprintf format args in
  result ++ message.

(** [DefaultLogger.log]; [fmt.Fprintln] writes the message and a newline. *)
Definition DefaultLogger_log (l : DefaultLogger) (now : string)
    (msgLevel : LogLevel) (format : string) (args : list fmt.operand)
  : DefaultLogger :=
  if (LogLevel_value msgLevel <? LogLevel_value (level l))%Z then l
  else
    let message := formatMessage l now msgLevel format args in
    match writer l with
    | Some written =>
        mkDefaultLogger (Some (written ++ message ++ newline))
          (level l) (showTime l) (showLevel l)
    | None => l
    end.

(** [DefaultLogger.Debug], [Info], [Warning] and [Error]. *)
Definition DefaultLogger_Debug (l : DefaultLogger) (now : string)
    (format : string) (args : list fmt.operand) : DefaultLogger :=
  DefaultLogger_log l now LogLevelDebug format args.
Definition DefaultLogger_Info (l : DefaultLogger) (now : string)
    (format : string) (args : list fmt.operand) : DefaultLogger :=
  DefaultLogger_log l now LogLevelInfo format args.
Definition DefaultLogger_Warning (l : DefaultLogger) (now : string)
    (format : string) (args : list fmt.operand) : DefaultLogger :=
  DefaultLogger_log l now LogLevelWarning format args.
Definition DefaultLogger_Error (l : DefaultLogger) (now : string)
    (format : string) (args : list fmt.operand) : DefaultLogger :=
  DefaultLogger_log l now LogLevelError format args.

(** A [DefaultLogger] behind the [Logger] interface, fed the log lines of a
    trace in order; [nows] are the times of the calls. *)
Fixpoint DefaultLogger_feed (l : DefaultLogger) (nows : list string)
    (t : list Event) : DefaultLogger :=
  match t with
  | [] => l
  | EvLog msgLevel format args :: t' =>
      let l :=
        match msgLevel with
        | LogLevelDebug => DefaultLogger_Debug l (hd "" nows) format args
        | LogLevelInfo => DefaultLogger_Info l (hd "" nows) format args
        | LogLevelWarning => DefaultLogger_Warning l (hd "" nows) format args
        | LogLevelError => DefaultLogger_Error l (hd "" nows) format args
        end in
      DefaultLogger_feed l (tl nows) t'
  | _ :: t' => DefaultLogger_feed l nows t'
  end.

(** ** Notions used to state the further properties *)

(** [old] occurs in [pre ++ old] at the end only: the occurrence after
    [pre] is the first one. *)
Definition first_occurrence (old pre : string) : Prop :=
  forall a b, pre ++ old = a ++ old ++ b -> a = pre.

(** [old] occurs nowhere in [s]. *)
Definition absent (old s : string) : Prop :=
  forall a b, s <> a ++ old ++ b.

(** A test for [first_occurrence old pre], with [tail = old]. *)
Fixpoint no_earlier (old pre tail : string) : bool :=
  match pre with
  | "" => true
  | String c pre' => negb (prefix old (pre ++ tail)) && no_earlier old pre' tail
  end.

Definition bing_host : string := "https://www.bing.com".
Definition resolution_token : string := "1920x1080".

(** What every request of a client carries. *)
Definition stamped (c : Client) (e : Event) : Prop :=
  match e with
  | EvDo clientTimeout req =>
      clientTimeout = timeout c /\ Method req = "GET"
      /\ UserAgentHeader req = userAgent c
  | _ => True
  end.

Definition no_sleep (e : Event) : Prop :=
  match e with EvSleep _ => False | _ => True end.

(** The durations slept in a trace, in order. *)
Fixpoint sleeps (t : list Event) : list Z :=
  match t with
  | [] => []
  | EvSleep duration :: t' => duration :: sleeps t'
  | _ :: t' => sleeps t'
  end.

(** A log line at the level of warnings or errors. *)
Definition is_loud (e : Event) : bool :=
  match e with
  | EvLog LogLevelWarning _ _ | EvLog LogLevelError _ _ => true
  | _ => false
  end.

Definition loud_events (t : list Event) : list Event := filter is_loud t.

(** The two formats under which [SaveWallpaper] returns a failure. *)
Definition failed_stage (stage : string) : Prop :=
  stage = "图片下载失败: %v" \/ stage = "图片保存失败: %v".

(** What one call of [SaveWallpaper] on [imageData] hands back: the record
    and the error. *)
Definition outcome_of (imageData : ImageData)
    (out : option DownloadResult * option error) : Prop :=
  exists r,
    fst out = Some r /\ ImageDataOf r = imageData
    /\ ((snd out = None /\ DownloadErr r = None /\ ImagePath r <> "")
        \/ exists cause stage,
             failed_stage stage /\ DownloadErr r = Some cause
             /\ ImagePath r = ""
             /\ snd out = fmt.Errorf stage [fmt.OpError (Some cause)]).

(** The value of [lastError] after the loop of [SaveWallpapers] has seen the
    errors [errs], the first of them at index [i]. *)
Fixpoint last_error (i : Z) (errs : list (option error))
    (lastError : option error) : option error :=
  match errs with
  | [] => lastError
  | err :: errs' =>
      last_error (i + 1) errs'
        match err with
        | Some _ =>
            fmt.Errorf "处理第 %d 张壁纸失败: %v" [fmt.OpInt i; fmt.OpError err]
        | None => lastError
        end
  end.

Section Traces.

Context {W : Type} {env : Env W}.

(** [CustomFilenameGenerator.GenerateImageFilename]; the method has a
    pointer receiver and may extend [CustomFilename], so the receiver is
    returned with the path. *)
Definition CustomFilenameGenerator_GenerateImageFilename
    (g : CustomFilenameGenerator) (imageData : ImageData) (basePath : string)
  : M W (string * CustomFilenameGenerator) :=
  if negb (String.eqb (CustomFilename g) "") then
    let g :=
      if String.eqb (filepath_Ext (CustomFilename g)) "" then
        mkCustomFilenameGenerator (CustomFilename g ++ ".jpg")
      else g in
    ret (filepath.Join [basePath; CustomFilename g], g)
  else
    path <- DefaultFilenameGenerator_GenerateImageFilename imageData basePath ;;
    ret (path, g).

(** The downloader the batch-only [main] builds from its flags (the
    logger is the environment's); the flag [saveJson] is parsed and not
    used. *)
Definition main_batch_downloader (absOutputDir : string)
    (highQuality saveJson : bool) (locale : string) : Downloader W :=
  let client :=
    NewClient [WithHighQuality highQuality; WithLocale locale;
               WithTimeout (15 * time_Second)] in
  let storage := NewBingImageStorage absOutputDir in
  NewDownloader client storage.

(** Every event [m] emits satisfies [P], however the run ends. *)
Definition emits_only (P : Event -> Prop) {A} (m : M W A) : Prop :=
  forall w r w' t, m w = (r, w', t) -> Forall P t.

(** [m] logs nothing above [Info] when it returns no error, and something
    when it returns one. *)
Definition logs_its_errors {A} (m : M W (A * option error)) : Prop :=
  forall w a err w' t,
    m w = (Ret (a, err), w', t) ->
    (err = None -> loud_events t = []) /\ (err <> None -> loud_events t <> []).

(** The two paths the default generator gives a record. *)
Definition image_path (d : Downloader W) (imageData : ImageData) : string :=
  filepath.Join
    [OutputDir (Downloader_Storage d);
     fmt.Sprintf "%s_%s.jpg"
       [fmt.OpString (Startdate imageData);
        fmt.OpString (ExtractWallpaperDescription imageData)]].

Definition json_path (d : Downloader W) (imageData : ImageData) : string :=
  filepath.Join
    [OutputDir (Downloader_Storage d);
     fmt.Sprintf "bing_data_%s.json" [fmt.OpString (Startdate imageData)]].

(** What one call of [SaveWallpaper] may do: ask for the image, write it,
    and, with the JSON stage on, ask for the day's metadata and write it. *)
Definition confined (d : Downloader W) (imageData : ImageData)
    (daysAgo : Z) (e : Event) : Prop :=
  match e with
  | EvLog _ _ _ => True
  | EvDo _ req =>
      RequestURL req = GetBingImageURL (Downloader_Client d) imageData
      \/ (SaveJsonData d = true
          /\ RequestURL req = GetBingApiURL (Downloader_Client d) daysAgo 1)
  | EvSave _ path =>
      path = image_path d imageData
      \/ (SaveJsonData d = true /\ path = json_path d imageData)
  | EvSleep _ => False
  end.

End Traces.

(** ** More scripted environments *)

(** A record whose URL names the resolution twice. *)
Definition two_tokens : ImageData :=
  mkImageData "20240115" "" "" "/th?id=OHR.X_1920x1080.jpg&rf=Y_1920x1080.jpg"
    "" "" "" "" "" true "" 0 0 0 [].

(** A storage that cannot write the images of days 1 and 3. *)
Definition unwritable_days_1_3 : Stub :=
  mkStub (fun _ => false)
    (fun path => String.eqb path "/out/20240114_Day_1.jpg"
                 || String.eqb path "/out/20240112_Day_3.jpg")
    sample_archive.

(** An archive that answers a request for seven days with five records. *)
Definition five_of_seven : Stub :=
  mkStub (fun _ => false) (fun _ => false)
    [(GetBingApiURL sample_client 0 7, five_days)].

Definition two_unwritable_env : Env Files := StubEnv unwritable_days_1_3.
Definition short_archive_env : Env Files := StubEnv five_of_seven.

(** The sample downloader with the JSON stage off. *)
Definition sample_downloader_no_json : Downloader Files :=
  default_downloader sample_client "/out" false.

(** A generator that answers the empty path for every record, and the
    downloader over it, with the JSON stage off. *)
Definition empty_path_generator : ImageFilenameGenerator Files :=
  mkImageFilenameGenerator (fun _ _ => ret "") (fun _ _ => ret "").

Definition empty_path_downloader : Downloader Files :=
  mkDownloader sample_client
    (SetFilenameGenerator (NewBingImageStorage "/out") empty_path_generator)
    false.

(** ** The library functions on known inputs *)

Example Split_cases :
  strings.Split ("a" ++ fullwidth_comma ++ "b(c" ++ fullwidth_comma ++ "d")
    fullwidth_comma = ["a"; "b(c"; "d"]
  /\ strings.Split "" "(" = [""]
  /\ strings.Split "abc" "(" = ["abc"]
  /\ strings.Split "((" "(" = [""; ""; ""].
Proof. repeat split. Qed.

Example Replace_cases :
  strings.Replace "a11b11c11" "11" "X" 1 = "aXb11c11"
  /\ strings.Replace "a11b11c11" "11" "X" 0 = "a11b11c11"
  /\ strings.Replace "a11b11c11" "11" "X" (-1) = "aXbXcX"
  /\ strings.ReplaceAll "aaaaa" "aa" "b" = "bba"
  /\ strings.ReplaceAll "a?b??" "?" "" = "ab".
Proof. repeat split. Qed.

Example TrimSpace_cases :
  strings.TrimSpace "  Aurora Borealis  " = "Aurora Borealis"
  /\ strings.TrimSpace
       (bytes_of [9; 227; 128; 128] ++ "a b" ++ bytes_of [194; 160; 13; 10])
     = "a b"
  /\ strings.TrimSpace (bytes_of [128; 32]) = bytes_of [128]
  /\ strings.TrimSpace "   " = "".
Proof. repeat split. Qed.

Example Sprintf_cases :
  fmt.Sprintf "%s_%s.jpg" [fmt.OpString "20240115"; fmt.OpString "x"]
    = "20240115_x.jpg"
  /\ fmt.Sprintf "n=%d&idx=%d" [fmt.OpInt 16; fmt.OpInt (-3)] = "n=16&idx=-3"
  /\ fmt.Sprintf "failed: %v" [fmt.OpError (Some (mkError "EOF"))] = "failed: EOF"
  /\ fmt.Sprintf "100%% %d" [] = "100% %!d(MISSING)".
Proof. repeat split. Qed.

Example Clean_cases :
  map filepath.Clean
    ["abc//def//ghi"; "abc/def/../ghi/../jkl"; "../../abc"; "/../abc";
     "abc/./../def"; "abc/../../././../def"; ""; "/"; "abc/"; "//abc";
     "abc/def/../../.."; "/abc/def/../../.."; "."; ".."]
  = ["abc/def/ghi"; "abc/jkl"; "../../abc"; "/abc";
     "def"; "../../def"; "."; "/"; "abc"; "/abc";
     ".."; "/"; "."; ".."].
Proof. reflexivity. Qed.

Example Join_cases :
  filepath.Join ["/out"; "x.jpg"] = "/out/x.jpg"
  /\ filepath.Join [""; "x.jpg"] = "x.jpg"
  /\ filepath.Join ["./bing_wallpapers"; "x.jpg"] = "bing_wallpapers/x.jpg"
  /\ filepath.Join ["a"; ""; "b"] = "a/b"
  /\ filepath.Join [""; ""] = "".
Proof. repeat split. Qed.

(** ** Lemmas on the string functions *)

Lemma append_empty_r (s : string) : s ++ "" = s.
Proof. induction s as [|c s IH]; simpl; [reflexivity | now rewrite IH]. Qed.

Lemma append_assoc' (a b c : string) : (a ++ b) ++ c = a ++ (b ++ c).
Proof. induction a as [|x a IH]; simpl; [reflexivity | now rewrite IH]. Qed.

Lemma contains_append (a b : string) (c : ascii) :
  contains (a ++ b) c <-> contains a c \/ contains b c.
Proof.
  unfold contains. induction a as [|x a IH]; simpl.
  - tauto.
  - rewrite IH. tauto.
Qed.

Lemma split_from_first (sep s : string) :
  fst (strings.split_from sep 0 s) = text_before sep s.
Proof.
  induction s as [|c s IH]; simpl; [reflexivity|].
  destruct sep as [|a sep'].
  - reflexivity.
  - destruct (ascii_dec a c); [destruct (prefix sep' s)|]; simpl; try reflexivity;
      destruct (strings.split_from (String a sep') 0 s); simpl in *; now subst.
Qed.

Lemma Split_index0 (s sep : string) :
  index0 (strings.Split s sep) = text_before sep s.
Proof.
  unfold strings.Split. rewrite <- split_from_first.
  destruct (strings.split_from sep 0 s); reflexivity.
Qed.

Lemma Split_not_empty (s sep : string) : strings.Split s sep <> [].
Proof. unfold strings.Split. destruct (strings.split_from sep 0 s); discriminate. Qed.

Lemma ReplaceAll_cons (a c : ascii) (new s : string) :
  strings.ReplaceAll (String c s) (String a "") new =
  (if Ascii.eqb a c then new else String c "")
    ++ strings.ReplaceAll s (String a "") new.
Proof.
  unfold strings.ReplaceAll, strings.Replace. simpl.
  destruct (ascii_dec a c) as [->|Hne].
  - rewrite Ascii.eqb_refl. now destruct s.
  - apply Ascii.eqb_neq in Hne. now rewrite Hne.
Qed.

Lemma ReplaceAll_append (a : ascii) (new s t : string) :
  strings.ReplaceAll (s ++ t) (String a "") new =
  strings.ReplaceAll s (String a "") new ++ strings.ReplaceAll t (String a "") new.
Proof.
  induction s as [|c s IH]; [reflexivity|].
  change (String c s ++ t) with (String c (s ++ t)).
  now rewrite !ReplaceAll_cons, IH, append_assoc'.
Qed.

Lemma replace_special_append (s t : string) :
  replace_special (s ++ t) = replace_special s ++ replace_special t.
Proof.
  unfold replace_special, double_quote, bytes_of; simpl string_of_list_ascii.
  now rewrite !ReplaceAll_append.
Qed.

Lemma replace_special_cons (c : ascii) (s : string) :
  replace_special (String c s) = replace_special (String c "") ++ replace_special s.
Proof. exact (replace_special_append (String c "") s). Qed.

Ltac each_byte c := destruct c as [[] [] [] [] [] [] [] []].

Lemma replace_special_byte (c : ascii) :
  replace_special (String c "") = replace_byte c.
Proof. each_byte c; reflexivity. Qed.

Lemma replace_byte_fixed (c : ascii) :
  replace_special (replace_byte c) = replace_byte c.
Proof. each_byte c; reflexivity. Qed.

Lemma replace_byte_safe (c x : ascii) :
  contains (replace_byte c) x -> ~ In x ("|"%char :: unsafe_bytes).
Proof.
  each_byte c; cbv [contains replace_byte]; simpl;
    (intros [<-|[]] || intros []); intros H;
    repeat (destruct H as [H|H]; [discriminate H|]); exact H.
Qed.

Lemma replace_special_map (s : string) :
  replace_special s = String.concat "" (map replace_byte (list_ascii_of_string s)).
Proof.
  induction s as [|c s IH]; [reflexivity|].
  rewrite replace_special_cons, replace_special_byte, IH. simpl.
  destruct (map replace_byte (list_ascii_of_string s)) eqn:E; simpl.
  - now rewrite append_empty_r.
  - reflexivity.
Qed.

Lemma replace_special_idempotent (s : string) :
  replace_special (replace_special s) = replace_special s.
Proof.
  induction s as [|c s IH]; [reflexivity|].
  rewrite replace_special_cons, replace_special_append, IH.
  now rewrite replace_special_byte, replace_byte_fixed.
Qed.

Lemma replace_special_safe (s : string) (x : ascii) :
  contains (replace_special s) x -> ~ In x ("|"%char :: unsafe_bytes).
Proof.
  induction s as [|c s IH]; [intros []|].
  rewrite replace_special_cons, replace_special_byte, contains_append.
  intros [H|H]; [exact (replace_byte_safe _ _ H) | exact (IH H)].
Qed.

Lemma ExtractWallpaperDescription_unfold (imageData : ImageData) :
  ExtractWallpaperDescription imageData =
  replace_special
    (strings.TrimSpace
       (if String.eqb (Title imageData) "" then
          index0 (strings.Split
                    (index0 (strings.Split (Copyright imageData) fullwidth_comma))
                    "(")
        else Title imageData)).
Proof. reflexivity. Qed.

(** ** File names and URLs *)

Section Filenames.

Context {W : Type} {env : Env W}.

(** [C5] For a record whose start date is 20240115 and whose title is
    Aurora Borealis, with base directory /out, the default generator returns
    exactly /out/20240115_Aurora_Borealis.jpg for the image and
    /out/bing_data_20240115.json for the JSON file. *)
Theorem GenerateFilename_aurora (imageData : ImageData) (w : W) :
  Startdate imageData = "20240115" ->
  Title imageData = "Aurora Borealis" ->
  (exists t,
     GenerateImageFilename NewDefaultFilenameGenerator imageData "/out" w
     = (Ret "/out/20240115_Aurora_Borealis.jpg", w, t))
  /\ (exists t,
        GenerateJsonFilename NewDefaultFilenameGenerator imageData "/out" w
        = (Ret "/out/bing_data_20240115.json", w, t)).
Proof.
  intros Hdate Htitle.
  destruct imageData; simpl in Hdate, Htitle; subst.
  split; eexists; reflexivity.
Qed.

(** [C6] The replacement step is a total function that is idempotent
    (the only partial step of the derivation, taking element 0 of a split,
    is always in range), and the description it yields (in
    [ExtractWallpaperDescription] and inside [GenerateImageFilename] alike)
    holds none of the bytes / \ : ? * < > double-quote and no space; a
    space has become an underscore. *)
Theorem replace_special_idempotent_safe :
  (forall s, replace_special (replace_special s) = replace_special s)
  /\ (forall s sep, strings.Split s sep <> [])
  /\ (forall imageData c,
        In c unsafe_bytes ->
        ~ contains (ExtractWallpaperDescription imageData) c
        /\ ~ contains (GenerateImageFilename_description imageData) c)
  /\ (forall s t, replace_special (s ++ String " " t)
                  = replace_special s ++ String "_" (replace_special t)).
Proof.
  split; [exact replace_special_idempotent|].
  split; [exact Split_not_empty|split].
  - intros imageData c Hc.
    change (GenerateImageFilename_description imageData)
      with (ExtractWallpaperDescription imageData).
    rewrite ExtractWallpaperDescription_unfold.
    assert (~ contains (replace_special
      (strings.TrimSpace
         (if String.eqb (Title imageData) "" then
            index0 (strings.Split
                      (index0 (strings.Split (Copyright imageData) fullwidth_comma))
                      "(")
          else Title imageData))) c) as Hsafe.
    { intros H. apply replace_special_safe in H. apply H. now right. }
    now split.
  - intros s t. rewrite replace_special_append, replace_special_cons.
    reflexivity.
Qed.

(** [C7] The description computed inside
    [DefaultFilenameGenerator.GenerateImageFilename] is the string
    [ExtractWallpaperDescription] returns on the same record, and both are
    the description the specification words: title first, else the copyright
    text before the first full-width comma and then before the first opening
    parenthesis, trimmed, with the unsafe bytes replaced. *)
Theorem description_implementations_agree (imageData : ImageData) :
  GenerateImageFilename_description imageData
    = ExtractWallpaperDescription imageData
  /\ ExtractWallpaperDescription imageData = description_spec imageData
  /\ forall basePath (w : W),
       exists t,
         GenerateImageFilename NewDefaultFilenameGenerator imageData basePath w
         = (Ret (filepath.Join
                   [basePath;
                    fmt.Sprintf "%s_%s.jpg"
                      [fmt.OpString (Startdate imageData);
                       fmt.OpString (ExtractWallpaperDescription imageData)]]),
            w, t).
Proof.
  split; [reflexivity|split; [|intros; eexists; reflexivity]].
  rewrite ExtractWallpaperDescription_unfold, replace_special_map.
  unfold description_spec. now rewrite !Split_index0.
Qed.

End Filenames.

(** [C8] [GetBingApiURL] returns the base URL followed by ?format=js&n=,
    the count in decimal, &idx=, the offset in decimal, &mkt= and the
    locale; being a function of its inputs, equal inputs give equal URLs. *)
Theorem GetBingApiURL_format (c : Client) (daysAgo count : Z) :
  GetBingApiURL c daysAgo count
  = baseURL c ++ "?format=js&n=" ++ fmt.decimal count
      ++ "&idx=" ++ fmt.decimal daysAgo ++ "&mkt=" ++ locale c.
Proof.
  unfold GetBingApiURL. simpl. now rewrite append_empty_r.
Qed.

(** The text [%d] prints reads back as the number. *)
Lemma decimal_reads_back (n : Z) :
  option_map Z.of_int (NilEmpty.int_of_string (fmt.decimal n)) = Some n.
Proof.
  unfold fmt.decimal. rewrite NilEmpty.isi. simpl. now rewrite DecimalZ.of_to.
Qed.

Example GetBingApiURL_default :
  GetBingApiURL (NewClient []) 0 1
  = "https://www.bing.com/HPImageArchive.aspx?format=js&n=1&idx=0&mkt=zh-CN".
Proof. reflexivity. Qed.

(** ** Facts about the effectful functions *)

Arguments fmt.Sprintf : simpl never.
Arguments fmt.Errorf : simpl never.
Arguments GetBingImageURL : simpl never.
Arguments GetBingApiURL : simpl never.
Arguments filepath.Join : simpl never.

Section Facts.

Context {W : Type} {env : Env W}.

Lemma bind_Ret {A B} (m : M W A) (k : A -> M W B) w a w1 t1 r w2 t2 :
  m w = (Ret a, w1, t1) ->
  k a w1 = (r, w2, t2) ->
  bind m k w = (r, w2, (t1 ++ t2)%list).
Proof. intros Hm Hk. unfold bind. now rewrite Hm, Hk. Qed.

Lemma bind_Panic {A B} (m : M W A) (k : A -> M W B) w msg w1 t1 :
  m w = (Panic msg, w1, t1) ->
  bind m k w = (Panic msg, w1, t1).
Proof. intros Hm. unfold bind. now rewrite Hm. Qed.

(** [sendRequest] always returns, and returns no body with an error. *)
Lemma sendRequest_returns (c : Client) (method url : string) (w : W) :
  exists body err w' t,
    sendRequest c method url w = (Ret (body, err), w', t)
    /\ (err <> None -> body = []).
Proof.
  unfold sendRequest, bind, Logger_Debug, Logger_Error, emit, ret, Do.
  destruct (http_NewRequest method url) as [e|]; [now repeat eexists|].
  destruct (httpClient_Do (timeout c) (mkRequest method url (userAgent c)) w)
    as [[resp [e|]] w']; [now repeat eexists|].
  destruct (StatusCode resp =? http_StatusOK)%Z; simpl; [|now repeat eexists].
  destruct (Body resp) as [body [e|]]; [now repeat eexists|].
  do 4 eexists. split; [reflexivity|]. intros H; now elim H.
Qed.

Lemma FetchRawImageData_returns (c : Client) (imageData : ImageData) (w : W) :
  exists body err w' t,
    FetchRawImageData c imageData w = (Ret (body, err), w', t).
Proof.
  unfold FetchRawImageData.
  destruct (sendRequest_returns c "GET" (GetBingImageURL c imageData) w)
    as (body & err & w' & t & E & _).
  do 4 eexists. eapply bind_Ret; [reflexivity | exact E].
Qed.

Lemma FetchRawJsonData_returns (c : Client) (apiURL : string) (w : W) :
  exists body err w' t,
    FetchRawJsonData c apiURL w = (Ret (body, err), w', t).
Proof.
  unfold FetchRawJsonData.
  destruct (sendRequest_returns c "GET" apiURL w) as (body & err & w' & t & E & _).
  do 4 eexists. eapply bind_Ret; [reflexivity | exact E].
Qed.

(** ** File names are never empty *)

Lemma Clean_not_empty (path : string) : filepath.Clean path <> "".
Proof.
  unfold filepath.Clean.
  match goal with |- (if String.eqb ?o "" then _ else _) <> _ =>
    destruct (String.eqb o "") eqn:E end.
  - discriminate.
  - now apply String.eqb_neq.
Qed.

Lemma Join_not_empty (basePath filename : string) :
  filename <> "" -> filepath.Join [basePath; filename] <> "".
Proof.
  intros Hf. unfold filepath.Join.
  destruct (String.eqb basePath ""); [|apply Clean_not_empty].
  destruct (String.eqb filename "") eqn:E; [|apply Clean_not_empty].
  now apply String.eqb_eq in E.
Qed.

Lemma image_filename_not_empty (date description : string) :
  fmt.Sprintf "%s_%s.jpg" [fmt.OpString date; fmt.OpString description] <> "".
Proof. unfold fmt.Sprintf, fmt.render. simpl. now destruct date. Qed.

Lemma NewDefaultFilenameGenerator_well_behaved :
  well_behaved (W := W) NewDefaultFilenameGenerator.
Proof.
  split; intros imageData basePath w; do 3 eexists.
  - split; [reflexivity|]. apply Join_not_empty, image_filename_not_empty.
  - reflexivity.
Qed.

Ltac step :=
  cbv beta iota delta
    [bind ret emit panic Logger_Debug Logger_Info Logger_Warning
     Logger_Error time_Sleep].

Lemma SaveImage_returns (bis : BingImageStorage W) data imageData w :
  well_behaved (Generator bis) ->
  exists p err w' t,
    SaveImage bis data imageData w = (Ret (p, err), w', t)
    /\ (err = None -> p <> "") /\ (err <> None -> p = "").
Proof.
  intros [Himg _]. unfold SaveImage. step.
  destruct (Himg imageData (OutputDir bis) w) as (p & w1 & t1 & E & Hp).
  rewrite E. unfold Save.
  destruct (Storage_Save data p w1) as [[e|] w2]; step; do 4 eexists;
    (split; [reflexivity|split; intros H; congruence]).
Qed.

Lemma SaveJson_returns (bis : BingImageStorage W) data imageData w :
  well_behaved (Generator bis) ->
  exists p err w' t,
    SaveJson bis data imageData w = (Ret (p, err), w', t)
    /\ (err <> None -> p = "").
Proof.
  intros [_ Hjson]. unfold SaveJson. step.
  destruct (Hjson imageData (OutputDir bis) w) as (p & w1 & t1 & E).
  rewrite E. unfold Save.
  destruct (Storage_Save data p w1) as [[e|] w2]; step; do 4 eexists;
    (split; [reflexivity|intros H; congruence]).
Qed.

Lemma SaveWallpaper_fetch_failed (d : Downloader W) imageData daysAgo w b e w1 t1 :
  FetchRawImageData (Downloader_Client d) imageData w = (Ret (b, Some e), w1, t1) ->
  exists t,
    SaveWallpaper d imageData daysAgo w
    = (Ret (Some (set_DownloadErr (fresh_result imageData) (Some e)),
            fmt.Errorf "图片下载失败: %v" [fmt.OpError (Some e)]), w1, t).
Proof.
  intros E. unfold SaveWallpaper. step. rewrite E. step.
  eexists. reflexivity.
Qed.

Lemma SaveWallpaper_save_failed (d : Downloader W) imageData daysAgo
    w b w1 t1 p e w2 t2 :
  FetchRawImageData (Downloader_Client d) imageData w = (Ret (b, None), w1, t1) ->
  SaveImage (Downloader_Storage d) b imageData w1 = (Ret (p, Some e), w2, t2) ->
  exists t,
    SaveWallpaper d imageData daysAgo w
    = (Ret (Some (set_DownloadErr (fresh_result imageData) (Some e)),
            fmt.Errorf "图片保存失败: %v" [fmt.OpError (Some e)]), w2, t).
Proof.
  intros E1 E2. unfold SaveWallpaper. step. rewrite E1. step. rewrite E2. step.
  eexists. reflexivity.
Qed.

(** Once the image is saved, the JSON stage cannot turn the call into a
    failure: it only fills [JsonPath] or [JsonErr]. *)
Lemma SaveWallpaper_image_saved (d : Downloader W) imageData daysAgo
    w b w1 t1 p w2 t2 :
  well_behaved (Generator (Downloader_Storage d)) ->
  FetchRawImageData (Downloader_Client d) imageData w = (Ret (b, None), w1, t1) ->
  SaveImage (Downloader_Storage d) b imageData w1 = (Ret (p, None), w2, t2) ->
  exists jsonPath jsonErr w' t,
    SaveWallpaper d imageData daysAgo w
    = (Ret (Some (mkDownloadResult imageData p jsonPath None jsonErr), None), w', t)
    /\ (jsonErr <> None -> jsonPath = "").
Proof.
  intros Hg E1 E2. unfold SaveWallpaper. step. rewrite E1. step. rewrite E2. step.
  destruct (SaveJsonData d).
  - destruct (FetchRawJsonData_returns (Downloader_Client d)
                (GetBingApiURL (Downloader_Client d) daysAgo 1) w2)
      as (jb & [e|] & w3 & t3 & E3); rewrite E3; step.
    + do 4 eexists. split; [reflexivity|reflexivity].
    + destruct (SaveJson_returns (Downloader_Storage d) jb imageData w3 Hg)
        as (jp & [e|] & w4 & t4 & E4 & Hjp); rewrite E4; step.
      * do 4 eexists. split; [reflexivity|reflexivity].
      * do 4 eexists. split; [reflexivity|]. intros H; now elim H.
  - do 4 eexists. split; [reflexivity|]. intros H; now elim H.
Qed.

(** Every call of [SaveWallpaper] returns a record, and the error it
    returns, the record's [DownloadErr] and its [ImagePath] go together. *)
Lemma SaveWallpaper_returns (d : Downloader W) imageData daysAgo w :
  well_behaved (Generator (Downloader_Storage d)) ->
  exists r err w' t,
    SaveWallpaper d imageData daysAgo w = (Ret (Some r, err), w', t)
    /\ ImageDataOf r = imageData
    /\ (err = None <-> DownloadErr r = None)
    /\ (err = None ->
        ImagePath r <> ""
        /\ exists b w1 t1 w2 t2,
             FetchRawImageData (Downloader_Client d) imageData w
             = (Ret (b, None), w1, t1)
             /\ SaveImage (Downloader_Storage d) b imageData w1
                = (Ret (ImagePath r, None), w2, t2))
    /\ (err <> None -> ImagePath r = "" /\ DownloadErr r <> None).
Proof.
  intros Hg.
  destruct (FetchRawImageData_returns (Downloader_Client d) imageData w)
    as (b & [e|] & w1 & t1 & E1).
  - destruct (SaveWallpaper_fetch_failed d imageData daysAgo _ _ _ _ _ E1)
      as (t & E).
    do 4 eexists. split; [exact E|]. unfold fmt.Errorf. simpl.
    repeat split; try discriminate; congruence.
  - destruct (SaveImage_returns (Downloader_Storage d) b imageData w1 Hg)
      as (p & [e|] & w2 & t2 & E2 & Hok & Hbad).
    + destruct (SaveWallpaper_save_failed d imageData daysAgo _ _ _ _ _ _ _ _ E1 E2)
        as (t & E).
      do 4 eexists. split; [exact E|]. unfold fmt.Errorf. simpl.
      repeat split; try discriminate; congruence.
    + destruct (SaveWallpaper_image_saved d imageData daysAgo
                  _ _ _ _ _ _ _ Hg E1 E2) as (jp & je & w' & t & E & _).
      do 4 eexists. split; [exact E|]. simpl.
      repeat split; try congruence; auto.
      do 5 eexists. split; [exact E1 | exact E2].
Qed.

(** [C2] For every [days] outside 1..16, [FetchMultipleImageData] and
    [DownloadLatestWallpapers] both return the validation error, leave the
    world as it was and emit no event at all: no request is sent. *)
Theorem days_out_of_range_rejected (c : Client) (d : Downloader W) (days : Z)
    (continueOnError : bool) (w : W) :
  (days < 1 \/ 16 < days)%Z ->
  FetchMultipleImageData c days w
    = (Ret ([], fmt.Errorf "days 必须在 1-16 之间，当前值: %d" [fmt.OpInt days]),
       w, [])
  /\ DownloadLatestWallpapers d days continueOnError w
    = (Ret ([], fmt.Errorf "days 必须在 1-16 之间，当前值: %d" [fmt.OpInt days]),
       w, []).
Proof.
  intros Hdays.
  assert ((days <=? 0)%Z || (days >? 16)%Z = true) as Hguard.
  { apply orb_true_iff. destruct Hdays; [left|right]; lia. }
  unfold FetchMultipleImageData, DownloadLatestWallpapers.
  rewrite Hguard. split; reflexivity.
Qed.

(** [C4] When the image was fetched and saved, a failure of the JSON fetch
    or of the JSON save is stored in [JsonErr], [JsonPath] stays empty, and
    [SaveWallpaper] returns the record with a nil error. *)
Theorem SaveWallpaper_json_failure_not_fatal (d : Downloader W)
    (imageData : ImageData) (daysAgo : Z)
    (w w1 w2 : W) (b : list Byte.byte) (t1 t2 : list Event) (p : string)
    (e : error) :
  SaveJsonData d = true ->
  FetchRawImageData (Downloader_Client d) imageData w = (Ret (b, None), w1, t1) ->
  SaveImage (Downloader_Storage d) b imageData w1 = (Ret (p, None), w2, t2) ->
  (exists jb w3 t3,
      FetchRawJsonData (Downloader_Client d)
        (GetBingApiURL (Downloader_Client d) daysAgo 1) w2
      = (Ret (jb, Some e), w3, t3))
  \/ (exists jb w3 t3 jp w4 t4,
         FetchRawJsonData (Downloader_Client d)
           (GetBingApiURL (Downloader_Client d) daysAgo 1) w2
         = (Ret (jb, None), w3, t3)
         /\ SaveJson (Downloader_Storage d) jb imageData w3
            = (Ret (jp, Some e), w4, t4)) ->
  exists r w' t,
    SaveWallpaper d imageData daysAgo w = (Ret (Some r, None), w', t)
    /\ JsonErr r = Some e /\ JsonPath r = ""
    /\ DownloadErr r = None /\ ImagePath r = p /\ ImageDataOf r = imageData.
Proof.
  intros Hjson E1 E2 Hfail.
  unfold SaveWallpaper. step. rewrite E1. step. rewrite E2. step.
  rewrite Hjson.
  destruct Hfail as [(jb & w3 & t3 & E3)|(jb & w3 & t3 & jp & w4 & t4 & E3 & E4)];
    rewrite E3; step; [|rewrite E4; step];
    do 3 eexists; (split; [reflexivity|]); simpl; auto.
Qed.


Lemma entry_ok_not_failed entry : entry_ok entry -> ~ entry_failed entry.
Proof.
  intros (r & -> & Hok & _) (r' & [= <-] & Hbad & _). contradiction.
Qed.

Lemma SaveWallpaper_entry (d : Downloader W) imageData daysAgo w :
  well_behaved (Generator (Downloader_Storage d)) ->
  exists entry err w' t,
    SaveWallpaper d imageData daysAgo w = (Ret (entry, err), w', t)
    /\ (err = None -> entry_ok entry)
    /\ (err <> None -> entry_failed entry).
Proof.
  intros Hg.
  destruct (SaveWallpaper_returns d imageData daysAgo w Hg)
    as (r & err & w' & t & E & _ & Hiff & Hnil & Herr).
  exists (Some r), err, w', t. split; [exact E|]. split; intros H.
  - exists r. repeat split; [now apply Hiff | now apply Hnil].
  - exists r. repeat split; now apply Herr.
Qed.

Lemma pause_returns (i n : Z) (w : W) :
  exists t,
    (if (i <? n - 1)%Z then
       Logger_Debug "等待1秒后继续..." [] ;;; time_Sleep (1 * time_Second)
     else ret tt) w = (Ret tt, w, t).
Proof. destruct (i <? n - 1)%Z; eexists; reflexivity. Qed.

(** With [continueOnError] the loop of [SaveWallpapers] runs to its end
    and appends one entry per record. *)
Lemma SaveWallpapers_loop_continue (d : Downloader W) (n : Z) :
  well_behaved (Generator (Downloader_Storage d)) ->
  forall rest i results lastError w,
  exists entries err w' t,
    SaveWallpapers_loop d n true i rest results lastError w
    = (Ret ((results ++ entries)%list, err), w', t)
    /\ Forall2 (fun imageData entry =>
                  exists e, produced d imageData entry e
                            /\ (entry_ok entry \/ entry_failed entry))
         rest entries
    /\ (err = None <-> lastError = None /\ Forall entry_ok entries).
Proof.
  intros Hg. induction rest as [|imageData rest IH]; intros i results lastError w.
  - exists [], (if not_nil lastError then
                  fmt.Errorf "有部分壁纸处理失败: %v" [fmt.OpError lastError]
                else None), w.
    eexists. cbn [SaveWallpapers_loop]. unfold SaveWallpapers_end. step.
    rewrite andb_true_r, app_nil_r.
    destruct lastError; simpl; (split; [reflexivity|]);
      (split; [constructor|]); unfold fmt.Errorf; split;
      try discriminate; try (intros [? _]; discriminate); auto.
  - cbn [SaveWallpapers_loop].
    destruct (SaveWallpaper_entry d imageData i w Hg)
      as (entry & e & w1 & t1 & E & Hok & Hbad).
    destruct (pause_returns i n w1) as (tp & Ep).
    step. rewrite E. step. cbv beta iota delta [bind ret emit Logger_Debug time_Sleep] in Ep.
    destruct e as [e|].
    + destruct (Hbad ltac:(discriminate)) as (r & -> & Hr).
      cbn [negb].
      destruct (IH (i + 1)%Z (results ++ [Some r])%list
                  (fmt.Errorf "处理第 %d 张壁纸失败: %v"
                     [fmt.OpInt i; fmt.OpError (Some e)]) w1)
        as (entries & err & w' & t & E' & HF & Herr).
      rewrite Ep, E'. rewrite <- app_assoc. cbn [app].
      exists (Some r :: entries), err, w'. eexists.
      split; [reflexivity|]. split.
      * constructor; [|exact HF]. exists (Some e). split.
        -- now exists i, w, w1, t1.
        -- right. now exists r.
      * split.
        -- intros H. apply Herr in H. destruct H as [H _].
           unfold fmt.Errorf in H. discriminate.
        -- intros [_ H]. inversion H as [|? ? H1 _]; subst.
           exfalso. apply (entry_ok_not_failed _ H1). now exists r.
    + destruct (Hok eq_refl) as (r & -> & Hr).
      destruct (IH (i + 1)%Z (results ++ [Some r])%list lastError w1)
        as (entries & err & w' & t & E' & HF & Herr).
      rewrite Ep, E'. rewrite <- app_assoc. cbn [app].
      exists (Some r :: entries), err, w'. eexists.
      split; [reflexivity|]. split.
      * constructor; [|exact HF]. exists None. split.
        -- now exists i, w, w1, t1.
        -- left. now exists r.
      * rewrite Herr.
        split; intros [H1 H2]; (split; [exact H1|]);
          [constructor; [now exists r | exact H2] | now inversion H2].
Qed.


Lemma SaveWallpapers_unfold (d : Downloader W) imageDataList continueOnError w :
  SaveWallpapers d imageDataList continueOnError w
  = match SaveWallpapers_loop d (len imageDataList) continueOnError 0
            imageDataList [] None w with
    | (r, w', t) =>
        (r, w',
         (EvLog LogLevelInfo "开始处理 %d 张壁纸" [fmt.OpInt (len imageDataList)]
          :: t))
    end.
Proof. reflexivity. Qed.


(** ** Metadata *)

Lemma parseImageResponse_returns (c : Client) data w :
  exists images err w' t,
    parseImageResponse c data w = (Ret (images, err), w', t)
    /\ (err = None -> images <> []).
Proof.
  unfold parseImageResponse. step.
  destruct (json_Unmarshal data) as [archiveResp [e|]]; step.
  - do 4 eexists. split; [reflexivity|discriminate].
  - destruct (Images archiveResp) as [|image0 images] eqn:E.
    + do 4 eexists. split; [reflexivity|discriminate].
    + replace (len (image0 :: images) =? 0)%Z with false
        by (unfold len; simpl; lia).
      do 4 eexists. split; [reflexivity|discriminate].
Qed.

Lemma fetchMultipleImageData_returns (c : Client) daysAgo count w :
  exists images err w' t,
    fetchMultipleImageData c daysAgo count w = (Ret (images, err), w', t)
    /\ (err = None -> images <> []).
Proof.
  unfold fetchMultipleImageData. step.
  destruct (FetchRawJsonData_returns c (GetBingApiURL c daysAgo count) w)
    as (body & [e|] & w1 & t1 & E1); rewrite E1.
  - do 4 eexists. split; [reflexivity|discriminate].
  - destruct (parseImageResponse_returns c body w1)
      as (images & [e|] & w2 & t2 & E2 & Hne);
      cbv beta iota delta [bind ret emit Logger_Debug Logger_Error] in E2;
      rewrite E2.
    + do 4 eexists. split; [reflexivity|discriminate].
    + do 4 eexists. split; [reflexivity|exact Hne].
Qed.

(** [FetchImageData] always returns, and a nil error comes with a record. *)
Lemma FetchImageData_returns (c : Client) daysAgo w :
  exists imageData err w' t,
    FetchImageData c daysAgo w = (Ret (imageData, err), w', t)
    /\ (err = None -> imageData <> None).
Proof.
  unfold FetchImageData. step.
  destruct (fetchMultipleImageData_returns c daysAgo 1 w)
    as (images & [e|] & w1 & t1 & E1 & Hne);
    cbv beta iota delta [bind ret emit Logger_Info] in E1; rewrite E1.
  - do 4 eexists. split; [reflexivity|discriminate].
  - destruct images as [|image0 images]; [now elim (Hne eq_refl)|].
    do 4 eexists. split; [reflexivity|discriminate].
Qed.

Lemma FetchAndSaveWallpaper_metadata_failed (d : Downloader W) daysAgo w
    imageData e w1 t1 :
  FetchImageData (Downloader_Client d) daysAgo w = (Ret (imageData, Some e), w1, t1) ->
  exists t,
    FetchAndSaveWallpaper d daysAgo w
    = (Ret (None, fmt.Errorf "获取图片数据失败: %v" [fmt.OpError (Some e)]), w1, t)
    /\ In (day_started daysAgo) t.
Proof.
  intros E. unfold FetchAndSaveWallpaper. step.
  cbv beta iota delta [bind ret emit Logger_Info Logger_Error Logger_Debug] in E.
  rewrite E. eexists. split; [reflexivity|]. now left.
Qed.

Lemma FetchAndSaveWallpaper_metadata_fetched (d : Downloader W) daysAgo w
    imageData w1 t1 r w2 t2 :
  FetchImageData (Downloader_Client d) daysAgo w
    = (Ret (Some imageData, None), w1, t1) ->
  SaveWallpaper d imageData daysAgo w1 = (r, w2, t2) ->
  exists t,
    FetchAndSaveWallpaper d daysAgo w = (r, w2, t)
    /\ In (day_started daysAgo) t.
Proof.
  intros E1 E2. unfold FetchAndSaveWallpaper. step.
  cbv beta iota delta [bind ret emit Logger_Info Logger_Error Logger_Debug] in E1.
  rewrite E1, E2. eexists. split; [reflexivity|]. now left.
Qed.

(** Every call of [FetchAndSaveWallpaper] returns; without an error it
    returns a good entry, with an error either no record at all (the
    metadata could not be fetched) or one that carries the error. *)
Lemma FetchAndSaveWallpaper_returns (d : Downloader W) daysAgo w :
  well_behaved (Generator (Downloader_Storage d)) ->
  exists entry err w' t,
    FetchAndSaveWallpaper d daysAgo w = (Ret (entry, err), w', t)
    /\ In (day_started daysAgo) t
    /\ (err = None -> entry_ok entry)
    /\ (err <> None -> entry = None \/ entry_failed entry)
    /\ (forall imageData e w1 t1,
          FetchImageData (Downloader_Client d) daysAgo w
          = (Ret (imageData, Some e), w1, t1) ->
          entry = None /\ err <> None).
Proof.
  intros Hg.
  destruct (FetchImageData_returns (Downloader_Client d) daysAgo w)
    as (imageData & [e|] & w1 & t1 & E1 & Hsome).
  - destruct (FetchAndSaveWallpaper_metadata_failed d daysAgo w _ _ _ _ E1)
      as (t & E & Hin).
    do 4 eexists. split; [exact E|]. split; [exact Hin|].
    unfold fmt.Errorf. repeat split; try discriminate. now left.
  - destruct imageData as [imageData|]; [|now elim (Hsome eq_refl)].
    destruct (SaveWallpaper_entry d imageData daysAgo w1 Hg)
      as (entry & err & w2 & t2 & E2 & Hok & Hbad).
    destruct (FetchAndSaveWallpaper_metadata_fetched d daysAgo w _ _ _ _ _ _ E1 E2)
      as (t & E & Hin).
    do 4 eexists. split; [exact E|]. split; [exact Hin|].
    split; [exact Hok|]. split; [intros H; right; exact (Hbad H)|].
    intros ? ? ? ? E'. rewrite E1 in E'. discriminate.
Qed.

Ltac in_trace :=
  match goal with
  | H : In ?x ?t |- In ?x ?t => exact H
  | |- In ?x (?a ++ ?b) =>
      apply in_or_app; ((left; in_trace) || (right; in_trace))
  | |- In ?x (?a :: ?b) => (left; reflexivity) || (right; in_trace)
  end.

(** With [continueOnError] the loop of [FetchAndSaveWallpapers] visits
    every day; a day appends one entry, or none when its metadata could not
    be fetched. *)
Lemma FetchAndSaveWallpapers_loop_continue (d : Downloader W) (days : Z) :
  well_behaved (Generator (Downloader_Storage d)) ->
  forall indices results lastError w,
  exists entries err w' t,
    FetchAndSaveWallpapers_loop d days true indices results lastError w
    = (Ret ((results ++ entries)%list, err), w', t)
    /\ (List.length entries <= List.length indices)%nat
    /\ Forall (fun entry => entry_ok entry \/ entry_failed entry) entries
    /\ (forall i, In i indices -> In (day_started i) t)
    /\ In (days_finished days (results ++ entries)) t
    /\ (lastError <> None -> err <> None)
    /\ (forall k, In k indices -> fails (FetchImageData (Downloader_Client d) k) ->
          (List.length entries < List.length indices)%nat /\ err <> None).
Proof.
  intros Hg. induction indices as [|i indices IH]; intros results lastError w.
  - exists [], (if not_nil lastError then
                  fmt.Errorf "有部分壁纸处理失败: %v" [fmt.OpError lastError]
                else None), w.
    eexists. cbn [FetchAndSaveWallpapers_loop].
    unfold FetchAndSaveWallpapers_end. step.
    rewrite andb_true_r, app_nil_r.
    split; [destruct lastError; reflexivity|].
    split; [auto|]. split; [constructor|]. split; [intros ? []|].
    split; [now left|]. split; [|intros ? []].
    destruct lastError; [discriminate|intros H; now elim H].
  - cbn [FetchAndSaveWallpapers_loop].
    destruct (FetchAndSaveWallpaper_returns d i w Hg)
      as (entry & e & w1 & t1 & E & Hin & Hok & Hbad & Hmeta).
    destruct (pause_returns i days w1) as (tp & Ep).
    cbv beta iota delta [bind ret emit Logger_Debug time_Sleep] in Ep.
    step. rewrite E. cbn [negb].
    destruct e as [e|].
    + set (lastError' := fmt.Errorf "处理第 %d 天的壁纸失败: %v"
                           [fmt.OpInt i; fmt.OpError (Some e)]).
      assert (lastError' <> None) as Hlast by discriminate.
      destruct (Hbad ltac:(discriminate)) as [->|(r & -> & Hr)].
      * destruct (IH results lastError' w1)
          as (entries & err & w' & t & E' & Hlen & HF & Hdays & Hfin & Herr & Hk).
        rewrite Ep, E'. cbv beta iota.
        exists entries, err, w'. eexists. split; [reflexivity|].
        split; [simpl; lia|]. split; [exact HF|].
        split. { intros j [<-|Hj]; [|specialize (Hdays j Hj)]. in_trace. in_trace. }
        split; [in_trace|]. split; [auto|].
        intros k _ _. split; [simpl; lia | auto].
      * destruct (IH (results ++ [Some r])%list lastError' w1)
          as (entries & err & w' & t & E' & Hlen & HF & Hdays & Hfin & Herr & Hk).
        rewrite Ep, E'. cbv beta iota. rewrite <- app_assoc in *. cbn [app] in *.
        exists (Some r :: entries), err, w'. eexists. split; [reflexivity|].
        split; [simpl; lia|].
        split; [constructor; [right; now exists r | exact HF]|].
        split; [intros j [<-|Hj]; [|specialize (Hdays j Hj)]; in_trace|].
        split; [in_trace|]. split; [auto|].
        intros k [<-|Hin'] Hfails.
        -- destruct (Hfails w) as (x & e' & w0 & t0 & E0).
           destruct (Hmeta _ _ _ _ E0) as [Hnone _]. discriminate.
        -- destruct (Hk k Hin' Hfails). split; [simpl; lia | auto].
    + destruct (Hok eq_refl) as (r & -> & Hr).
      destruct (IH (results ++ [Some r])%list lastError w1)
        as (entries & err & w' & t & E' & Hlen & HF & Hdays & Hfin & Herr & Hk).
      rewrite Ep, E'. cbv beta iota. rewrite <- app_assoc in *. cbn [app] in *.
      exists (Some r :: entries), err, w'. eexists. split; [reflexivity|].
      split; [simpl; lia|].
      split; [constructor; [left; now exists r | exact HF]|].
      split; [intros j [<-|Hj]; [|specialize (Hdays j Hj)]; in_trace|].
      split; [in_trace|]. split; [auto|].
      intros k [<-|Hin'] Hfails.
      * destruct (Hfails w) as (x & e' & w0 & t0 & E0).
        destruct (Hmeta _ _ _ _ E0) as [Hnone _]. discriminate.
      * destruct (Hk k Hin' Hfails). split; [simpl; lia | auto].
Qed.

Lemma loop_indices_In (days i : Z) :
  In i (loop_indices days) <-> (0 <= i < days)%Z.
Proof.
  unfold loop_indices. rewrite in_map_iff. split.
  - intros (n & <- & Hn). apply in_seq in Hn. lia.
  - intros Hi. exists (Z.to_nat i). split; [lia|]. apply in_seq. lia.
Qed.

Lemma loop_indices_length (days : Z) :
  List.length (loop_indices days) = Z.to_nat days.
Proof. unfold loop_indices. now rewrite length_map, length_seq. Qed.

Lemma FetchAndSaveWallpapers_unfold (d : Downloader W) days continueOnError w :
  (0 <= days)%Z ->
  FetchAndSaveWallpapers d days continueOnError w
  = match FetchAndSaveWallpapers_loop d days continueOnError
            (loop_indices days) [] None w with
    | (r, w', t) =>
        (r, w', (EvLog LogLevelInfo "开始处理最近 %d 天的壁纸" [fmt.OpInt days] :: t))
    end.
Proof.
  intros Hdays. unfold FetchAndSaveWallpapers.
  replace (days <? 0)%Z with false by lia. reflexivity.
Qed.

(** [C9] With [continueOnError], a day [k] whose metadata cannot be fetched
    makes [FetchAndSaveWallpaper] return a nil record, and
    [FetchAndSaveWallpapers] then returns fewer than [days] entries, none of
    them nil, although every day was started and the closing log line was
    written. *)
Theorem FetchAndSaveWallpapers_skips_failed_metadata (c : Client)
    (outputDir : string) (saveJson : bool) (days k : Z) :
  let d := default_downloader c outputDir saveJson in
  (0 <= k < days)%Z ->
  fails (FetchImageData c k) ->
  forall w,
    (exists e w' t, FetchAndSaveWallpaper d k w = (Ret (None, Some e), w', t))
    /\ exists results err w' t,
         FetchAndSaveWallpapers d days true w = (Ret (results, Some err), w', t)
         /\ (len results < days)%Z
         /\ Forall (fun entry => entry <> None) results
         /\ (forall i, (0 <= i < days)%Z -> In (day_started i) t)
         /\ In (days_finished days results) t.
Proof.
  intros d Hk Hfails w.
  assert (well_behaved (Generator (Downloader_Storage d))) as Hg
    by apply NewDefaultFilenameGenerator_well_behaved.
  split.
  - destruct (Hfails w) as (x & e & w1 & t1 & E1).
    destruct (FetchAndSaveWallpaper_metadata_failed d k w _ _ _ _ E1)
      as (t & E & _).
    unfold fmt.Errorf in E. do 3 eexists. exact E.
  - destruct (FetchAndSaveWallpapers_loop_continue d days Hg
                (loop_indices days) [] None w)
      as (entries & err & w' & t & E & Hlen & HF & Hdays & Hfin & _ & Hstrict).
    cbn [app] in *.
    destruct (Hstrict k (proj2 (loop_indices_In days k) Hk) Hfails)
      as [Hlt Herr].
    rewrite loop_indices_length in Hlt.
    destruct err as [err|]; [|now elim Herr].
    exists entries, err, w'. eexists. split.
    + rewrite FetchAndSaveWallpapers_unfold by lia. rewrite E. reflexivity.
    + split; [unfold len; lia|]. split.
      * eapply Forall_impl; [|exact HF].
        intros entry [(r & -> & _)|(r & -> & _)]; discriminate.
      * split; [|now right].
        intros i Hi. right. apply Hdays. now apply loop_indices_In.
Qed.

(** ** Stopping at the first failure *)

Lemma SaveWallpaper_succeeds (d : Downloader W) imageData :
  well_behaved (Generator (Downloader_Storage d)) ->
  succeeds (FetchRawImageData (Downloader_Client d) imageData) ->
  (forall b, succeeds (SaveImage (Downloader_Storage d) b imageData)) ->
  forall daysAgo w, exists r w' t,
    SaveWallpaper d imageData daysAgo w = (Ret (Some r, None), w', t)
    /\ saved_entry imageData (Some r).
Proof.
  intros Hg Hfetch Hsave daysAgo w.
  destruct (Hfetch w) as (b & w1 & t1 & E1).
  destruct (Hsave b w1) as (p & w2 & t2 & E2).
  destruct (SaveImage_returns (Downloader_Storage d) b imageData w1 Hg)
    as (p' & e' & w2' & t2' & E2' & Hp & _).
  rewrite E2 in E2'. injection E2' as <- <- <- <-.
  destruct (SaveWallpaper_image_saved d imageData daysAgo _ _ _ _ _ _ _ Hg E1 E2)
    as (jp & je & w3 & t3 & E & _).
  do 3 eexists. split; [exact E|]. eexists. split; [reflexivity|].
  simpl. repeat split. now apply Hp.
Qed.

Lemma SaveWallpaper_fails (d : Downloader W) imageData :
  fails (FetchRawImageData (Downloader_Client d) imageData) ->
  forall daysAgo w, exists r e w' t,
    SaveWallpaper d imageData daysAgo w = (Ret (Some r, Some e), w', t)
    /\ DownloadErr r <> None.
Proof.
  intros Hfetch daysAgo w.
  destruct (Hfetch w) as (b & e & w1 & t1 & E1).
  destruct (SaveWallpaper_fetch_failed d imageData daysAgo _ _ _ _ _ E1)
    as (t & E).
  unfold fmt.Errorf in E. do 4 eexists. split; [exact E|]. discriminate.
Qed.

(** Without [continueOnError] the loop of [SaveWallpapers] returns at the
    first record that fails, before that record's result is appended. *)
Lemma SaveWallpapers_loop_stop (d : Downloader W) (n : Z) pre bad post :
  (forall imageData, In imageData pre ->
     forall daysAgo w, exists r w' t,
       SaveWallpaper d imageData daysAgo w = (Ret (Some r, None), w', t)
       /\ saved_entry imageData (Some r)) ->
  (forall daysAgo w, exists r e w' t,
     SaveWallpaper d bad daysAgo w = (Ret (r, Some e), w', t)) ->
  forall i results lastError w,
  exists entries err w' t,
    SaveWallpapers_loop d n false i (pre ++ bad :: post) results lastError w
    = (Ret ((results ++ entries)%list, Some err), w', t)
    /\ Forall2 saved_entry pre entries.
Proof.
  intros Hpre Hbad. induction pre as [|imageData pre IH];
    intros i results lastError w; cbn [app SaveWallpapers_loop]; step.
  - destruct (Hbad i w) as (r & e & w1 & t1 & E). rewrite E. cbn [negb].
    exists []. rewrite (app_nil_r results). unfold fmt.Errorf.
    do 3 eexists. split; [reflexivity|constructor].
  - destruct (Hpre imageData (or_introl eq_refl) i w)
      as (r & w1 & t1 & E & Hr).
    rewrite E.
    destruct (pause_returns i n w1) as (tp & Ep).
    cbv beta iota delta [bind ret emit Logger_Debug time_Sleep] in Ep.
    destruct (IH (fun x Hx => Hpre x (or_intror Hx)) (i + 1)%Z
                (results ++ [Some r])%list lastError w1)
      as (entries & err & w' & t & E' & HF).
    rewrite Ep, E'. cbv beta iota. rewrite <- app_assoc. cbn [app].
    exists (Some r :: entries). do 3 eexists.
    split; [reflexivity|]. now constructor.
Qed.

(** The same for the loop of [FetchAndSaveWallpapers]. *)
Lemma FetchAndSaveWallpapers_loop_stop (d : Downloader W) (days : Z)
    (indices : list Z) (pre : list ImageData) (k : Z) (post : list Z) :
  Forall2 (fun i imageData =>
             forall w, exists r w' t,
               FetchAndSaveWallpaper d i w = (Ret (Some r, None), w', t)
               /\ saved_entry imageData (Some r))
    indices pre ->
  (forall w, exists r e w' t,
     FetchAndSaveWallpaper d k w = (Ret (r, Some e), w', t)) ->
  forall results lastError w,
  exists entries err w' t,
    FetchAndSaveWallpapers_loop d days false (indices ++ k :: post)
      results lastError w
    = (Ret ((results ++ entries)%list, Some err), w', t)
    /\ Forall2 saved_entry pre entries.
Proof.
  intros Hpre Hbad. induction Hpre as [|i imageData indices pre Hi _ IH];
    intros results lastError w; cbn [app FetchAndSaveWallpapers_loop]; step.
  - destruct (Hbad w) as (r & e & w1 & t1 & E). rewrite E. cbn [negb].
    exists []. rewrite (app_nil_r results). unfold fmt.Errorf.
    do 3 eexists. split; [reflexivity|constructor].
  - destruct (Hi w) as (r & w1 & t1 & E & Hr).
    rewrite E.
    destruct (pause_returns i days w1) as (tp & Ep).
    cbv beta iota delta [bind ret emit Logger_Debug time_Sleep] in Ep.
    destruct (IH (results ++ [Some r])%list lastError w1)
      as (entries & err & w' & t & E' & HF).
    rewrite Ep, E'. cbv beta iota. rewrite <- app_assoc. cbn [app].
    exists (Some r :: entries). do 3 eexists.
    split; [reflexivity|]. now constructor.
Qed.

Lemma loop_indices_split (days : Z) (m : nat) :
  (Z.of_nat m < days)%Z ->
  loop_indices days
  = (map Z.of_nat (seq 0 m)
     ++ Z.of_nat m :: map Z.of_nat (seq (S m) (Z.to_nat days - S m)))%list.
Proof.
  intros Hm. unfold loop_indices.
  replace (Z.to_nat days) with (m + S (Z.to_nat days - S m))%nat at 1 by lia.
  rewrite seq_app, map_app. reflexivity.
Qed.

Lemma Forall2_seq_nth {A} (P : Z -> A -> Prop) (l : list A) (start : nat) :
  (forall i a, nth_error l i = Some a -> P (Z.of_nat (start + i)) a) ->
  Forall2 P (map Z.of_nat (seq start (List.length l))) l.
Proof.
  revert start. induction l as [|a l IH]; intros start H; simpl; constructor.
  - specialize (H 0%nat a eq_refl). now rewrite Nat.add_0_r in H.
  - apply IH. intros i b Hi. specialize (H (S i) b Hi).
    now replace (S start + i)%nat with (start + S i)%nat by lia.
Qed.

Lemma saved_entries_stopped_after pre results :
  Forall2 saved_entry pre results -> stopped_after pre results.
Proof.
  intros HF. split; [symmetry; exact (Forall2_length HF)|]. split; [exact HF|].
  induction HF as [|imageData entry pre results Hentry _ IH]; intros r [].
  - destruct Hentry as (r' & -> & _ & Hr & _). congruence.
  - now apply IH.
Qed.

(** [C1], as the code has it.  Without [continueOnError], when the records
    before some index are fetched and saved and the image fetch of the
    record at that index fails, [SaveWallpapers] returns a terminal error
    and exactly the entries of the records before it: the failing record's
    partial result, which [SaveWallpaper] did return with its
    [DownloadErr] set, is not appended.  [FetchAndSaveWallpapers] does the
    same day by day.  (The claim is the case of five records with the
    failure at index 2: the list has the two entries of indices 0 and 1.) *)
Theorem stop_at_first_failure_drops_failed_record (c : Client)
    (outputDir : string) (saveJson : bool)
    (pre : list ImageData) (bad : ImageData) (post : list ImageData) :
  let d := default_downloader c outputDir saveJson in
  (forall imageData, In imageData pre ->
     succeeds (FetchRawImageData c imageData)
     /\ forall b, succeeds (SaveImage (Downloader_Storage d) b imageData)) ->
  fails (FetchRawImageData c bad) ->
  (forall daysAgo w, exists r e w' t,
      SaveWallpaper d bad daysAgo w = (Ret (Some r, Some e), w', t)
      /\ DownloadErr r <> None)
  /\ (forall w, exists results err w' t,
        SaveWallpapers d (pre ++ bad :: post) false w
        = (Ret (results, Some err), w', t)
        /\ stopped_after pre results)
  /\ (forall days,
        (Z.of_nat (List.length pre) < days)%Z ->
        (forall i imageData, nth_error (pre ++ [bad]) i = Some imageData ->
           metadata_is c (Z.of_nat i) imageData) ->
        forall w, exists results err w' t,
          FetchAndSaveWallpapers d days false w
          = (Ret (results, Some err), w', t)
          /\ stopped_after pre results).
Proof.
  intros d Hpre Hbad.
  assert (well_behaved (Generator (Downloader_Storage d))) as Hg
    by apply NewDefaultFilenameGenerator_well_behaved.
  assert (forall imageData, In imageData pre ->
            forall daysAgo w, exists r w' t,
              SaveWallpaper d imageData daysAgo w = (Ret (Some r, None), w', t)
              /\ saved_entry imageData (Some r)) as Hok.
  { intros imageData Hin. destruct (Hpre imageData Hin) as [Hf Hs].
    now apply SaveWallpaper_succeeds. }
  pose proof (SaveWallpaper_fails d bad Hbad) as Hfail.
  split; [exact Hfail|]. split.
  - intros w.
    destruct (SaveWallpapers_loop_stop d (len (pre ++ bad :: post)) pre bad post
                Hok) with (i := 0%Z) (results := @nil (option DownloadResult))
                          (lastError := @None error) (w := w)
      as (entries & err & w' & t & E & HF).
    { intros daysAgo w0. destruct (Hfail daysAgo w0) as (r & e & w1 & t1 & E & _).
      now exists (Some r), e, w1, t1. }
    cbn [app] in E. exists entries, err, w'. eexists. split.
    + rewrite SaveWallpapers_unfold, E. reflexivity.
    + now apply saved_entries_stopped_after.
  - intros days Hdays Hmeta w.
    destruct (FetchAndSaveWallpapers_loop_stop d days
                (map Z.of_nat (seq 0 (List.length pre))) pre
                (Z.of_nat (List.length pre))
                (map Z.of_nat (seq (S (List.length pre))
                                 (Z.to_nat days - S (List.length pre)))))
      with (results := @nil (option DownloadResult))
           (lastError := @None error) (w := w)
      as (entries & err & w' & t & E & HF).
    { apply Forall2_seq_nth. intros i imageData Hi w0. cbn [Nat.add].
      destruct (Hmeta i imageData) with (w := w0) as (w1 & t1 & E1).
      { rewrite nth_error_app1; [exact Hi|]. apply nth_error_Some. congruence. }
      destruct (Hok imageData (nth_error_In _ _ Hi) (Z.of_nat i) w1)
        as (r & w2 & t2 & E2 & Hr).
      destruct (FetchAndSaveWallpaper_metadata_fetched d _ _ _ _ _ _ _ _ E1 E2)
        as (t & E & _).
      now exists r, w2, t. }
    { intros w0.
      destruct (Hmeta (List.length pre) bad) with (w := w0) as (w1 & t1 & E1).
      { rewrite nth_error_app2, Nat.sub_diag; [reflexivity|lia]. }
      destruct (Hfail (Z.of_nat (List.length pre)) w1)
        as (r & e & w2 & t2 & E2 & _).
      destruct (FetchAndSaveWallpaper_metadata_fetched d _ _ _ _ _ _ _ _ E1 E2)
        as (t & E & _).
      now exists (Some r), e, w2, t. }
    cbn [app] in E. exists entries, err, w'. eexists. split.
    + rewrite FetchAndSaveWallpapers_unfold by lia.
      rewrite (loop_indices_split days (List.length pre) Hdays), E. reflexivity.
    + now apply saved_entries_stopped_after.
Qed.

End Facts.

(** ** Concrete runs *)

Lemma GenerateFilename_aurora_witness :
  Startdate aurora = "20240115" /\ Title aurora = "Aurora Borealis"
  /\ (exists t,
        GenerateImageFilename NewDefaultFilenameGenerator aurora "/out" no_files
        = (Ret "/out/20240115_Aurora_Borealis.jpg", no_files, t))
  /\ (exists t,
        GenerateJsonFilename NewDefaultFilenameGenerator aurora "/out" no_files
        = (Ret "/out/bing_data_20240115.json", no_files, t)).
Proof.
  split; [reflexivity|]. split; [reflexivity|].
  apply (GenerateFilename_aurora aurora no_files); reflexivity.
Defined.

Section RefusedImage.

#[local] Existing Instance refused_image_env.

Lemma days_out_of_range_rejected_witness :
  (17 < 1 \/ 16 < 17)%Z
  /\ FetchMultipleImageData sample_client 17 no_files
     = (Ret ([], Some (mkError "days 必须在 1-16 之间，当前值: 17")), no_files, [])
  /\ DownloadLatestWallpapers sample_downloader 17 true no_files
     = (Ret ([], Some (mkError "days 必须在 1-16 之间，当前值: 17")), no_files, []).
Proof.
  split; [right; reflexivity|].
  apply (days_out_of_range_rejected sample_client sample_downloader 17 true no_files).
  right; reflexivity.
Defined.

Lemma stop_at_first_failure_drops_failed_record_witness :
  (forall imageData, In imageData [aurora; sample "20240114" "Day 1"] ->
     succeeds (FetchRawImageData sample_client imageData)
     /\ forall b,
          succeeds (SaveImage (Downloader_Storage sample_downloader) b imageData))
  /\ fails (FetchRawImageData sample_client day2)
  /\ (forall w, exists results err w' t,
        SaveWallpapers sample_downloader five_days false w
        = (Ret (results, Some err), w', t)
        /\ stopped_after [aurora; sample "20240114" "Day 1"] results)
  /\ (forall w, exists results err w' t,
        FetchAndSaveWallpapers sample_downloader 5 false w
        = (Ret (results, Some err), w', t)
        /\ stopped_after [aurora; sample "20240114" "Day 1"] results).
Proof.
  assert (forall imageData, In imageData [aurora; sample "20240114" "Day 1"] ->
     succeeds (FetchRawImageData sample_client imageData)
     /\ forall b,
          succeeds (SaveImage (Downloader_Storage sample_downloader) b imageData))
    as Hpre.
  { intros imageData [<-|[<-|[]]]; (split; [|intros b]); intros w;
      do 3 eexists; vm_compute; reflexivity. }
  assert (fails (FetchRawImageData sample_client day2)) as Hbad.
  { intros w. do 4 eexists. vm_compute. reflexivity. }
  split; [exact Hpre|]. split; [exact Hbad|].
  destruct (stop_at_first_failure_drops_failed_record sample_client "/out" true
              [aurora; sample "20240114" "Day 1"] day2
              [sample "20240112" "Day 3"; sample "20240111" "Day 4"] Hpre Hbad)
    as (_ & Hlist & Hdays).
  split; [exact Hlist|].
  apply (Hdays 5%Z); [reflexivity|].
  intros [|[|[|i]]] imageData Hi; cbn in Hi;
    try (destruct i; discriminate Hi);
    injection Hi as <-; intros w; do 2 eexists; vm_compute; reflexivity.
Defined.

(** [C1], as the claim words it, fails: with five records and the image
    fetch of index 2 refused, no returned list of length 2 holds the failing
    day's record. *)
Lemma stop_at_first_failure_keeps_failed_record_false :
  ~ (exists results err w' t,
       SaveWallpapers sample_downloader five_days false no_files
       = (Ret (results, Some err), w', t)
       /\ List.length results = 2%nat
       /\ exists r, In (Some r) results /\ ImageDataOf r = day2).
Proof.
  intros (results & err & w' & t & E & _ & r & Hin & Hr).
  vm_compute in E. injection E as <- _ _ _.
  destruct Hin as [[= <-]|[[= <-]|[]]]; discriminate Hr.
Qed.

(** The run itself: two saved images, then the terminal error of day 2. *)
Example SaveWallpapers_stop_run :
  match fst (fst (SaveWallpapers sample_downloader five_days false no_files)) with
  | Ret (results, err) =>
      map (option_map ImagePath) results
      = [Some "/out/20240115_Aurora_Borealis.jpg"; Some "/out/20240114_Day_1.jpg"]
      /\ map (option_map DownloadErr) results = [Some None; Some None]
      /\ err = Some (mkError
                       "处理第 2 张壁纸失败: 图片下载失败: 请求失败: connection refused")
  | Panic _ => False
  end.
Proof. vm_compute. repeat split. Qed.

Example FetchAndSaveWallpapers_stop_run :
  match fst (fst (FetchAndSaveWallpapers sample_downloader 5 false no_files)) with
  | Ret (results, err) =>
      map (option_map ImagePath) results
      = [Some "/out/20240115_Aurora_Borealis.jpg"; Some "/out/20240114_Day_1.jpg"]
      /\ err = Some (mkError
                       "处理第 2 天的壁纸失败: 图片下载失败: 请求失败: connection refused")
  | Panic _ => False
  end.
Proof. vm_compute. repeat split. Qed.

End RefusedImage.


Section UnwritableImage.

#[local] Existing Instance unwritable_image_env.


Example SaveWallpapers_continue_run :
  match fst (fst (SaveWallpapers sample_downloader five_days true no_files)) with
  | Ret (results, err) =>
      map (option_map ImagePath) results
      = [Some "/out/20240115_Aurora_Borealis.jpg"; Some "/out/20240114_Day_1.jpg";
         Some ""; Some "/out/20240112_Day_3.jpg"; Some "/out/20240111_Day_4.jpg"]
      /\ map (option_map DownloadErr) results
         = [Some None; Some None; Some (Some (mkError "permission denied"));
            Some None; Some None]
      /\ err = Some (mkError
                       "有部分壁纸处理失败: 处理第 2 张壁纸失败: 图片保存失败: permission denied")
  | Panic _ => False
  end.
Proof. vm_compute. repeat split. Qed.

End UnwritableImage.

Section NoMetadata.

#[local] Existing Instance no_metadata_env.

Lemma FetchAndSaveWallpapers_skips_failed_metadata_witness :
  (0 <= 1 < 3)%Z
  /\ fails (FetchImageData sample_client 1)
  /\ forall w,
       (exists e w' t,
          FetchAndSaveWallpaper sample_downloader 1 w = (Ret (None, Some e), w', t))
       /\ exists results err w' t,
            FetchAndSaveWallpapers sample_downloader 3 true w
            = (Ret (results, Some err), w', t)
            /\ (len results < 3)%Z
            /\ Forall (fun entry => entry <> None) results
            /\ (forall i, (0 <= i < 3)%Z -> In (day_started i) t)
            /\ In (days_finished 3 results) t.
Proof.
  assert (0 <= 1 < 3)%Z as Hk by (split; [discriminate | reflexivity]).
  assert (fails (FetchImageData sample_client 1)) as Hfails.
  { intros w. do 4 eexists. vm_compute. reflexivity. }
  split; [exact Hk|]. split; [exact Hfails|].
  exact (FetchAndSaveWallpapers_skips_failed_metadata sample_client "/out" true
           3 1 Hk Hfails).
Defined.

Example FetchAndSaveWallpapers_continue_run :
  match fst (fst (FetchAndSaveWallpapers sample_downloader 3 true no_files)) with
  | Ret (results, err) =>
      map (option_map ImagePath) results
      = [Some "/out/20240115_Aurora_Borealis.jpg"; Some "/out/20240113_Day_2.jpg"]
      /\ err <> None
  | Panic _ => False
  end.
Proof. vm_compute. repeat split; discriminate. Qed.

Example FetchAndSaveWallpapers_negative_days :
  fst (fst (FetchAndSaveWallpapers sample_downloader (-1) true no_files))
  = Panic "runtime error: makeslice: cap out of range".
Proof. reflexivity. Qed.

End NoMetadata.

Section NoJson.

#[local] Existing Instance no_json_env.

Lemma SaveWallpaper_json_failure_not_fatal_witness :
  exists b w1 t1 w2 t2,
    SaveJsonData sample_downloader = true
    /\ FetchRawImageData sample_client aurora no_files = (Ret (b, None), w1, t1)
    /\ SaveImage (Downloader_Storage sample_downloader) b aurora w1
       = (Ret ("/out/20240115_Aurora_Borealis.jpg", None), w2, t2)
    /\ (exists jb w3 t3,
          FetchRawJsonData sample_client (GetBingApiURL sample_client 0 1) w2
          = (Ret (jb, Some (mkError "请求失败: connection refused")), w3, t3))
    /\ exists r w' t,
         SaveWallpaper sample_downloader aurora 0 no_files
         = (Ret (Some r, None), w', t)
         /\ JsonErr r = Some (mkError "请求失败: connection refused")
         /\ JsonPath r = ""
         /\ DownloadErr r = None
         /\ ImagePath r = "/out/20240115_Aurora_Borealis.jpg"
         /\ ImageDataOf r = aurora.
Proof.
  do 5 eexists.
  match goal with
  | |- ?H1 /\ ?H2 /\ ?H3 /\ ?H4 /\ _ =>
      assert (h1 : H1) by reflexivity;
      assert (h2 : H2) by (vm_compute; reflexivity);
      assert (h3 : H3) by (vm_compute; reflexivity);
      assert (h4 : H4) by (do 3 eexists; vm_compute; reflexivity)
  end.
  split; [exact h1|]. split; [exact h2|]. split; [exact h3|].
  split; [exact h4|].
  exact (SaveWallpaper_json_failure_not_fatal sample_downloader aurora 0
           _ _ _ _ _ _ _ _ h1 h2 h3 (or_introl h4)).
Defined.



(** The run itself: no error, no download error, no image path. *)
Example SaveWallpaper_empty_path_run :
  match fst (fst (SaveWallpaper empty_path_downloader aurora 0 no_files)) with
  | Ret (Some r, err) => err = None /\ DownloadErr r = None /\ ImagePath r = ""
  | _ => False
  end.
Proof. vm_compute. repeat split. Qed.

End NoJson.

(** * Further properties *)

(** ** Dates *)

Lemma length_8_inv (s : string) :
  String.length s = 8%nat ->
  exists a b c d e f g h,
    s = String a (String b (String c (String d
          (String e (String f (String g (String h ""))))))).
Proof.
  intros H.
  do 8 (destruct s as [|? s]; [discriminate H|]).
  destruct s; [|discriminate H]. now do 8 eexists.
Qed.

Lemma len_string_eqb_8 (s : string) :
  (len_string s =? 8)%Z = Nat.eqb (String.length s) 8.
Proof.
  unfold len_string.
  destruct (Nat.eqb_spec (String.length s) 8); [apply Z.eqb_eq | apply Z.eqb_neq]; lia.
Qed.

(** [X1] [FormatDate] succeeds exactly on the strings of 8 bytes, whatever
    the bytes are; a failure returns the empty string; and on the strings it
    accepts it is injective. *)
Theorem FormatDate_checks_length_only :
  (forall s, snd (FormatDate s) = None <-> String.length s = 8%nat)
  /\ (forall s, snd (FormatDate s) <> None -> fst (FormatDate s) = "")
  /\ (forall s1 s2,
        snd (FormatDate s1) = None -> FormatDate s1 = FormatDate s2 -> s1 = s2).
Proof.
  assert (forall s, snd (FormatDate s) = None <-> String.length s = 8%nat) as Hiff.
  { intros s. unfold FormatDate. rewrite (len_string_eqb_8 s).
    destruct (Nat.eqb_spec (String.length s) 8); simpl; split;
      try discriminate; congruence. }
  split; [exact Hiff|]. split.
  - intros s. unfold FormatDate. rewrite (len_string_eqb_8 s).
    destruct (Nat.eqb (String.length s) 8); simpl; [congruence|reflexivity].
  - intros s1 s2 H1 Heq.
    assert (snd (FormatDate s2) = None) as H2 by (now rewrite <- Heq).
    apply Hiff in H1, H2.
    destruct (length_8_inv s1 H1) as (a1 & b1 & c1 & d1 & e1 & f1 & g1 & h1 & ->).
    destruct (length_8_inv s2 H2) as (a2 & b2 & c2 & d2 & e2 & f2 & g2 & h2 & ->).
    cbv in Heq. injection Heq. congruence.
Qed.

Lemma length_append (s t : string) :
  String.length (s ++ t) = (String.length s + String.length t)%nat.
Proof. induction s as [|c s IH]; simpl; [reflexivity | now rewrite IH]. Qed.

Lemma substring_append (s t : string) (n m : nat) :
  (n + m <= String.length s)%nat ->
  substring n m (s ++ t) = substring n m s.
Proof.
  revert n m. induction s as [|c s IH]; intros n m H; simpl in H.
  - assert (n = 0 /\ m = 0)%nat as [-> ->] by lia. now destruct t.
  - destruct n as [|n]; simpl.
    + destruct m as [|m]; [reflexivity|]. f_equal. apply IH. simpl. lia.
    + apply IH. lia.
Qed.

(** [X2] [FormatFullDateTime] succeeds exactly on the strings of at least
    12 bytes and reads only the first 12: whatever follows them does not
    change the result. *)
Theorem FormatFullDateTime_reads_12_bytes :
  (forall s, snd (FormatFullDateTime s) = None <-> (12 <= String.length s)%nat)
  /\ (forall s rest,
        String.length s = 12%nat ->
        FormatFullDateTime (s ++ rest) = FormatFullDateTime s).
Proof.
  split.
  - intros s. unfold FormatFullDateTime, len_string.
    destruct (Z.ltb_spec (Z.of_nat (String.length s)) 12); simpl; split;
      try discriminate; try lia; reflexivity.
  - intros s rest H.
    unfold FormatFullDateTime, len_string. rewrite length_append, H.
    replace (Z.of_nat (12 + String.length rest) <? 12)%Z with false
      by (symmetry; apply Z.ltb_ge; lia).
    unfold slice. now rewrite !substring_append by (rewrite H; simpl; lia).
Qed.

(** [X3] [GetImageSummary] swallows the error of [FormatDate]: a start
    date that is not 8 bytes long leaves no line, as if it were empty. *)
Theorem GetImageSummary_drops_bad_date (imageData : ImageData) :
  String.length (Startdate imageData) <> 8%nat ->
  GetImageSummary imageData = GetImageSummary (set_Startdate imageData "").
Proof.
  intros H. unfold GetImageSummary, FormatDate.
  rewrite (len_string_eqb_8 (Startdate imageData)).
  destruct (Nat.eqb_spec (String.length (Startdate imageData)) 8) as [E|_];
    [contradiction|].
  cbn [negb set_Startdate Startdate Title Copyright String.eqb].
  destruct (String.eqb (Startdate imageData) ""); reflexivity.
Qed.

Lemma GetImageSummary_drops_bad_date_witness :
  String.length (Startdate (sample "2024-01-15" "Aurora")) <> 8%nat
  /\ GetImageSummary (sample "2024-01-15" "Aurora")
     = GetImageSummary (set_Startdate (sample "2024-01-15" "Aurora") "").
Proof.
  assert (String.length (Startdate (sample "2024-01-15" "Aurora")) <> 8%nat) as H
    by discriminate.
  split; [exact H|].
  exact (GetImageSummary_drops_bad_date (sample "2024-01-15" "Aurora") H).
Defined.

(** ** Splitting and cleaning paths *)

Lemma no_slash_cons (c : ascii) (s : string) :
  no_slash (String c s) <-> c <> "/"%char /\ no_slash s.
Proof.
  unfold no_slash, contains. simpl. split.
  - intros H. split; intros E; apply H; [left; now subst | now right].
  - intros [Hc Hs] [E|E]; [now subst | contradiction].
Qed.

Lemma no_slash_append (s t : string) :
  no_slash (s ++ t) <-> no_slash s /\ no_slash t.
Proof. unfold no_slash. rewrite contains_append. tauto. Qed.

Lemma prefix_slash (c : ascii) (s : string) :
  prefix "/" (String c s) = Ascii.eqb "/" c.
Proof.
  change (prefix "/" (String c s))
    with (if ascii_dec "/" c then prefix "" s else false).
  destruct (ascii_dec "/" c) as [<-|Hne].
  - rewrite Ascii.eqb_refl. now destruct s.
  - symmetry. now apply Ascii.eqb_neq.
Qed.

Lemma Split_slash_cons (c : ascii) (s : string) :
  strings.Split (String c s) "/" =
  if Ascii.eqb "/" c then "" :: strings.Split s "/"
  else match strings.Split s "/" with
       | p :: ps => String c p :: ps
       | [] => [String c ""]
       end.
Proof.
  unfold strings.Split. cbn [strings.split_from]. rewrite prefix_slash.
  destruct (Ascii.eqb "/" c); cbn [String.length Nat.sub];
    now destruct (strings.split_from "/" 0 s).
Qed.

Lemma Split_no_slash (s : string) : no_slash s -> strings.Split s "/" = [s].
Proof.
  induction s as [|c s IH]; [reflexivity|].
  intros H. apply no_slash_cons in H. destruct H as [Hc Hs].
  rewrite Split_slash_cons, (IH Hs).
  replace (Ascii.eqb "/" c) with false; [reflexivity|].
  symmetry. apply Ascii.eqb_neq. congruence.
Qed.

Lemma Split_at_slash (a b : string) :
  strings.Split (a ++ "/" ++ b) "/"
  = (strings.Split a "/" ++ strings.Split b "/")%list.
Proof.
  induction a as [|c a IH].
  - change ("" ++ "/" ++ b) with (String "/" b).
    now rewrite Split_slash_cons.
  - change (String c a ++ "/" ++ b) with (String c (a ++ "/" ++ b)).
    rewrite !Split_slash_cons, IH.
    destruct (Ascii.eqb "/" c); [reflexivity|].
    pose proof (Split_not_empty a "/") as Hne.
    destruct (strings.Split a "/"); [contradiction | reflexivity].
Qed.

Lemma Split_pieces_no_slash (s : string) : Forall no_slash (strings.Split s "/").
Proof.
  induction s as [|c s IH]; [repeat constructor; intros []|].
  rewrite Split_slash_cons.
  destruct (Ascii.eqb_spec "/" c) as [_|Hne].
  - constructor; [intros []|exact IH].
  - destruct (strings.Split s "/") as [|p ps].
    + repeat constructor. apply no_slash_cons. split; [congruence|intros []].
    + inversion IH; subst. constructor; [|assumption].
      apply no_slash_cons. split; [congruence|assumption].
Qed.

Lemma kept_ok_app (rooted : bool) (a b : list string) :
  kept_ok rooted (a ++ b) -> kept_ok rooted b.
Proof. induction a as [|x a IH]; [trivial|]. intros (_ & _ & H). now apply IH. Qed.

Lemma is_dotdot_spec (e : string) : reflect (e = "..") (filepath.is_dotdot e).
Proof. apply String.eqb_spec. Qed.

Lemma dotdot_kept : no_slash ".." /\ ".." <> "" /\ ".." <> ".".
Proof.
  split; [intros [H|[H|[]]]; discriminate H | split; discriminate].
Qed.

Lemma clean_elems_ok (rooted : bool) (elems kept : list string) :
  Forall no_slash elems -> kept_ok rooted kept ->
  kept_ok rooted (rev (filepath.clean_elems rooted kept elems)).
Proof.
  intros Hel. revert kept.
  induction Hel as [|e elems He _ IH]; intros kept Hk;
    cbn [filepath.clean_elems].
  - now rewrite rev_involutive.
  - destruct (String.eqb_spec e "") as [->|Hne]; [now apply IH|].
    destruct (String.eqb_spec e ".") as [->|Hnd]; [now apply IH|].
    cbn [orb].
    destruct (is_dotdot_spec e) as [->|Hndd].
    + destruct kept as [|top below].
      * destruct rooted; apply IH; [exact I|].
        split; [exact dotdot_kept|]. split; [|exact I]. intros _. now split.
      * destruct Hk as (Htop & Hdd & Hbelow).
        destruct (is_dotdot_spec top) as [->|Hnt]; apply IH; [|exact Hbelow].
        destruct (Hdd eq_refl) as [Hr Hall].
        split; [exact dotdot_kept|]. split; [|now split].
        intros _. split; [exact Hr | now constructor].
    + apply IH. split; [now repeat split|]. split; [|exact Hk].
      intros ->. now elim Hndd.
Qed.

Lemma clean_elems_app (rooted : bool) (l m kept : list string) :
  filepath.clean_elems rooted kept (l ++ m)
  = filepath.clean_elems rooted
      (rev (filepath.clean_elems rooted kept l)) m.
Proof.
  revert kept. induction l as [|e l IH]; intros kept;
    cbn [app filepath.clean_elems].
  - now rewrite rev_involutive.
  - destruct (String.eqb e "" || String.eqb e "."); [apply IH|].
    destruct (filepath.is_dotdot e); [|apply IH].
    destruct kept as [|top below]; [destruct rooted; apply IH|].
    destruct (filepath.is_dotdot top); apply IH.
Qed.

Lemma clean_elems_plain (rooted : bool) (kept : list string) (e : string) :
  plain_element e ->
  filepath.clean_elems rooted kept [e] = (rev kept ++ [e])%list.
Proof.
  intros (_ & H1 & H2 & H3). cbn [filepath.clean_elems].
  apply String.eqb_neq in H1, H2, H3. unfold filepath.is_dotdot.
  now rewrite H1, H2, H3.
Qed.

Lemma clean_elems_skip (rooted : bool) (kept : list string) :
  filepath.clean_elems rooted kept [""] = rev kept.
Proof. reflexivity. Qed.

(** Cleaning what is already clean changes nothing. *)
Lemma clean_elems_fixed (rooted : bool) (l kept : list string) :
  kept_ok rooted (rev l ++ kept) ->
  filepath.clean_elems rooted kept l = (rev kept ++ l)%list.
Proof.
  revert kept. induction l as [|e l IH]; intros kept H;
    cbn [filepath.clean_elems].
  - now rewrite app_nil_r.
  - cbn [rev] in H. rewrite <- app_assoc in H. cbn [app] in H.
    pose proof (kept_ok_app _ _ _ H) as ((He & Hne & Hnd) & Hdd & Hk).
    apply String.eqb_neq in Hne, Hnd. rewrite Hne, Hnd. cbn [orb].
    pose proof (IH (e :: kept) H) as Hrec.
    cbn [rev] in Hrec. rewrite <- app_assoc in Hrec. cbn [app] in Hrec.
    destruct (is_dotdot_spec e) as [->|_]; [|exact Hrec].
    destruct (Hdd eq_refl) as [-> Hall].
    destruct kept as [|top below]; [exact Hrec|].
    inversion Hall; subst. exact Hrec.
Qed.

Lemma concat_snoc (xs : list string) (f : string) :
  String.concat "/" (xs ++ [f])
  = match xs with
    | [] => f
    | _ => String.concat "/" xs ++ "/" ++ f
    end.
Proof.
  induction xs as [|x xs IH]; [reflexivity|].
  cbn [app]. destruct xs as [|y xs]; [reflexivity|].
  change (String.concat "/" (x :: (y :: xs) ++ [f]))
    with (x ++ "/" ++ String.concat "/" ((y :: xs) ++ [f])).
  rewrite IH.
  change (String.concat "/" (x :: y :: xs))
    with (x ++ "/" ++ String.concat "/" (y :: xs)).
  now rewrite !append_assoc'.
Qed.

Lemma Clean_unfold (path : string) :
  filepath.Clean path
  = let out := (if prefix "/" path then "/" else "")
               ++ String.concat "/" (cleaned_elements path) in
    if String.eqb out "" then "." else out.
Proof. reflexivity. Qed.

Lemma cleaned_elements_ok (path : string) :
  kept_ok (prefix "/" path) (rev (cleaned_elements path)).
Proof. apply clean_elems_ok; [apply Split_pieces_no_slash | exact I]. Qed.

Lemma concat_not_empty (x : string) (xs : list string) :
  x <> "" -> String.concat "/" (x :: xs) <> "".
Proof.
  intros Hx. destruct xs; [exact Hx|].
  change (x ++ "/" ++ String.concat "/" (s :: xs) <> "").
  destruct x; [contradiction|discriminate].
Qed.

Lemma kept_ok_last (rooted : bool) (x : string) (xs : list string) :
  kept_ok rooted (rev (x :: xs)) -> no_slash x /\ x <> "" /\ x <> ".".
Proof.
  cbn [rev]. intros H. apply kept_ok_app in H. now destruct H as (H & _).
Qed.

(** The cleaned form of a path whose elements are [x :: xs]. *)
Lemma Clean_elements (path x : string) (xs : list string) :
  cleaned_elements path = x :: xs ->
  filepath.Clean path
  = (if prefix "/" path then "/" else "") ++ String.concat "/" (x :: xs)
  /\ filepath.Clean path <> "/" /\ filepath.Clean path <> ".".
Proof.
  intros E. pose proof (cleaned_elements_ok path) as Hok. rewrite E in Hok.
  destruct (kept_ok_last _ _ _ Hok) as (Hns & Hne & Hnd).
  pose proof (concat_not_empty x xs Hne) as Hc.
  rewrite Clean_unfold, E. cbv zeta.
  destruct (prefix "/" path).
  - cbn [append]. destruct (String.concat "/" (x :: xs)) eqn:Ec; [contradiction|].
    cbn. repeat split; discriminate.
  - cbn [append].
    destruct (String.eqb_spec (String.concat "/" (x :: xs)) "") as [E0|_];
      [contradiction|].
    split; [reflexivity|].
    destruct xs as [|y ys].
    + cbn. split; [|exact Hnd]. intros ->. apply Hns. now left.
    + change (String.concat "/" (x :: y :: ys))
        with (x ++ "/" ++ String.concat "/" (y :: ys)).
      destruct x as [|c x]; [contradiction|].
      destruct x; cbn; split; discriminate.
Qed.

Lemma Clean_no_elements (path : string) :
  cleaned_elements path = [] ->
  filepath.Clean path = if prefix "/" path then "/" else ".".
Proof.
  intros E. rewrite Clean_unfold, E. now destruct (prefix "/" path).
Qed.

Lemma prefix_slash_append (a b : string) :
  a <> "" -> prefix "/" (a ++ b) = prefix "/" a.
Proof.
  destruct a as [|c a]; [contradiction|]. intros _.
  change (String c a ++ b) with (String c (a ++ b)). now rewrite !prefix_slash.
Qed.

Lemma cleaned_elements_snoc (a f : string) :
  a <> "" -> plain_element f ->
  cleaned_elements (a ++ "/" ++ f) = (cleaned_elements a ++ [f])%list.
Proof.
  intros Ha Hf. unfold cleaned_elements.
  rewrite (prefix_slash_append a _ Ha), Split_at_slash.
  rewrite (Split_no_slash f (proj1 Hf)), clean_elems_app.
  now rewrite clean_elems_plain, rev_involutive.
Qed.

(** A plain name joined to a directory lands in the cleaned directory. *)
Lemma Join_plain (basePath f : string) :
  plain_element f ->
  filepath.Join [basePath; f] = in_directory (filepath.Clean basePath) f.
Proof.
  intros Hf. pose proof Hf as (Hns & Hne & Hnd & Hndd).
  unfold filepath.Join.
  destruct (String.eqb_spec basePath "") as [->|Hb].
  - apply String.eqb_neq in Hne. rewrite Hne.
    cbn [strings.Join String.concat].
    rewrite Clean_unfold. unfold cleaned_elements.
    rewrite (Split_no_slash f Hns), clean_elems_plain by exact Hf.
    destruct f as [|c f]; [now apply String.eqb_neq in Hne|].
    rewrite prefix_slash.
    replace (Ascii.eqb "/" c) with false.
    + reflexivity.
    + symmetry. apply Ascii.eqb_neq. intros <-. apply Hns. now left.
  - change (strings.Join [basePath; f] "/") with (basePath ++ "/" ++ f).
    rewrite Clean_unfold, (cleaned_elements_snoc basePath f Hb Hf).
    rewrite (prefix_slash_append basePath _ Hb), concat_snoc. cbv zeta.
    destruct (cleaned_elements basePath) as [|x xs] eqn:E.
    + rewrite (Clean_no_elements basePath E).
      destruct (prefix "/" basePath); cbn.
      * reflexivity.
      * apply String.eqb_neq in Hne. now rewrite Hne.
    + destruct (Clean_elements basePath x xs E) as (-> & Hs & Hd).
      unfold in_directory.
      apply String.eqb_neq in Hs, Hd. rewrite Hs, Hd.
      rewrite <- append_assoc'.
      destruct (String.eqb_spec
                  (((if prefix "/" basePath then "/" else "")
                    ++ String.concat "/" (x :: xs)) ++ "/" ++ f) "") as [E0|_];
        [|reflexivity].
      exfalso. destruct (prefix "/" basePath); [discriminate E0|].
      cbn [append] in E0.
      destruct (String.concat "/" (x :: xs)); discriminate E0.
Qed.

Lemma kept_ok_no_slash (rooted : bool) (kept : list string) :
  kept_ok rooted kept -> Forall no_slash kept.
Proof.
  induction kept as [|top below IH]; [constructor|].
  intros ((H & _) & _ & Hb). constructor; [exact H | now apply IH].
Qed.

Lemma cleaned_elements_no_slash (path : string) :
  Forall no_slash (cleaned_elements path).
Proof.
  pose proof (kept_ok_no_slash _ _ (cleaned_elements_ok path)) as H.
  apply Forall_rev in H. now rewrite rev_involutive in H.
Qed.

Lemma Split_concat (x : string) (xs : list string) :
  Forall no_slash (x :: xs) ->
  strings.Split (String.concat "/" (x :: xs)) "/" = x :: xs.
Proof.
  revert x. induction xs as [|y ys IH]; intros x H; inversion H; subst.
  - now apply Split_no_slash.
  - change (String.concat "/" (x :: y :: ys))
      with (x ++ "/" ++ String.concat "/" (y :: ys)).
    rewrite Split_at_slash, (Split_no_slash x), IH by assumption. reflexivity.
Qed.

Lemma prefix_slash_concat (x : string) (xs : list string) :
  no_slash x -> x <> "" -> prefix "/" (String.concat "/" (x :: xs)) = false.
Proof.
  intros Hns Hne. destruct x as [|c x]; [contradiction|].
  assert (Ascii.eqb "/" c = false) as Hc.
  { apply Ascii.eqb_neq. intros <-. apply Hns. now left. }
  destruct xs as [|y ys].
  - cbn [String.concat]. now rewrite prefix_slash.
  - change (String.concat "/" (String c x :: y :: ys))
      with (String c (x ++ "/" ++ String.concat "/" (y :: ys))).
    now rewrite prefix_slash.
Qed.

(** [filepath.Clean] is idempotent. *)
Lemma Clean_idempotent (path : string) :
  filepath.Clean (filepath.Clean path) = filepath.Clean path.
Proof.
  destruct (cleaned_elements path) as [|x xs] eqn:E.
  - rewrite (Clean_no_elements path E). now destruct (prefix "/" path).
  - destruct (Clean_elements path x xs E) as (Hc & _ & _).
    pose proof (cleaned_elements_ok path) as Hok.
    pose proof (cleaned_elements_no_slash path) as Hns.
    rewrite E in Hok, Hns.
    destruct (kept_ok_last _ _ _ Hok) as (Hx & Hne & _).
    assert (prefix "/" (filepath.Clean path) = prefix "/" path
            /\ cleaned_elements (filepath.Clean path) = x :: xs) as [Hp He].
    { rewrite Hc. unfold cleaned_elements.
      destruct (prefix "/" path) eqn:Hr.
      - change ("/" ++ String.concat "/" (x :: xs))
          with ("" ++ "/" ++ String.concat "/" (x :: xs)).
        rewrite Split_at_slash, (Split_concat x xs Hns).
        change ("" ++ "/" ++ String.concat "/" (x :: xs))
          with (String "/" (String.concat "/" (x :: xs))).
        rewrite prefix_slash. split; [reflexivity|].
        change (filepath.clean_elems true [] (x :: xs) = x :: xs).
        apply (clean_elems_fixed true (x :: xs) []).
        now rewrite app_nil_r.
      - cbn [append]. rewrite (prefix_slash_concat x xs Hx Hne).
        rewrite (Split_concat x xs Hns). split; [reflexivity|].
        apply (clean_elems_fixed false (x :: xs) []).
        now rewrite app_nil_r. }
    rewrite (Clean_unfold (filepath.Clean path)), Hp, He.
    rewrite Clean_unfold, E. reflexivity.
Qed.

Lemma Clean_trailing_slash (a : string) :
  a <> "" -> filepath.Clean (a ++ "/") = filepath.Clean a.
Proof.
  intros Ha.
  assert (cleaned_elements (a ++ "/") = cleaned_elements a) as He.
  { unfold cleaned_elements. rewrite (prefix_slash_append a _ Ha).
    change (a ++ "/") with (a ++ "/" ++ "").
    rewrite Split_at_slash, clean_elems_app.
    change (strings.Split "" "/") with [""].
    now rewrite clean_elems_skip, rev_involutive. }
  now rewrite !Clean_unfold, He, (prefix_slash_append a _ Ha).
Qed.

(** ** Reversal, [filepath.Dir] and [filepath.Ext] *)

Lemma string_rev_append (s t : string) :
  string_rev (s ++ t) = string_rev t ++ string_rev s.
Proof.
  induction s as [|c s IH]; cbn [append string_rev].
  - now rewrite append_empty_r.
  - now rewrite IH, append_assoc'.
Qed.

Lemma string_rev_involutive (s : string) : string_rev (string_rev s) = s.
Proof.
  induction s as [|c s IH]; [reflexivity|].
  cbn [string_rev]. now rewrite string_rev_append, IH.
Qed.

Lemma no_slash_rev (s : string) : no_slash s -> no_slash (string_rev s).
Proof.
  induction s as [|c s IH]; [trivial|].
  intros H. apply no_slash_cons in H. destruct H as [Hc Hs].
  cbn [string_rev]. apply no_slash_append. split; [now apply IH|].
  apply no_slash_cons. split; [exact Hc | intros []].
Qed.

Lemma drop_element_no_slash (u v : string) :
  no_slash u -> drop_element (u ++ v) = drop_element v.
Proof.
  induction u as [|c u IH]; [reflexivity|].
  intros H. apply no_slash_cons in H. destruct H as [Hc Hu].
  cbn [append drop_element].
  replace (Ascii.eqb c "/") with false; [now apply IH|].
  symmetry. now apply Ascii.eqb_neq.
Qed.

(** The directory of [dir/name] is [dir], cleaned. *)
Lemma Dir_of_slash (a f : string) :
  no_slash f -> filepath_Dir (a ++ "/" ++ f) = filepath.Clean (a ++ "/").
Proof.
  intros Hf. unfold filepath_Dir.
  rewrite string_rev_append, string_rev_append.
  rewrite append_assoc'.
  rewrite (drop_element_no_slash (string_rev f)) by now apply no_slash_rev.
  change (string_rev "/") with "/". cbn [append drop_element Ascii.eqb Bool.eqb].
  change (String "/" (string_rev a)) with (string_rev "/" ++ string_rev a).
  now rewrite <- string_rev_append, string_rev_involutive.
Qed.

Lemma Dir_of_name (f : string) : no_slash f -> filepath_Dir f = ".".
Proof.
  intros Hf. unfold filepath_Dir.
  rewrite <- (append_empty_r (string_rev f)).
  rewrite drop_element_no_slash by now apply no_slash_rev. reflexivity.
Qed.

Lemma Dir_in_directory (basePath f : string) :
  no_slash f ->
  filepath_Dir (in_directory (filepath.Clean basePath) f)
  = filepath.Clean basePath.
Proof.
  intros Hf. unfold in_directory.
  destruct (String.eqb_spec (filepath.Clean basePath) "/") as [E|Hs].
  - rewrite E. change ("/" ++ f) with ("" ++ "/" ++ f).
    now rewrite Dir_of_slash.
  - destruct (String.eqb_spec (filepath.Clean basePath) ".") as [E|Hd].
    + rewrite E. now apply Dir_of_name.
    + rewrite (Dir_of_slash _ _ Hf), Clean_trailing_slash.
      * apply Clean_idempotent.
      * apply Clean_not_empty.
Qed.

(** ** Generated paths *)

Lemma Sprintf_image_name (date description : string) :
  fmt.Sprintf "%s_%s.jpg" [fmt.OpString date; fmt.OpString description]
  = date ++ "_" ++ description ++ ".jpg".
Proof. reflexivity. Qed.

Lemma Sprintf_json_name (date : string) :
  fmt.Sprintf "bing_data_%s.json" [fmt.OpString date]
  = "bing_data_" ++ date ++ ".json".
Proof. reflexivity. Qed.

Lemma description_no_slash (imageData : ImageData) :
  no_slash (ExtractWallpaperDescription imageData).
Proof.
  rewrite ExtractWallpaperDescription_unfold. intros H.
  apply replace_special_safe in H. apply H. right. now left.
Qed.

Lemma longer_than_dots (s : string) :
  (2 < String.length s)%nat -> s <> "" /\ s <> "." /\ s <> "..".
Proof. intros H. repeat split; intros ->; simpl in H; lia. Qed.

Lemma no_slash_literal (s : string) :
  forallb (fun c => negb (Ascii.eqb c "/")) (list_ascii_of_string s) = true ->
  no_slash s.
Proof.
  intros H Hin. rewrite forallb_forall in H. specialize (H _ Hin).
  now rewrite Ascii.eqb_refl in H.
Qed.

Lemma image_name_plain (date description : string) :
  no_slash date -> no_slash description ->
  plain_element (date ++ "_" ++ description ++ ".jpg").
Proof.
  intros Hd Hx. split.
  - repeat (apply no_slash_append; split); auto; now apply no_slash_literal.
  - apply longer_than_dots. rewrite !length_append. simpl. lia.
Qed.

Lemma json_name_plain (date : string) :
  no_slash date -> plain_element ("bing_data_" ++ date ++ ".json").
Proof.
  intros Hd. split.
  - repeat (apply no_slash_append; split); auto; now apply no_slash_literal.
  - apply longer_than_dots. rewrite !length_append. simpl. lia.
Qed.

Section GeneratedPaths.

Context {W : Type} {env : Env W}.

(** [X4] When the start date holds no slash, the default generator puts
    both files directly into the cleaned base directory: the path is the
    file name placed in [filepath.Clean(basePath)], and the directory part
    of the path, which is what [FileStorage.Save] creates, is that
    directory. *)
Theorem generated_paths_in_base_directory (imageData : ImageData)
    (basePath : string) (w : W) :
  no_slash (Startdate imageData) ->
  let image := Startdate imageData ++ "_"
               ++ ExtractWallpaperDescription imageData ++ ".jpg" in
  let json := "bing_data_" ++ Startdate imageData ++ ".json" in
  (exists t,
     GenerateImageFilename NewDefaultFilenameGenerator imageData basePath w
     = (Ret (in_directory (filepath.Clean basePath) image), w, t))
  /\ (exists t,
        GenerateJsonFilename NewDefaultFilenameGenerator imageData basePath w
        = (Ret (in_directory (filepath.Clean basePath) json), w, t))
  /\ filepath_Dir (in_directory (filepath.Clean basePath) image)
     = filepath.Clean basePath
  /\ filepath_Dir (in_directory (filepath.Clean basePath) json)
     = filepath.Clean basePath.
Proof.
  intros Hd image json.
  pose proof (image_name_plain _ _ Hd (description_no_slash imageData)) as Hi.
  pose proof (json_name_plain _ Hd) as Hj.
  fold image in Hi. fold json in Hj.
  split; [|split; [|split]].
  - eexists. cbn [GenerateImageFilename NewDefaultFilenameGenerator].
    unfold DefaultFilenameGenerator_GenerateImageFilename.
    change (GenerateImageFilename_description imageData)
      with (ExtractWallpaperDescription imageData).
    rewrite Sprintf_image_name. fold image.
    rewrite (Join_plain basePath image Hi). reflexivity.
  - eexists. cbn [GenerateJsonFilename NewDefaultFilenameGenerator].
    unfold DefaultFilenameGenerator_GenerateJsonFilename.
    rewrite Sprintf_json_name. fold json.
    rewrite (Join_plain basePath json Hj). reflexivity.
  - apply Dir_in_directory, Hi.
  - apply Dir_in_directory, Hj.
Qed.

(** [X5] The start date is not sanitised: when it begins with [../], the
    image path leaves the base directory [/d] and lands in the root. *)
Theorem generated_path_leaves_base_directory (imageData : ImageData)
    (d rest : string) (w : W) :
  plain_element d -> no_slash rest ->
  Startdate imageData = "../" ++ rest ->
  exists t,
    GenerateImageFilename NewDefaultFilenameGenerator imageData ("/" ++ d) w
    = (Ret ("/" ++ rest ++ "_" ++ ExtractWallpaperDescription imageData ++ ".jpg"),
       w, t)
    /\ filepath.Clean ("/" ++ d) = "/" ++ d.
Proof.
  intros Hd Hr Hs.
  pose proof (image_name_plain _ _ Hr (description_no_slash imageData)) as Hn.
  set (name := rest ++ "_" ++ ExtractWallpaperDescription imageData ++ ".jpg") in *.
  destruct Hd as (Hdn & Hd0 & Hd1 & Hd2).
  assert (forall tail,
            filepath.clean_elems true [] ("" :: d :: tail)
            = filepath.clean_elems true [d] tail) as Hpush.
  { intros tail. cbn [filepath.clean_elems String.eqb orb].
    apply String.eqb_neq in Hd0, Hd1, Hd2. unfold filepath.is_dotdot.
    now rewrite Hd0, Hd1, Hd2. }
  eexists. split.
  - cbn [GenerateImageFilename NewDefaultFilenameGenerator].
    unfold DefaultFilenameGenerator_GenerateImageFilename.
    change (GenerateImageFilename_description imageData)
      with (ExtractWallpaperDescription imageData).
    rewrite Sprintf_image_name, Hs. unfold filepath.Join.
    change (String.eqb ("/" ++ d) "") with false. cbv iota.
    change (strings.Join ["/" ++ d;
              ("../" ++ rest) ++ "_" ++ ExtractWallpaperDescription imageData ++ ".jpg"] "/")
      with (String "/" (d ++ "/" ++ ".." ++ "/" ++ name)).
    rewrite Clean_unfold. unfold cleaned_elements. rewrite prefix_slash.
    change (String "/" (d ++ "/" ++ ".." ++ "/" ++ name))
      with ("" ++ "/" ++ (d ++ "/" ++ ".." ++ "/" ++ name)).
    rewrite !Split_at_slash, (Split_no_slash d Hdn),
      (Split_no_slash name (proj1 Hn)).
    change (strings.Split "" "/") with [""].
    change (strings.Split ".." "/") with [".."].
    cbn [app]. rewrite Hpush.
    assert (forall tail,
              filepath.clean_elems true [d] (".." :: tail)
              = filepath.clean_elems true [] tail) as Hpop.
    { intros tail. cbn [filepath.clean_elems].
      apply String.eqb_neq in Hd2. unfold filepath.is_dotdot at 2.
      now rewrite Hd2. }
    rewrite Hpop, (clean_elems_plain true [] name Hn). reflexivity.
  - rewrite Clean_unfold. unfold cleaned_elements.
    change ("/" ++ d) with (String "/" d). rewrite prefix_slash.
    change (String "/" d) with ("" ++ "/" ++ d).
    rewrite Split_at_slash, (Split_no_slash d Hdn).
    change (strings.Split "" "/") with [""]. cbn [app].
    rewrite Hpush. cbn. reflexivity.
Qed.

End GeneratedPaths.

(** ** Extensions *)

Lemma Ext_jpg (s : string) : filepath_Ext (s ++ ".jpg") = ".jpg".
Proof. unfold filepath_Ext. now rewrite string_rev_append. Qed.

Lemma ext_scan_no_slash (u v passed : string) :
  no_slash u ->
  ext_scan (u ++ String "/" v) passed = ext_scan u passed.
Proof.
  revert passed. induction u as [|c u IH]; intros passed H; [reflexivity|].
  apply no_slash_cons in H. destruct H as [Hc Hu].
  cbn [append ext_scan]. apply Ascii.eqb_neq in Hc. rewrite Hc.
  destruct (Ascii.eqb c "."); [reflexivity | now apply IH].
Qed.

(** The extension is read off the last element alone. *)
Lemma Ext_last_element (a f : string) :
  no_slash f -> filepath_Ext (a ++ "/" ++ f) = filepath_Ext f.
Proof.
  intros Hf. unfold filepath_Ext.
  rewrite string_rev_append, string_rev_append, append_assoc'.
  change (string_rev "/" ++ string_rev a) with (String "/" (string_rev a)).
  apply ext_scan_no_slash. now apply no_slash_rev.
Qed.

Lemma Ext_in_directory (dir f : string) :
  no_slash f -> filepath_Ext (in_directory dir f) = filepath_Ext f.
Proof.
  intros Hf. unfold in_directory.
  destruct (String.eqb dir "/"); [|destruct (String.eqb dir ".")].
  - change ("/" ++ f) with ("" ++ "/" ++ f). now apply Ext_last_element.
  - reflexivity.
  - now apply Ext_last_element.
Qed.

Lemma in_directory_append (dir f suffix : string) :
  in_directory dir f ++ suffix = in_directory dir (f ++ suffix).
Proof.
  unfold in_directory.
  destruct (String.eqb dir "/"); [|destruct (String.eqb dir ".")];
    cbn [append]; now rewrite ?append_assoc'.
Qed.

Lemma plain_with_jpg (f : string) : no_slash f -> plain_element (f ++ ".jpg").
Proof.
  intros Hf. split.
  - apply no_slash_append. split; [exact Hf | now apply no_slash_literal].
  - apply longer_than_dots. rewrite length_append. simpl. lia.
Qed.

Section MainFacts.

Context {W : Type} {env : Env W}.

(** [X6] With a name set, the custom generator appends [.jpg] when the name
    has no extension, and does so once: the call returns a non-empty path
    and a receiver whose name has an extension, and every later call on
    that receiver returns the same path and the same receiver.  The world
    is not touched and nothing is logged. *)
Theorem CustomFilenameGenerator_settles (g : CustomFilenameGenerator)
    (imageData : ImageData) (basePath : string) (w : W) :
  CustomFilename g <> "" ->
  exists path g',
    CustomFilenameGenerator_GenerateImageFilename g imageData basePath w
    = (Ret (path, g'), w, [])
    /\ path = filepath.Join [basePath; CustomFilename g'] /\ path <> ""
    /\ filepath_Ext (CustomFilename g') <> ""
    /\ (filepath_Ext (CustomFilename g) <> "" -> g' = g)
    /\ forall imageData' (w' : W),
         CustomFilenameGenerator_GenerateImageFilename g' imageData' basePath w'
         = (Ret (path, g'), w', []).
Proof.
  intros Hname. unfold CustomFilenameGenerator_GenerateImageFilename.
  apply String.eqb_neq in Hname. rewrite Hname. cbn [negb].
  destruct (String.eqb_spec (filepath_Ext (CustomFilename g)) "") as [E|E].
  - do 2 eexists. split; [reflexivity|]. cbn [CustomFilename].
    split; [reflexivity|]. split.
    + apply Join_not_empty. now destruct (CustomFilename g).
    + rewrite Ext_jpg. split; [discriminate|]. split; [congruence|].
      intros imageData' w'.
      replace (String.eqb (CustomFilename g ++ ".jpg") "") with false
        by (now destruct (CustomFilename g)).
      reflexivity.
  - do 2 eexists. split; [reflexivity|]. split; [reflexivity|]. split.
    + apply Join_not_empty. now apply String.eqb_neq.
    + split; [exact E|]. split; [reflexivity|].
      intros imageData' w'. rewrite Hname.
      apply String.eqb_neq in E. now rewrite E.
Qed.

(** [X7] For a name that is a single plain path element, the path [main]
    probes under [-overwrite=false] is the path the custom generator will
    write to. *)
Theorem main_guard_probes_written_path (absOutputDir customName : string)
    (imageData : ImageData) (w : W) :
  plain_element customName ->
  exists g',
    CustomFilenameGenerator_GenerateImageFilename
      (mkCustomFilenameGenerator customName) imageData absOutputDir w
    = (Ret (main_guarded_path absOutputDir customName, g'), w, []).
Proof.
  intros Hplain. pose proof Hplain as (Hns & Hne & _).
  unfold CustomFilenameGenerator_GenerateImageFilename, main_guarded_path.
  cbn [CustomFilename]. apply String.eqb_neq in Hne. rewrite Hne. cbn [negb].
  rewrite (Join_plain absOutputDir customName Hplain).
  rewrite (Ext_in_directory _ _ Hns).
  destruct (String.eqb (filepath_Ext customName) ""); eexists.
  - cbn [CustomFilename].
    rewrite (Join_plain absOutputDir _ (plain_with_jpg customName Hns)).
    now rewrite in_directory_append.
  - cbn [CustomFilename]. now rewrite (Join_plain absOutputDir customName Hplain).
Qed.

End MainFacts.

(** ** Names that end in a separator *)

Lemma Ext_trailing_slash (s : string) : filepath_Ext (s ++ "/") = "".
Proof. unfold filepath_Ext. now rewrite string_rev_append. Qed.

(** A plain name after a path lands in the cleaned path. *)
Lemma Clean_snoc (a f : string) :
  a <> "" -> plain_element f ->
  filepath.Clean (a ++ "/" ++ f) = in_directory (filepath.Clean a) f.
Proof.
  intros Ha Hf.
  pose proof (Join_plain a f Hf) as H. unfold filepath.Join in H.
  apply String.eqb_neq in Ha. now rewrite Ha in H.
Qed.

Lemma in_directory_not_root (dir f : string) :
  plain_element f ->
  in_directory dir f <> "" /\ in_directory dir f <> "/"
  /\ in_directory dir f <> ".".
Proof.
  intros (Hns & Hne & Hnd & _). unfold in_directory.
  destruct (String.eqb_spec dir "/") as [->|H1];
    [|destruct (String.eqb_spec dir ".") as [->|H2]].
  - destruct f; [contradiction|]. repeat split; discriminate.
  - repeat split; try assumption. intros ->. apply Hns. now left.
  - destruct dir as [|c dir].
    + destruct f; [contradiction|]. repeat split; discriminate.
    + destruct dir as [|c' dir]; repeat split; try discriminate.
      all: cbn; intros [= -> E]; try contradiction.
Qed.

Lemma append_cancel (a b c : string) : a ++ b = a ++ c -> b = c.
Proof. induction a as [|x a IH]; cbn; [auto|]. intros [= E]. now apply IH. Qed.

Section GuardMiss.

Context {W : Type} {env : Env W}.

(** [X8] For a name that ends in a separator the guard of [main] looks at
    one file and the generator writes another: after the directory [d/],
    [main] probes [d.jpg] (or [d] when [d] has an extension) and the
    image goes to [d/.jpg]. *)
Theorem main_guard_misses_directory_names (absOutputDir d : string)
    (imageData : ImageData) (w : W) :
  absOutputDir <> "" -> plain_element d ->
  let here := in_directory (filepath.Clean absOutputDir) d in
  main_guarded_path absOutputDir (d ++ "/")
  = (if String.eqb (filepath_Ext d) "" then here ++ ".jpg" else here)
  /\ exists g',
       CustomFilenameGenerator_GenerateImageFilename
         (mkCustomFilenameGenerator (d ++ "/")) imageData absOutputDir w
       = (Ret (here ++ "/.jpg", g'), w, [])
       /\ here ++ "/.jpg" <> main_guarded_path absOutputDir (d ++ "/").
Proof.
  intros Ha Hd here. pose proof Hd as (Hns & Hne & _).
  assert (plain_element ".jpg") as Hj
    by (split; [now apply no_slash_literal | repeat split; discriminate]).
  assert (absOutputDir ++ "/" ++ d <> "") as Hnonempty
    by (destruct absOutputDir; [contradiction|discriminate]).
  assert (main_guarded_path absOutputDir (d ++ "/")
          = (if String.eqb (filepath_Ext d) "" then here ++ ".jpg" else here))
    as Hguard.
  { unfold main_guarded_path, filepath.Join.
    apply String.eqb_neq in Ha. rewrite Ha.
    replace (String.eqb (d ++ "/") "") with false by (now destruct d).
    change (strings.Join [absOutputDir; d ++ "/"] "/")
      with (absOutputDir ++ "/" ++ d ++ "/").
    replace (absOutputDir ++ "/" ++ d ++ "/")
      with ((absOutputDir ++ "/" ++ d) ++ "/") by (now rewrite !append_assoc').
    rewrite (Clean_trailing_slash _ Hnonempty).
    apply String.eqb_neq in Ha.
    rewrite (Clean_snoc _ _ Ha Hd). fold here.
    unfold here at 1. now rewrite (Ext_in_directory _ _ Hns). }
  split; [exact Hguard|].
  unfold CustomFilenameGenerator_GenerateImageFilename. cbn [CustomFilename].
  replace (String.eqb (d ++ "/") "") with false by (now destruct d).
  rewrite Ext_trailing_slash. cbn [negb String.eqb CustomFilename].
  eexists. split.
  - unfold filepath.Join. apply String.eqb_neq in Ha. rewrite Ha.
    replace (String.eqb ((d ++ "/") ++ ".jpg") "") with false
      by (now destruct d).
    change (strings.Join [absOutputDir; (d ++ "/") ++ ".jpg"] "/")
      with (absOutputDir ++ "/" ++ (d ++ "/") ++ ".jpg").
    replace (absOutputDir ++ "/" ++ (d ++ "/") ++ ".jpg")
      with ((absOutputDir ++ "/" ++ d) ++ "/" ++ ".jpg")
      by (now rewrite !append_assoc').
    rewrite (Clean_snoc _ _ Hnonempty Hj).
    apply String.eqb_neq in Ha. rewrite (Clean_snoc _ _ Ha Hd). fold here.
    destruct (in_directory_not_root (filepath.Clean absOutputDir) d Hd)
      as (_ & H1 & H2).
    fold here in H1, H2. unfold in_directory.
    apply String.eqb_neq in H1, H2. rewrite H1, H2. reflexivity.
  - rewrite Hguard. destruct (String.eqb (filepath_Ext d) "").
    + intros E. apply append_cancel in E. discriminate E.
    + intros E. rewrite <- (append_empty_r here) in E at 2.
      apply append_cancel in E. discriminate E.
Qed.

End GuardMiss.

(** ** Replacing the first occurrence *)

Lemma prefix_iff (p s : string) : prefix p s = true <-> exists r, s = p ++ r.
Proof.
  revert s. induction p as [|c p IH]; intros s.
  - split; [intros _; now exists s | intros _; now destruct s].
  - destruct s as [|c' s].
    + split; [discriminate | intros (r & H); discriminate H].
    + change (prefix (String c p) (String c' s))
        with (if ascii_dec c c' then prefix p s else false).
      destruct (ascii_dec c c') as [<-|Hne].
      * rewrite IH. split; intros (r & H); exists r.
        -- now rewrite H.
        -- now injection H.
      * split; [discriminate|]. intros (r & H). injection H as H _.
        now elim Hne.
Qed.

Lemma append_prefix_split (p r u v : string) :
  u ++ v = p ++ r -> (String.length p <= String.length u)%nat ->
  exists b, u = p ++ b.
Proof.
  revert u. induction p as [|c p IH]; intros u H Hlen.
  - now exists u.
  - destruct u as [|c' u]; [simpl in Hlen; lia|].
    injection H as -> H. simpl in Hlen.
    destruct (IH u H) as (b & ->); [lia|]. now exists b.
Qed.

Lemma first_occurrence_tail (old pre : string) (c : ascii) :
  first_occurrence old (String c pre) -> first_occurrence old pre.
Proof.
  intros H a b E.
  assert (String c a = String c pre) as E'.
  { apply (H (String c a) b). cbn [append]. now rewrite E. }
  now injection E'.
Qed.

Lemma first_occurrence_no_prefix (old pre post : string) (c : ascii) :
  first_occurrence old (String c pre) ->
  prefix old (String c pre ++ old ++ post) = false.
Proof.
  intros H. destruct (prefix old (String c pre ++ old ++ post)) eqn:E;
    [|reflexivity].
  apply prefix_iff in E. destruct E as (r & E).
  rewrite <- append_assoc' in E.
  destruct (append_prefix_split old r (String c pre ++ old) post E) as (b & Hb).
  { rewrite length_append. lia. }
  specialize (H "" b Hb). discriminate H.
Qed.

Lemma replace_from_skip (old new u v : string) :
  strings.replace_from old new (Some 0%nat) (String.length u) (u ++ v) = v.
Proof.
  induction u as [|c u IH]; [now destruct v|exact IH].
Qed.

Lemma Replace_first_occurrence (old new pre post : string) :
  old <> "" -> first_occurrence old pre ->
  strings.Replace (pre ++ old ++ post) old new 1 = pre ++ new ++ post.
Proof.
  intros Hold. unfold strings.Replace.
  change (if (1 <? 0)%Z then None else Some (Z.to_nat 1)) with (Some 1%nat).
  induction pre as [|c pre IH]; intros Hfirst.
  - destruct old as [|o old]; [contradiction|].
    cbn [append strings.replace_from].
    replace (prefix (String o old) (String o (old ++ post))) with true.
    + cbn [option_map pred String.length Nat.sub].
      rewrite Nat.sub_0_r. now rewrite replace_from_skip.
    + symmetry. apply prefix_iff. now exists post.
  - pose proof (first_occurrence_no_prefix old pre post c Hfirst) as Hno.
    cbn [append strings.replace_from] in *. rewrite Hno.
    f_equal. apply IH. now apply first_occurrence_tail in Hfirst.
Qed.

Lemma replace_from_absent (old new : string) (budget : option nat) (s : string) :
  (forall u v, prefix old v = true -> s <> u ++ v) ->
  strings.replace_from old new budget 0 s = s.
Proof.
  induction s as [|c s IH]; intros H; [reflexivity|].
  cbn [strings.replace_from].
  destruct budget as [[|n]|]; [reflexivity| |].
  - destruct (prefix old (String c s)) eqn:E; [now elim (H "" _ E)|].
    f_equal. apply IH. intros u v Hv ->. now apply (H (String c u) v).
  - destruct (prefix old (String c s)) eqn:E; [now elim (H "" _ E)|].
    f_equal. apply IH. intros u v Hv ->. now apply (H (String c u) v).
Qed.

Lemma Replace_absent (old new s : string) (n : Z) :
  absent old s -> strings.Replace s old new n = s.
Proof.
  intros H. apply replace_from_absent. intros u v Hv ->.
  apply prefix_iff in Hv. destruct Hv as (r & ->). now apply (H u r).
Qed.

Lemma no_earlier_sound (old pre : string) :
  no_earlier old pre old = true -> first_occurrence old pre.
Proof.
  induction pre as [|c pre IH]; intros H a b E.
  - destruct a as [|c a]; [reflexivity|].
    apply (f_equal String.length) in E.
    rewrite !length_append in E. simpl in E. lia.
  - cbn [no_earlier] in H. apply andb_true_iff in H. destruct H as [Hp Hrec].
    destruct a as [|c' a].
    + exfalso. apply negb_true_iff in Hp.
      assert (prefix old (String c pre ++ old) = true) as Hyes
        by (apply prefix_iff; now exists b).
      congruence.
    + cbn [append] in E. injection E as <- E. f_equal. now apply IH with b.
Qed.

(** ** The image URL *)

(** [X9] [GetBingImageURL] puts the host www.bing.com in front of the
    record's URL, whatever base URL the client was given; with [highQuality]
    the first occurrence of 1920x1080 becomes UHD and any later one stays;
    a URL without the token is not changed. *)
Theorem GetBingImageURL_replaces_first_token (c : Client)
    (imageData : ImageData) :
  (forall pre post,
     bing_host ++ URL imageData = pre ++ resolution_token ++ post ->
     first_occurrence resolution_token pre ->
     GetBingImageURL c imageData
     = if highQuality c then pre ++ "UHD" ++ post
       else pre ++ resolution_token ++ post)
  /\ (absent resolution_token (bing_host ++ URL imageData) ->
      GetBingImageURL c imageData = bing_host ++ URL imageData)
  /\ (forall u,
        GetBingImageURL (WithBaseURL u c) imageData = GetBingImageURL c imageData).
Proof.
  unfold GetBingImageURL.
  assert (fmt.Sprintf "https://www.bing.com%s" [fmt.OpString (URL imageData)]
          = bing_host ++ URL imageData) as ->.
  { cbv [fmt.Sprintf fmt.render]. now rewrite append_empty_r. }
  split.
  - intros pre post E Hfirst. rewrite E.
    destruct (highQuality c); [|reflexivity].
    now apply Replace_first_occurrence.
  - split; [|reflexivity].
    intros Habs. destruct (highQuality c); [|reflexivity].
    now apply Replace_absent.
Qed.

Lemma GetBingImageURL_replaces_first_token_witness :
  bing_host ++ URL two_tokens
    = "https://www.bing.com/th?id=OHR.X_" ++ resolution_token
        ++ ".jpg&rf=Y_1920x1080.jpg"
  /\ first_occurrence resolution_token "https://www.bing.com/th?id=OHR.X_"
  /\ GetBingImageURL sample_client two_tokens
     = "https://www.bing.com/th?id=OHR.X_UHD.jpg&rf=Y_1920x1080.jpg".
Proof.
  assert (first_occurrence resolution_token "https://www.bing.com/th?id=OHR.X_")
    as Hfirst by (apply no_earlier_sound; vm_compute; reflexivity).
  split; [reflexivity|]. split; [exact Hfirst|].
  exact (proj1 (GetBingImageURL_replaces_first_token sample_client two_tokens)
           "https://www.bing.com/th?id=OHR.X_" ".jpg&rf=Y_1920x1080.jpg"
           eq_refl Hfirst).
Defined.

(** ** What a run may emit *)

Section Emits.

Context {W : Type} {env : Env W}.

Lemma bind_inv {A B} (m : M W A) (k : A -> M W B) w r w' t :
  bind m k w = (r, w', t) ->
  (exists a w1 t1 t2,
      m w = (Ret a, w1, t1) /\ k a w1 = (r, w', t2) /\ t = (t1 ++ t2)%list)
  \/ (exists msg, m w = (Panic msg, w', t) /\ r = Panic msg).
Proof.
  unfold bind. destruct (m w) as [[[a|msg] w1] t1].
  - destruct (k a w1) as [[r2 w2] t2] eqn:Ek. intros [= <- <- <-].
    left. now exists a, w1, t1, t2.
  - intros [= <- <- <-]. right. now exists msg.
Qed.

Lemma emits_only_ret P {A} (a : A) : emits_only P (ret (W := W) a).
Proof. intros w r w' t [= <- <- <-]. constructor. Qed.

Lemma emits_only_panic P {A} msg : emits_only P (panic (W := W) (A := A) msg).
Proof. intros w r w' t [= <- <- <-]. constructor. Qed.

Lemma emits_only_emit (P : Event -> Prop) e : P e -> emits_only P (emit (W := W) e).
Proof. intros H w r w' t [= <- <- <-]. now repeat constructor. Qed.

Lemma emits_only_bind P {A B} (m : M W A) (k : A -> M W B) :
  emits_only P m -> (forall a, emits_only P (k a)) -> emits_only P (bind m k).
Proof.
  intros Hm Hk w r w' t E.
  destruct (bind_inv _ _ _ _ _ _ E)
    as [(a & w1 & t1 & t2 & E1 & E2 & ->)|(msg & E1 & _)].
  - apply Forall_app. split; [exact (Hm _ _ _ _ E1) | exact (Hk _ _ _ _ _ E2)].
  - exact (Hm _ _ _ _ E1).
Qed.

Lemma emits_only_Do (P : Event -> Prop) c req :
  P (EvDo (timeout c) req) -> emits_only P (Do c req).
Proof.
  intros H w r w' t. unfold Do.
  destruct (httpClient_Do (timeout c) req w). intros [= <- <- <-].
  now repeat constructor.
Qed.

Lemma emits_only_Save (P : Event -> Prop) data path :
  P (EvSave data path) -> emits_only P (Save data path).
Proof.
  intros H w r w' t. unfold Save.
  destruct (Storage_Save data path w). intros [= <- <- <-].
  now repeat constructor.
Qed.

End Emits.

(** Splits a goal [emits_only P m] along the structure of [m]. *)
Ltac emits :=
  repeat first
    [ apply emits_only_ret
    | apply emits_only_panic
    | apply emits_only_bind; [|intros]
    | apply emits_only_emit
    | apply emits_only_Do
    | apply emits_only_Save
    | match goal with
      | |- emits_only _ (match ?x with _ => _ end) => destruct x
      | |- emits_only _ (let '(_, _) := ?x in _) => destruct x
      end ].

Section Confined.

Context {W : Type} {env : Env W}.

Variable c : Client.
Variable P : Event -> Prop.
Variables (okurl okpath : string -> Prop).

Hypothesis Hlog : forall level format args, P (EvLog level format args).
Hypothesis Hdo :
  forall url, okurl url -> P (EvDo (timeout c) (mkRequest "GET" url (userAgent c))).
Hypothesis Hsave : forall data path, okpath path -> P (EvSave data path).

Lemma sendRequest_emits url :
  okurl url -> emits_only P (sendRequest c "GET" url).
Proof.
  intros Hu. unfold sendRequest, Logger_Debug, Logger_Error.
  emits; auto.
Qed.

Lemma FetchRawImageData_emits imageData :
  okurl (GetBingImageURL c imageData) ->
  emits_only P (FetchRawImageData c imageData).
Proof.
  intros Hu. unfold FetchRawImageData, Logger_Info.
  emits; auto using sendRequest_emits.
Qed.

Lemma FetchRawJsonData_emits url :
  okurl url -> emits_only P (FetchRawJsonData c url).
Proof.
  intros Hu. unfold FetchRawJsonData, Logger_Info.
  emits; auto using sendRequest_emits.
Qed.

Lemma parseImageResponse_emits data :
  emits_only P (parseImageResponse c data).
Proof.
  unfold parseImageResponse, Logger_Debug, Logger_Error. emits; auto.
Qed.

Lemma fetchMultipleImageData_emits daysAgo count :
  okurl (GetBingApiURL c daysAgo count) ->
  emits_only P (fetchMultipleImageData c daysAgo count).
Proof.
  intros Hu. unfold fetchMultipleImageData, Logger_Info.
  emits; auto using FetchRawJsonData_emits, parseImageResponse_emits.
Qed.

Lemma FetchImageData_emits daysAgo :
  okurl (GetBingApiURL c daysAgo 1) ->
  emits_only P (FetchImageData c daysAgo).
Proof.
  intros Hu. unfold FetchImageData, Logger_Info, Logger_Debug, Logger_Error.
  emits; auto using fetchMultipleImageData_emits.
Qed.

Lemma FetchMultipleImageData_emits days :
  okurl (GetBingApiURL c 0 days) ->
  emits_only P (FetchMultipleImageData c days).
Proof.
  intros Hu. unfold FetchMultipleImageData.
  destruct ((days <=? 0)%Z || (days >? 16)%Z);
    [emits | now apply fetchMultipleImageData_emits].
Qed.

End Confined.

Section ConfinedDownloader.

Context {W : Type} {env : Env W}.

Variable d : Downloader W.
Variable P : Event -> Prop.
Variables (okurl okpath : string -> Prop).

Hypothesis Hlog : forall level format args, P (EvLog level format args).
Hypothesis Hdo :
  forall url, okurl url ->
    P (EvDo (timeout (Downloader_Client d))
         (mkRequest "GET" url (userAgent (Downloader_Client d)))).
Hypothesis Hsave : forall data path, okpath path -> P (EvSave data path).
Hypothesis Hdefault : Generator (Downloader_Storage d) = NewDefaultFilenameGenerator.

Lemma SaveImage_emits data imageData :
  okpath (image_path d imageData) ->
  emits_only P (SaveImage (Downloader_Storage d) data imageData).
Proof.
  intros Hp w r w' t. unfold SaveImage. rewrite Hdefault.
  cbn [GenerateImageFilename NewDefaultFilenameGenerator].
  unfold DefaultFilenameGenerator_GenerateImageFilename, Save.
  cbv beta iota delta [bind ret emit Logger_Info Logger_Debug].
  pose proof (Hsave data _ Hp) as Hs. unfold image_path in Hs.
  change (GenerateImageFilename_description imageData)
    with (ExtractWallpaperDescription imageData).
  destruct (Storage_Save data _ w) as [[e|] w2]; intros [= <- <- <-];
    repeat constructor; auto.
Qed.

Lemma SaveJson_emits data imageData :
  okpath (json_path d imageData) ->
  emits_only P (SaveJson (Downloader_Storage d) data imageData).
Proof.
  intros Hp w r w' t. unfold SaveJson. rewrite Hdefault.
  cbn [GenerateJsonFilename NewDefaultFilenameGenerator].
  unfold DefaultFilenameGenerator_GenerateJsonFilename, Save.
  cbv beta iota delta [bind ret emit Logger_Info Logger_Debug].
  pose proof (Hsave data _ Hp) as Hs. unfold json_path in Hs.
  destruct (Storage_Save data _ w) as [[e|] w2]; intros [= <- <- <-];
    repeat constructor; auto.
Qed.

Lemma SaveWallpaper_emits imageData daysAgo :
  okurl (GetBingImageURL (Downloader_Client d) imageData) ->
  okpath (image_path d imageData) ->
  (SaveJsonData d = true ->
   okurl (GetBingApiURL (Downloader_Client d) daysAgo 1)
   /\ okpath (json_path d imageData)) ->
  emits_only P (SaveWallpaper d imageData daysAgo).
Proof.
  intros Hu Hp Hj. unfold SaveWallpaper, Logger_Info, Logger_Warning, Logger_Debug.
  apply emits_only_bind; [now apply emits_only_emit|intros _].
  apply emits_only_bind;
    [now apply (FetchRawImageData_emits _ P okurl Hlog Hdo)|intros [b [e|]]].
  { emits; auto. }
  apply emits_only_bind; [now apply SaveImage_emits|intros [p [e|]]].
  { emits; auto. }
  apply emits_only_bind; [now apply emits_only_emit|intros _].
  apply emits_only_bind; [|intros r; emits; auto].
  destruct (SaveJsonData d); [destruct (Hj eq_refl) as [Hju Hjp]|emits; auto].
  apply emits_only_bind; [now apply emits_only_emit|intros _].
  apply emits_only_bind;
    [now apply (FetchRawJsonData_emits _ P okurl Hlog Hdo)|intros [jb [e|]]].
  { emits; auto. }
  apply emits_only_bind; [now apply SaveJson_emits|intros [jp [e|]]];
    emits; auto.
Qed.

End ConfinedDownloader.

Section Batches.

Context {W : Type} {env : Env W}.

Variable d : Downloader W.
Variable P : Event -> Prop.

Hypothesis Hlog : forall level format args, P (EvLog level format args).
Hypothesis Hdo :
  forall url,
    P (EvDo (timeout (Downloader_Client d))
         (mkRequest "GET" url (userAgent (Downloader_Client d)))).
Hypothesis Hsave : forall data path, P (EvSave data path).
Hypothesis Hsleep : forall duration, P (EvSleep duration).
Hypothesis Hdefault : Generator (Downloader_Storage d) = NewDefaultFilenameGenerator.

Lemma SaveWallpaper_emits_all imageData daysAgo :
  emits_only P (SaveWallpaper d imageData daysAgo).
Proof.
  apply (SaveWallpaper_emits d P (fun _ => True) (fun _ => True)); auto.
Qed.

Lemma FetchAndSaveWallpaper_emits_all daysAgo :
  emits_only P (FetchAndSaveWallpaper d daysAgo).
Proof.
  unfold FetchAndSaveWallpaper, Logger_Info, Logger_Error.
  apply emits_only_bind; [now apply emits_only_emit|intros _].
  apply emits_only_bind;
    [apply (FetchImageData_emits _ P (fun _ => True)); auto|].
  intros [[imageData|] [e|]]; try apply SaveWallpaper_emits_all; emits; auto.
Qed.

Lemma pause_emits (i n : Z) :
  emits_only (W := W) P
    (if (i <? n - 1)%Z then
       Logger_Debug "等待1秒后继续..." [] ;;; time_Sleep (1 * time_Second)
     else ret tt).
Proof.
  destruct (i <? n - 1)%Z; unfold Logger_Debug, time_Sleep; emits; auto.
Qed.

Lemma SaveWallpapers_loop_emits n continueOnError rest :
  forall i results lastError,
    emits_only P (SaveWallpapers_loop d n continueOnError i rest results lastError).
Proof.
  induction rest as [|imageData rest IH]; intros i results lastError;
    cbn [SaveWallpapers_loop].
  - unfold SaveWallpapers_end, Logger_Info.
    apply emits_only_bind; [now apply emits_only_emit|intros _].
    destruct (not_nil lastError && continueOnError); emits.
  - apply emits_only_bind; [apply SaveWallpaper_emits_all|].
    intros [result [e|]].
    + apply emits_only_bind; [now apply emits_only_emit|intros _].
      destruct continueOnError; cbn [negb]; [|emits].
      apply emits_only_bind; [apply pause_emits | intros _; apply IH].
    + apply emits_only_bind; [apply pause_emits | intros _; apply IH].
Qed.

Lemma FetchAndSaveWallpapers_loop_emits days continueOnError indices :
  forall results lastError,
    emits_only P
      (FetchAndSaveWallpapers_loop d days continueOnError indices results lastError).
Proof.
  induction indices as [|i indices IH]; intros results lastError;
    cbn [FetchAndSaveWallpapers_loop].
  - unfold FetchAndSaveWallpapers_end, Logger_Info.
    apply emits_only_bind; [now apply emits_only_emit|intros _].
    destruct (not_nil lastError && continueOnError); emits.
  - apply emits_only_bind; [apply FetchAndSaveWallpaper_emits_all|].
    intros [result [e|]].
    + apply emits_only_bind; [now apply emits_only_emit|intros _].
      destruct continueOnError; cbn [negb]; [|emits].
      apply emits_only_bind; [apply pause_emits | intros _; apply IH].
    + apply emits_only_bind; [apply pause_emits | intros _; apply IH].
Qed.

Lemma SaveWallpapers_emits imageDataList continueOnError :
  emits_only P (SaveWallpapers d imageDataList continueOnError).
Proof.
  unfold SaveWallpapers, Logger_Info.
  apply emits_only_bind; [now apply emits_only_emit|intros _].
  apply SaveWallpapers_loop_emits.
Qed.

Lemma FetchAndSaveWallpapers_emits days continueOnError :
  emits_only P (FetchAndSaveWallpapers d days continueOnError).
Proof.
  unfold FetchAndSaveWallpapers, Logger_Info.
  destruct (days <? 0)%Z; [emits|].
  apply emits_only_bind; [now apply emits_only_emit|intros _].
  apply FetchAndSaveWallpapers_loop_emits.
Qed.

Lemma DownloadLatestWallpapers_emits days continueOnError :
  emits_only P (DownloadLatestWallpapers d days continueOnError).
Proof.
  unfold DownloadLatestWallpapers, Logger_Info, Logger_Error.
  destruct ((days <=? 0)%Z || (days >? 16)%Z); [emits|].
  apply emits_only_bind; [now apply emits_only_emit|intros _].
  apply emits_only_bind;
    [apply (FetchMultipleImageData_emits _ P (fun _ => True)); auto|].
  intros [images [e|]]; [emits; auto|apply SaveWallpapers_emits].
Qed.

End Batches.

Section TraceTheorems.

Context {W : Type} {env : Env W}.

(** [X10] Whatever happens, every request the three batch entry points
    send is a GET that carries the client's user agent and goes through the
    client's timeout. *)
Theorem requests_carry_client_settings (c : Client) (outputDir : string)
    (saveJson : bool) :
  let d := default_downloader c outputDir saveJson in
  (forall days continueOnError (w : W) r w' t,
     DownloadLatestWallpapers d days continueOnError w = (r, w', t) ->
     Forall (stamped c) t)
  /\ (forall days continueOnError (w : W) r w' t,
        FetchAndSaveWallpapers d days continueOnError w = (r, w', t) ->
        Forall (stamped c) t)
  /\ (forall imageDataList continueOnError (w : W) r w' t,
        SaveWallpapers d imageDataList continueOnError w = (r, w', t) ->
        Forall (stamped c) t).
Proof.
  intros d.
  assert (forall level format args, stamped c (EvLog level format args)) as H1
    by (intros; exact I).
  assert (forall url,
            stamped c (EvDo (timeout (Downloader_Client d))
              (mkRequest "GET" url (userAgent (Downloader_Client d))))) as H2
    by (intros; now repeat split).
  assert (forall data path, stamped c (EvSave data path)) as H3 by (intros; exact I).
  assert (forall duration, stamped c (EvSleep duration)) as H4 by (intros; exact I).
  split; [|split]; intros x continueOnError w r w' t E.
  - exact (DownloadLatestWallpapers_emits d (stamped c) H1 H2 H3 H4 eq_refl
             x continueOnError w r w' t E).
  - exact (FetchAndSaveWallpapers_emits d (stamped c) H1 H2 H3 H4 eq_refl
             x continueOnError w r w' t E).
  - exact (SaveWallpapers_emits d (stamped c) H1 H2 H3 H4 eq_refl
             x continueOnError w r w' t E).
Qed.

(** [X11] One call of [SaveWallpaper] never sleeps, asks only for the
    record's image and, when the JSON stage is on, for the metadata of
    [daysAgo] with count 1, and writes only the record's image path and,
    when the JSON stage is on, its JSON path. *)
Theorem SaveWallpaper_confined (c : Client) (outputDir : string)
    (saveJson : bool) (imageData : ImageData) (daysAgo : Z)
    (w : W) (r : outcome (option DownloadResult * option error))
    (w' : W) (t : list Event) :
  let d := default_downloader c outputDir saveJson in
  SaveWallpaper d imageData daysAgo w = (r, w', t) ->
  Forall (confined d imageData daysAgo) t.
Proof.
  intros d.
  apply (SaveWallpaper_emits d (confined d imageData daysAgo)
           (fun url =>
              url = GetBingImageURL c imageData
              \/ (saveJson = true /\ url = GetBingApiURL c daysAgo 1))
           (fun path =>
              path = image_path d imageData
              \/ (saveJson = true /\ path = json_path d imageData))).
  - intros; exact I.
  - intros url H. exact H.
  - intros data path H. exact H.
  - reflexivity.
  - now left.
  - now left.
  - intros H. split; right; now split.
Qed.

End TraceTheorems.

(** ** The batch loops, whatever fails *)

(** Runs the monad's plumbing and the logger's calls. *)
Ltac run :=
  cbv beta iota delta [bind ret emit panic Logger_Debug Logger_Info
                       Logger_Warning Logger_Error time_Sleep].

Section Loops.

Context {W : Type} {env : Env W}.

Variable d : Downloader W.
Hypothesis Hg : well_behaved (Generator (Downloader_Storage d)).

Lemma SaveWallpaper_outcome imageData daysAgo w :
  exists out w' t,
    SaveWallpaper d imageData daysAgo w = (Ret out, w', t)
    /\ outcome_of imageData out.
Proof.
  destruct (FetchRawImageData_returns (Downloader_Client d) imageData w)
    as (b & [e|] & w1 & t1 & E1).
  - destruct (SaveWallpaper_fetch_failed d imageData daysAgo _ _ _ _ _ E1)
      as (t & E).
    do 3 eexists. split; [exact E|]. eexists. split; [reflexivity|].
    split; [reflexivity|]. right. exists e, "图片下载失败: %v".
    repeat split. now left.
  - destruct (SaveImage_returns (Downloader_Storage d) b imageData w1 Hg)
      as (p & [e|] & w2 & t2 & E2 & Hok & Hbad).
    + destruct (SaveWallpaper_save_failed d imageData daysAgo _ _ _ _ _ _ _ _ E1 E2)
        as (t & E).
      do 3 eexists. split; [exact E|]. eexists. split; [reflexivity|].
      split; [reflexivity|]. right. exists e, "图片保存失败: %v".
      repeat split. now right.
    + destruct (SaveWallpaper_image_saved d imageData daysAgo
                  _ _ _ _ _ _ _ Hg E1 E2) as (jp & je & w' & t & E & _).
      do 3 eexists. split; [exact E|]. eexists. split; [reflexivity|].
      split; [reflexivity|]. left. repeat split. simpl. auto.
Qed.

(** With [continueOnError] the loop of [SaveWallpapers] appends the record
    of every call and ends on the summary of the last error it has seen. *)
Lemma SaveWallpapers_loop_outcomes (n : Z) :
  forall rest i results lastError w,
  exists outs w' t,
    SaveWallpapers_loop d n true i rest results lastError w
    = (Ret ((results ++ map fst outs)%list,
            if not_nil (last_error i (map snd outs) lastError) then
              fmt.Errorf "有部分壁纸处理失败: %v"
                [fmt.OpError (last_error i (map snd outs) lastError)]
            else None), w', t)
    /\ Forall2 outcome_of rest outs.
Proof.
  induction rest as [|imageData rest IH]; intros i results lastError w.
  - exists [], w. eexists. cbn [SaveWallpapers_loop map last_error].
    unfold SaveWallpapers_end. run.
    rewrite andb_true_r, (app_nil_r results).
    destruct lastError; (split; [reflexivity|constructor]).
  - cbn [SaveWallpapers_loop].
    destruct (SaveWallpaper_outcome imageData i w)
      as ([entry e] & w1 & t1 & E & Hout).
    destruct (pause_returns i n w1) as (tp & Ep).
    run. rewrite E. run.
    cbv beta iota delta [bind ret emit Logger_Debug time_Sleep] in Ep.
    pose proof Hout as (r & Hentry & _). cbn [fst] in Hentry. subst entry.
    destruct e as [e|]; cbn [negb].
    + destruct (IH (i + 1)%Z (results ++ [Some r])%list
                  (fmt.Errorf "处理第 %d 张壁纸失败: %v"
                     [fmt.OpInt i; fmt.OpError (Some e)]) w1)
        as (outs & w' & t & E' & HF).
      rewrite Ep, E'. rewrite <- app_assoc. cbn [app].
      exists ((Some r, Some e) :: outs), w'. eexists.
      split; [reflexivity|]. now constructor.
    + destruct (IH (i + 1)%Z (results ++ [Some r])%list lastError w1)
        as (outs & w' & t & E' & HF).
      rewrite Ep, E'. rewrite <- app_assoc. cbn [app].
      exists ((Some r, None) :: outs), w'. eexists.
      split; [reflexivity|]. now constructor.
Qed.

(** Without [continueOnError] the loop appends the records of the calls
    that returned no error and stops at the first that returned one. *)
Lemma SaveWallpapers_loop_first_failure (n : Z) :
  forall rest i results lastError w,
  exists outs err w' t,
    SaveWallpapers_loop d n false i rest results lastError w
    = (Ret ((results ++ map fst outs)%list, err), w', t)
    /\ Forall2 outcome_of (firstn (List.length outs) rest) outs
    /\ Forall (fun out => snd out = None) outs
    /\ ((err = None /\ List.length outs = List.length rest)
        \/ exists bad out e,
             nth_error rest (List.length outs) = Some bad
             /\ outcome_of bad out /\ snd out = Some e
             /\ err = fmt.Errorf "处理第 %d 张壁纸失败: %v"
                        [fmt.OpInt (i + len outs); fmt.OpError (Some e)]).
Proof.
  induction rest as [|imageData rest IH]; intros i results lastError w.
  - exists [], None, w. eexists. cbn [SaveWallpapers_loop map].
    unfold SaveWallpapers_end. run.
    rewrite andb_false_r, (app_nil_r results). split; [reflexivity|].
    split; [constructor|]. split; [constructor|]. now left.
  - cbn [SaveWallpapers_loop].
    destruct (SaveWallpaper_outcome imageData i w)
      as ([entry e] & w1 & t1 & E & Hout).
    destruct (pause_returns i n w1) as (tp & Ep).
    run. rewrite E. run.
    cbv beta iota delta [bind ret emit Logger_Debug time_Sleep] in Ep.
    pose proof Hout as (r & Hentry & _). cbn [fst] in Hentry. subst entry.
    destruct e as [e|]; cbn [negb].
    + exists [], (fmt.Errorf "处理第 %d 张壁纸失败: %v"
                    [fmt.OpInt i; fmt.OpError (Some e)]), w1.
      eexists. cbn [map]. rewrite (app_nil_r results). split; [reflexivity|].
      split; [constructor|]. split; [constructor|]. right.
      exists imageData, (Some r, Some e), e.
      repeat split; auto. unfold len. cbn [List.length].
      now rewrite Z.add_0_r.
    + destruct (IH (i + 1)%Z (results ++ [Some r])%list lastError w1)
        as (outs & err & w' & t & E' & HF & Hnone & Hend).
      rewrite Ep, E'. rewrite <- app_assoc. cbn [app].
      exists ((Some r, None) :: outs), err, w'. eexists.
      split; [reflexivity|]. split; [now constructor|].
      split; [now constructor|].
      destruct Hend as [[-> Hlen]|(bad & out & e & Hbad & Hout' & He & ->)].
      * left. split; [reflexivity|]. cbn [List.length]. now rewrite Hlen.
      * right. exists bad, out, e. repeat split; auto.
        unfold len. cbn [List.length]. do 2 f_equal. f_equal. lia.
Qed.

End Loops.


Lemma last_error_last i pre e post lastError :
  Forall (fun err => err = None) post ->
  last_error i (pre ++ Some e :: post) lastError
  = fmt.Errorf "处理第 %d 张壁纸失败: %v"
      [fmt.OpInt (i + len pre); fmt.OpError (Some e)].
Proof.
  intros Hpost. revert i lastError.
  induction pre as [|err pre IH]; intros i lastError; cbn [app last_error].
  - unfold len. cbn [List.length]. rewrite Z.add_0_r.
    generalize (fmt.Errorf "处理第 %d 张壁纸失败: %v"
                  [fmt.OpInt i; fmt.OpError (Some e)]).
    generalize (i + 1)%Z. clear i.
    induction Hpost as [|err post -> _ IH]; intros i o; cbn [last_error];
      [reflexivity | apply IH].
  - rewrite IH. unfold len. cbn [List.length]. do 3 f_equal. lia.
Qed.

Lemma outcome_of_error imageData out r :
  outcome_of imageData out -> fst out = Some r ->
  (snd out = None <-> DownloadErr r = None)
  /\ (DownloadErr r = None <-> ImagePath r <> "").
Proof.
  intros (r' & Hr' & _ & H) Hr. rewrite Hr in Hr'. injection Hr' as <-.
  destruct H as [(-> & -> & Hp)|(cause & stage & _ & -> & -> & ->)].
  - repeat split; auto.
  - unfold fmt.Errorf. repeat split; try discriminate; intros H; now elim H.
Qed.



Section BatchTheorems.

Context {W : Type} {env : Env W}.


(** [X13] With [continueOnError], the error [SaveWallpapers] returns
    speaks of one record only, the last that failed: its text is the
    summary format around the per-record format with that record's index,
    around the stage format with the record's [DownloadErr].  Earlier
    failures are dropped from the error. *)
Theorem SaveWallpapers_error_names_last_failure (d : Downloader W)
    (imageDataList : list ImageData) (w : W)
    (results : list (option DownloadResult)) (err : option error)
    (w' : W) (t : list Event) (k : nat) (r : DownloadResult) (cause : error) :
  well_behaved (Generator (Downloader_Storage d)) ->
  SaveWallpapers d imageDataList true w = (Ret (results, err), w', t) ->
  nth_error results k = Some (Some r) ->
  DownloadErr r = Some cause ->
  (forall j r', (k < j)%nat -> nth_error results j = Some (Some r') ->
                DownloadErr r' = None) ->
  exists stage,
    failed_stage stage
    /\ err = fmt.Errorf "有部分壁纸处理失败: %v"
               [fmt.OpError
                  (fmt.Errorf "处理第 %d 张壁纸失败: %v"
                     [fmt.OpInt (Z.of_nat k);
                      fmt.OpError
                        (fmt.Errorf stage [fmt.OpError (Some cause)])])].
Proof.
  intros Hg Erun Hk Hcause Hlater.
  destruct (SaveWallpapers_loop_outcomes d Hg (len imageDataList)
              imageDataList 0 [] None w) as (outs & w1 & t1 & E & HF).
  cbn [app] in E. rewrite SaveWallpapers_unfold, E in Erun.
  injection Erun as <- <- _ _. clear E.
  rewrite nth_error_map in Hk.
  destruct (nth_error outs k) as [out|] eqn:Ek; [|discriminate].
  cbn [option_map] in Hk. injection Hk as Hout.
  destruct (nth_error_split _ _ Ek) as (pre & post & -> & Hlen).
  apply Forall2_app_inv_r in HF.
  destruct HF as (l1 & l2 & _ & HF2 & _).
  inversion HF2 as [|imageData out' l2' post' Hok HFpost]; subst.
  destruct Hok as (r0 & Hr0 & _ & H). rewrite Hout in Hr0. injection Hr0 as <-.
  destruct H as [(_ & H & _)|(cause' & stage & Hstage & Hc & _ & Hsnd)];
    [congruence|].
  rewrite Hcause in Hc. injection Hc as <-.
  exists stage. split; [exact Hstage|].
  assert (Forall (fun e => e = None) (map snd post)) as Hpost.
  { apply Forall_forall. intros e Hin. apply in_map_iff in Hin.
    destruct Hin as (out' & <- & Hin).
    destruct (In_nth_error _ _ Hin) as (j & Hj).
    assert (exists imageData', outcome_of imageData' out') as (x & Hx).
    { clear - HFpost Hin. induction HFpost as [|a b l l' Hab _ IH];
        [destruct Hin|]. destruct Hin as [<-|Hin]; [now exists a|now apply IH]. }
    pose proof Hx as (r' & Hr' & _).
    apply (proj1 (outcome_of_error _ _ _ Hx Hr')).
    apply (Hlater (Datatypes.length pre + S j)%nat); [lia|].
    rewrite nth_error_map, nth_error_app2 by lia.
    replace (Datatypes.length pre + S j - Datatypes.length pre)%nat
      with (S j) by lia.
    cbn [nth_error]. rewrite Hj. cbn [option_map]. now rewrite Hr'. }
  rewrite map_app. cbn [map]. rewrite Hsnd.
  pose proof (last_error_last 0 (map snd pre)
                (mkError (fmt.Sprintf stage [fmt.OpError (Some cause)]))
                (map snd post) None Hpost) as Hlast.
  unfold fmt.Errorf in Hlast |- *. rewrite Hlast. cbn [not_nil].
  unfold len. rewrite length_map. reflexivity.
Qed.

(** [X14] Without [continueOnError], [SaveWallpapers] returns the saved
    records of a prefix of the input and nothing else; the error is nil
    exactly when the prefix is the whole input, and otherwise it is the
    per-record error of the first record that failed, whose index is the
    number of records returned. *)
Theorem SaveWallpapers_stop_returns_saved_prefix (d : Downloader W)
    (imageDataList : list ImageData) (w : W) :
  well_behaved (Generator (Downloader_Storage d)) ->
  exists results err w' t,
    SaveWallpapers d imageDataList false w = (Ret (results, err), w', t)
    /\ Forall2 saved_entry (firstn (List.length results) imageDataList) results
    /\ (err = None <-> List.length results = List.length imageDataList)
    /\ (err <> None ->
        exists cause stage,
          failed_stage stage
          /\ err = fmt.Errorf "处理第 %d 张壁纸失败: %v"
                     [fmt.OpInt (len results);
                      fmt.OpError
                        (fmt.Errorf stage [fmt.OpError (Some cause)])]).
Proof.
  intros Hg.
  destruct (SaveWallpapers_loop_first_failure d Hg (len imageDataList)
              imageDataList 0 [] None w)
    as (outs & err & w' & t & E & HF & Hnone & Hend).
  cbn [app] in E. do 4 eexists. split.
  { rewrite SaveWallpapers_unfold, E. reflexivity. }
  rewrite length_map. split.
  - clear E Hend. revert Hnone.
    induction HF as [|imageData out l outs Hout _ IH]; intros Hnone;
      cbn [map]; constructor.
    + inversion Hnone as [|? ? Hsnd _]; subst.
      destruct Hout as (r & Hr & Hd & H). exists r.
      destruct H as [(_ & He & Hp)|(cause & stage & _ & _ & _ & H)];
        [now repeat split | unfold fmt.Errorf in H; congruence].
    + apply IH. now inversion Hnone.
  - destruct Hend as [[-> Hlen]|(bad & out & e & Hbad & Hout & He & ->)].
    + split; [now split|]. intros H; now elim H.
    + assert (List.length outs < List.length imageDataList)%nat as Hlt
        by (apply nth_error_Some; congruence).
      unfold fmt.Errorf at 1 2. split; [split; [discriminate|lia]|].
      intros _. destruct Hout as (r & _ & _ & H).
      destruct H as [(H & _)|(cause & stage & Hstage & _ & _ & H)];
        [congruence|].
      rewrite He in H. exists cause, stage. split; [exact Hstage|].
      unfold len. rewrite length_map, Z.add_0_l. unfold fmt.Errorf in *.
      now rewrite H.
Qed.

(** [X15] The counting loop of [main] runs after the two exits on a
    download error, so it never counts a failure: on the records
    [DownloadLatestWallpapers] returned with a nil error under
    [continueOnError], and on the record of [FetchAndSaveWallpaper], the
    count of failures is 0. *)
Theorem main_never_counts_a_failure (d : Downloader W) :
  well_behaved (Generator (Downloader_Storage d)) ->
  (forall days w results w' t,
     DownloadLatestWallpapers d days true w = (Ret (results, None), w', t) ->
     main_count results 0 0 = Ret (len results, 0%Z))
  /\ (forall w result w' t,
        FetchAndSaveWallpaper d 0 w = (Ret (result, None), w', t) ->
        main_count [result] 0 0 = Ret (1%Z, 0%Z)).
Proof.
  intros Hg.
  assert (forall results,
             Forall entry_ok results ->
             forall success failed,
               main_count results success failed
               = Ret ((success + len results)%Z, failed)) as Hcount.
  { induction 1 as [|entry results (r & -> & Hr & _) _ IH];
      intros success failed; cbn [main_count].
    - unfold len. cbn [List.length]. now rewrite Z.add_0_r.
    - rewrite Hr, IH. unfold len. cbn [List.length]. do 2 f_equal. lia. }
  split.
  - intros days w results w' t E. rewrite Hcount; [reflexivity|].
    unfold DownloadLatestWallpapers in E.
    destruct ((days <=? 0)%Z || (days >? 16)%Z); [discriminate|].
    apply bind_inv in E.
    destruct E as [(_ & w1 & t1 & t2 & _ & E & _)|(msg & _ & H)];
      [|discriminate].
    apply bind_inv in E.
    destruct E as [([images [e|]] & w2 & t3 & t4 & _ & E & _)|(msg & _ & H)];
      [| |discriminate].
    { apply bind_inv in E.
      destruct E as [(_ & w3 & t5 & t6 & _ & E & _)|(msg & _ & H)];
        discriminate. }
    destruct (SaveWallpapers_loop_continue d (len images) Hg images 0 [] None w2)
      as (entries & err & w3 & t5 & E' & _ & Herr).
    rewrite SaveWallpapers_unfold, E' in E. cbn [app] in E.
    injection E as <- -> _ _. now apply Herr.
  - intros w result w' t E. rewrite Hcount; [reflexivity|].
    destruct (FetchAndSaveWallpaper_returns d 0 w Hg)
      as (entry & err & w1 & t1 & E' & _ & Hok & _).
    rewrite E in E'. injection E' as <- <- _ _.
    constructor; [now apply Hok | constructor].
Qed.

End BatchTheorems.

(** ** Pauses *)

Lemma sleeps_app t1 t2 : sleeps (t1 ++ t2) = (sleeps t1 ++ sleeps t2)%list.
Proof.
  induction t1 as [|e t1 IH]; [reflexivity|].
  destruct e; cbn [app sleeps]; now rewrite IH.
Qed.

Lemma no_sleep_sleeps t : Forall no_sleep t -> sleeps t = [].
Proof.
  induction 1 as [|e t H _ IH]; [reflexivity|].
  destruct e; cbn [sleeps]; auto. destruct H.
Qed.

Section Pacing.

Context {W : Type} {env : Env W}.

Lemma bind_Ret_inv {A B} (m : M W A) (k : A -> M W B) w a w1 t1 r w' t :
  m w = (Ret a, w1, t1) ->
  bind m k w = (r, w', t) ->
  exists t2, k a w1 = (r, w', t2) /\ t = (t1 ++ t2)%list.
Proof.
  intros Hm. unfold bind. rewrite Hm.
  destruct (k a w1) as [[r2 w2] t2]. intros [= <- <- <-]. now exists t2.
Qed.

Variable d : Downloader W.
Hypothesis Hdefault : Generator (Downloader_Storage d) = NewDefaultFilenameGenerator.

Lemma default_well_behaved : well_behaved (Generator (Downloader_Storage d)).
Proof. rewrite Hdefault. apply NewDefaultFilenameGenerator_well_behaved. Qed.

Lemma SaveWallpaper_no_sleep imageData daysAgo w r w' t :
  SaveWallpaper d imageData daysAgo w = (r, w', t) -> sleeps t = [].
Proof.
  intros E. apply no_sleep_sleeps.
  refine (SaveWallpaper_emits d no_sleep (fun _ => True) (fun _ => True)
            _ _ _ Hdefault imageData daysAgo I I _ w r w' t E);
    intros; exact I || (split; exact I).
Qed.

Lemma pause_sleeps (i n : Z) (w : W) :
  exists t,
    (if (i <? n - 1)%Z then
       Logger_Debug "等待1秒后继续..." [] ;;; time_Sleep (1 * time_Second)
     else ret tt) w = (Ret tt, w, t)
    /\ sleeps t = if (i <? n - 1)%Z then [(1 * time_Second)%Z] else [].
Proof. destruct (i <? n - 1)%Z; eexists; split; reflexivity. Qed.

(** The loop sleeps after every record it appends but the last of the
    list. *)
Lemma SaveWallpapers_loop_sleeps (n : Z) (continueOnError : bool) :
  forall rest i results0 lastError w results err w' t,
    n = (i + len rest)%Z ->
    SaveWallpapers_loop d n continueOnError i rest results0 lastError w
    = (Ret (results, err), w', t) ->
    (List.length results0 <= List.length results)%nat
    /\ sleeps t
       = repeat (1 * time_Second)%Z
           (Nat.min (List.length results - List.length results0)
              (List.length rest - 1)).
Proof.
  pose proof default_well_behaved as Hg.
  induction rest as [|imageData rest IH];
    intros i results0 lastError w results err w' t Hn E.
  - cbn [SaveWallpapers_loop] in E. unfold SaveWallpapers_end in E.
    apply bind_inv in E.
    destruct E as [(u & w1 & t1 & t2 & E1 & E2 & ->)|(msg & _ & H)];
      [|discriminate].
    inversion E1; subst; clear E1.
    assert (results = results0 /\ t2 = []) as [-> ->]
      by (destruct (not_nil lastError && continueOnError);
          injection E2 as <- _ _ <-; now split).
    split; [lia|]. now rewrite Nat.sub_diag.
  - cbn [SaveWallpapers_loop] in E.
    destruct (SaveWallpaper_outcome d Hg imageData i w)
      as ([entry e] & w1 & t1 & E1 & (r & Hr & _)).
    cbn [fst] in Hr. subst entry.
    pose proof (SaveWallpaper_no_sleep _ _ _ _ _ _ E1) as Hs1.
    destruct (bind_Ret_inv _ _ _ _ _ _ _ _ _ E1 E) as (t2 & E2 & ->).
    clear E. cbv beta iota in E2. rewrite sleeps_app, Hs1. cbn [app].
    assert (forall results1 lastError1 t3,
               (pause <- (if (i <? n - 1)%Z then
                   Logger_Debug "等待1秒后继续..." [] ;;;
                   time_Sleep (1 * time_Second)
                 else ret tt) ;;
                SaveWallpapers_loop d n continueOnError (i + 1) rest
                  (results0 ++ [Some r]) lastError1) w1
               = (Ret (results, err), w', t3) ->
               results1 = results ->
               (List.length results0 <= List.length results)%nat
               /\ sleeps t3
                  = repeat (1 * time_Second)%Z
                      (Nat.min (List.length results - List.length results0)
                         (List.length (imageData :: rest) - 1))) as Hnext.
    { intros results1 lastError1 t3 E3 _.
      destruct (pause_sleeps i n w1) as (tp & Ep & Hsp).
      destruct (bind_Ret_inv _ _ _ _ _ _ _ _ _ Ep E3) as (t4 & E4 & ->).
      apply IH in E4; [|unfold len in *; cbn [List.length] in Hn; lia].
      destruct E4 as [Hlen Hs4]. rewrite length_app in Hlen, Hs4.
      cbn [List.length] in *. split; [lia|].
      rewrite sleeps_app, Hsp, Hs4.
      replace (S (Datatypes.length rest) - 1)%nat
        with (Datatypes.length rest) by lia.
      destruct rest as [|x rest].
      - replace (i <? n - 1)%Z with false
          by (symmetry; apply Z.ltb_ge; unfold len in Hn;
              cbn [List.length] in Hn; lia).
        cbn [List.length]. now rewrite !Nat.min_0_r.
      - replace (i <? n - 1)%Z with true
          by (symmetry; apply Z.ltb_lt; unfold len in Hn;
              cbn [List.length] in Hn; lia).
        cbn [List.length] in *.
        replace (Nat.min (Datatypes.length results - Datatypes.length results0)
                   (S (Datatypes.length rest)))
          with (S (Nat.min (Datatypes.length results
                            - (Datatypes.length results0 + 1))
                     (S (Datatypes.length rest) - 1))) by lia.
        reflexivity. }
    destruct e as [e|].
    + apply bind_inv in E2.
      destruct E2 as [(u & w2 & t3 & t4 & E3 & E4 & ->)|(msg & _ & H)];
        [|discriminate].
      inversion E3; subst; clear E3. cbn [app sleeps].
      destruct continueOnError; cbn [negb] in E4.
      * now apply (Hnext results _ _ E4).
      * injection E4 as <- _ _ <-. split; [lia|].
        now rewrite Nat.sub_diag.
    + now apply (Hnext results _ _ E2).
Qed.

Lemma FetchAndSaveWallpaper_no_sleep daysAgo w r w' t :
  FetchAndSaveWallpaper d daysAgo w = (r, w', t) -> sleeps t = [].
Proof.
  intros E. apply no_sleep_sleeps.
  refine (FetchAndSaveWallpaper_emits_all d no_sleep _ _ _ Hdefault
            daysAgo w r w' t E); intros; exact I.
Qed.

(** The loop of [FetchAndSaveWallpapers] sleeps after every day it does not
    stop at, but the last. *)
Lemma FetchAndSaveWallpapers_loop_sleeps (days : Z) (continueOnError : bool) :
  forall m start results0 lastError w results err w' t,
    days = Z.of_nat (start + m) ->
    FetchAndSaveWallpapers_loop d days continueOnError
      (map Z.of_nat (seq start m)) results0 lastError w
    = (Ret (results, err), w', t) ->
    (List.length results0 <= List.length results)%nat
    /\ sleeps t
       = repeat (1 * time_Second)%Z
           (if continueOnError then (m - 1)%nat
            else Nat.min (List.length results - List.length results0) (m - 1)).
Proof.
  pose proof default_well_behaved as Hg.
  induction m as [|m IH];
    intros start results0 lastError w results err w' t Hn E.
  - cbn [seq map FetchAndSaveWallpapers_loop] in E.
    unfold FetchAndSaveWallpapers_end in E.
    apply bind_inv in E.
    destruct E as [(u & w1 & t1 & t2 & E1 & E2 & ->)|(msg & _ & H)];
      [|discriminate].
    inversion E1; subst; clear E1.
    assert (results = results0 /\ t2 = []) as [-> ->]
      by (destruct (not_nil lastError && continueOnError);
          injection E2 as <- _ _ <-; now split).
    split; [lia|]. rewrite Nat.sub_diag. now destruct continueOnError.
  - cbn [seq map FetchAndSaveWallpapers_loop] in E.
    destruct (FetchAndSaveWallpaper_returns d (Z.of_nat start) w Hg)
      as (entry & e & w1 & t1 & E1 & _ & Hok & _).
    pose proof (FetchAndSaveWallpaper_no_sleep _ _ _ _ _ E1) as Hs1.
    destruct (bind_Ret_inv _ _ _ _ _ _ _ _ _ E1 E) as (t2 & E2 & ->).
    clear E. cbv beta iota in E2. rewrite sleeps_app, Hs1. cbn [app].
    assert (forall results1 lastError1 t3,
               (pause <- (if (Z.of_nat start <? days - 1)%Z then
                   Logger_Debug "等待1秒后继续..." [] ;;;
                   time_Sleep (1 * time_Second)
                 else ret tt) ;;
                FetchAndSaveWallpapers_loop d days continueOnError
                  (map Z.of_nat (seq (S start) m)) results1 lastError1) w1
               = (Ret (results, err), w', t3) ->
               (List.length results0 <= List.length results1)%nat ->
               (continueOnError = false ->
                List.length results1 = S (List.length results0)) ->
               (List.length results0 <= List.length results)%nat
               /\ sleeps t3
                  = repeat (1 * time_Second)%Z
                      (if continueOnError then (S m - 1)%nat
                       else Nat.min (List.length results - List.length results0)
                              (S m - 1))) as Hnext.
    { intros results1 lastError1 t3 E3 Hle Hstop.
      destruct (pause_sleeps (Z.of_nat start) days w1) as (tp & Ep & Hsp).
      destruct (bind_Ret_inv _ _ _ _ _ _ _ _ _ Ep E3) as (t4 & E4 & ->).
      apply IH in E4; [|lia].
      destruct E4 as [Hlen Hs4].
      split; [lia|].
      rewrite sleeps_app, Hsp, Hs4.
      replace (S m - 1)%nat with m by lia.
      destruct m as [|m].
      - replace (Z.of_nat start <? days - 1)%Z with false
          by (symmetry; apply Z.ltb_ge; lia).
        destruct continueOnError; [reflexivity|].
        cbn [Nat.sub]. now rewrite !Nat.min_0_r.
      - replace (Z.of_nat start <? days - 1)%Z with true
          by (symmetry; apply Z.ltb_lt; lia).
        destruct continueOnError.
        + now replace (S m - 1)%nat with m by lia.
        + specialize (Hstop eq_refl).
          replace (Nat.min (Datatypes.length results - Datatypes.length results0)
                     (S m))
            with (S (Nat.min (Datatypes.length results
                              - Datatypes.length results1)
                       (S m - 1))) by lia.
          reflexivity. }
    destruct e as [e|].
    + apply bind_inv in E2.
      destruct E2 as [(u & w2 & t3 & t4 & E3 & E4 & ->)|(msg & _ & H)];
        [|discriminate].
      inversion E3; subst; clear E3. cbn [app sleeps].
      destruct continueOnError; cbn [negb] in E4.
      * apply (Hnext _ _ _ E4); [|discriminate].
        destruct entry; [rewrite length_app; cbn [List.length]|]; lia.
      * injection E4 as <- _ _ <-. split; [lia|].
        now rewrite Nat.sub_diag.
    + destruct (Hok eq_refl) as (r & -> & _).
      apply (Hnext _ _ _ E2); intros; rewrite length_app; cbn [List.length]; lia.
Qed.

End Pacing.

Section PacingTheorem.

Context {W : Type} {env : Env W}.

(** [X16] Both batch loops sleep one second between records and never
    after the last: [SaveWallpapers] sleeps once for every record it
    returned, except the last of the input; [FetchAndSaveWallpapers] with
    [continueOnError] sleeps [days - 1] times, also after the days that
    failed. *)
Theorem batches_pause_between_records (c : Client) (outputDir : string)
    (saveJson : bool) :
  let d := default_downloader c outputDir saveJson in
  (forall imageDataList continueOnError (w : W) results err w' t,
     SaveWallpapers d imageDataList continueOnError w
     = (Ret (results, err), w', t) ->
     sleeps t
     = repeat (1 * time_Second)%Z
         (Nat.min (List.length results) (List.length imageDataList - 1)))
  /\ (forall days (w : W) results err w' t,
        FetchAndSaveWallpapers d days true w = (Ret (results, err), w', t) ->
        sleeps t = repeat (1 * time_Second)%Z (Z.to_nat days - 1)).
Proof.
  intros d. split.
  - intros imageDataList continueOnError w results err w' t E.
    rewrite SaveWallpapers_unfold in E.
    destruct (SaveWallpapers_loop d _ _ _ _ _ _ w) as [[r w1] t1] eqn:E1.
    injection E as -> -> <-. cbn [sleeps].
    apply SaveWallpapers_loop_sleeps in E1; [|reflexivity|lia].
    destruct E1 as [_ ->]. cbn [List.length]. now rewrite Nat.sub_0_r.
  - intros days w results err w' t E.
    destruct (Z.ltb_spec days 0) as [Hneg|Hpos].
    + unfold FetchAndSaveWallpapers in E.
      replace (days <? 0)%Z with true in E by (symmetry; apply Z.ltb_lt; lia).
      discriminate.
    + rewrite FetchAndSaveWallpapers_unfold in E by exact Hpos.
      destruct (FetchAndSaveWallpapers_loop d _ _ _ _ _ w) as [[r w1] t1] eqn:E1.
      injection E as -> -> <-. cbn [sleeps].
      unfold loop_indices in E1.
      apply FetchAndSaveWallpapers_loop_sleeps in E1; [|reflexivity|lia].
      now destruct E1 as [_ ->].
Qed.

End PacingTheorem.

(** ** The number of days *)

Section Days.

Context {W : Type} {env : Env W}.

(** [X17] [DownloadLatestWallpapers] asks for [days] records but works on
    what the archive answered: with [continueOnError], once the metadata
    request has succeeded, it returns one record per record of the answer,
    in the answer's order, however many that is; when the metadata request
    fails it returns that very error, not wrapped, and no record, and does
    nothing more than log it. *)
Theorem DownloadLatestWallpapers_follows_archive (d : Downloader W)
    (days : Z) (w : W) (images : list ImageData) (err : option error)
    (w1 : W) (t1 : list Event) :
  well_behaved (Generator (Downloader_Storage d)) ->
  (1 <= days <= 16)%Z ->
  FetchMultipleImageData (Downloader_Client d) days w
  = (Ret (images, err), w1, t1) ->
  match err with
  | None =>
      exists results err' w' t,
        DownloadLatestWallpapers d days true w = (Ret (results, err'), w', t)
        /\ Forall2 (fun imageData entry =>
                      exists r, entry = Some r /\ ImageDataOf r = imageData)
             images results
  | Some _ =>
      forall continueOnError,
        DownloadLatestWallpapers d days continueOnError w
        = (Ret ([], err), w1,
           (EvLog LogLevelInfo "正在批量获取最近 %d 天的壁纸" [fmt.OpInt days]
            :: t1 ++ [EvLog LogLevelError "获取壁纸数据失败: %v" [fmt.OpError err]])%list)
  end.
Proof.
  intros Hg Hdays E.
  unfold DownloadLatestWallpapers.
  replace ((days <=? 0)%Z || (days >? 16)%Z) with false
    by (symmetry; apply orb_false_iff; split;
        [apply Z.leb_gt | rewrite Z.gtb_ltb; apply Z.ltb_ge]; lia).
  destruct err as [e|].
  - intros continueOnError. run. rewrite E. reflexivity.
  - destruct (SaveWallpapers_loop_outcomes d Hg (len images) images 0 [] None w1)
      as (outs & w' & t & E' & HF).
    cbn [app] in E'. run. rewrite E.
    rewrite SaveWallpapers_unfold, E'. do 4 eexists. split; [reflexivity|].
    clear - HF. induction HF as [|imageData out l outs (r & Hr & Hd & _) _ IH];
      cbn [map]; constructor; [now exists r | exact IH].
Qed.

(** [X18] [FetchAndSaveWallpapers] does not check [days] against 1..16 as
    [DownloadLatestWallpapers] does: a negative [days] panics in [make]
    before anything is logged; 0 returns no record and a nil error; every
    [days] from 0 to 65535 is accepted; and whenever a run with
    [continueOnError] returns, whatever [days] was, it has started every
    day below [days] and returns at most [days] records. *)
Theorem FetchAndSaveWallpapers_does_not_validate_days (d : Downloader W) :
  well_behaved (Generator (Downloader_Storage d)) ->
  (forall days continueOnError w,
     (days < 0)%Z ->
     FetchAndSaveWallpapers d days continueOnError w
     = (Panic "runtime error: makeslice: cap out of range", w, []))
  /\ (forall continueOnError w,
        FetchAndSaveWallpapers d 0 continueOnError w
        = (Ret ([], None), w,
           [EvLog LogLevelInfo "开始处理最近 %d 天的壁纸" [fmt.OpInt 0];
            days_finished 0 []]))
  /\ (forall days w,
        (0 <= days <= 65535)%Z ->
        exists results err w' t,
          FetchAndSaveWallpapers d days true w = (Ret (results, err), w', t))
  /\ (forall days w results err w' t,
        FetchAndSaveWallpapers d days true w = (Ret (results, err), w', t) ->
        (0 <= days)%Z /\ (len results <= days)%Z
        /\ forall i, (0 <= i < days)%Z -> In (day_started i) t).
Proof.
  intros Hg.
  assert (forall days w,
            (0 <= days)%Z ->
            exists results err w' t,
              FetchAndSaveWallpapers d days true w = (Ret (results, err), w', t)
              /\ (len results <= days)%Z
              /\ forall i, (0 <= i < days)%Z -> In (day_started i) t) as Hrun.
  { intros days w Hdays.
    destruct (FetchAndSaveWallpapers_loop_continue d days Hg
                (loop_indices days) [] None w)
      as (entries & err & w' & t & E & Hlen & _ & Hstarted & _).
    cbn [app] in E. rewrite loop_indices_length in Hlen.
    exists entries, err, w'. eexists. split.
    + rewrite FetchAndSaveWallpapers_unfold by lia. rewrite E. reflexivity.
    + split; [unfold len; lia|].
      intros i Hi. right. apply Hstarted. now apply loop_indices_In. }
  split; [|split; [|split]].
  - intros days continueOnError w Hneg. unfold FetchAndSaveWallpapers.
    now replace (days <? 0)%Z with true by (symmetry; apply Z.ltb_lt; lia).
  - intros continueOnError w. now destruct continueOnError.
  - intros days w [Hdays _].
    destruct (Hrun days w Hdays) as (results & err & w' & t & E & _).
    now exists results, err, w', t.
  - intros days w results err w' t E.
    assert (0 <= days)%Z as Hdays.
    { unfold FetchAndSaveWallpapers in E.
      destruct (Z.ltb_spec days 0); [discriminate E | assumption]. }
    split; [exact Hdays|].
    destruct (Hrun days w Hdays) as (results' & err' & w1 & t1 & E' & Hlen & Hs).
    rewrite E in E'. injection E' as <- _ _ <-. now split.
Qed.

End Days.

(** ** Errors and the log *)

Lemma loud_events_app t1 t2 :
  loud_events (t1 ++ t2) = (loud_events t1 ++ loud_events t2)%list.
Proof. apply filter_app. Qed.

Section Loud.

Context {W : Type} {env : Env W}.

Lemma sendRequest_logs (c : Client) method url :
  logs_its_errors (sendRequest c method url).
Proof.
  intros w a err w' t. unfold sendRequest, Do. run.
  destruct (http_NewRequest method url) as [e|].
  { intros [= <- <- <- <-]. split; [discriminate|]. intros _. discriminate. }
  destruct (httpClient_Do (timeout c) (mkRequest method url (userAgent c)) w)
    as [[resp [e|]] w1].
  { intros [= <- <- <- <-]. split; [discriminate|]. intros _. discriminate. }
  destruct (StatusCode resp =? http_StatusOK)%Z; cbn [negb].
  2:{ intros [= <- <- <- <-]. split; [discriminate|]. intros _. discriminate. }
  destruct (Body resp) as [body [e|]].
  { intros [= <- <- <- <-]. split; [discriminate|]. intros _. discriminate. }
  intros [= <- <- <- <-]. split; [reflexivity|]. intros H; now elim H.
Qed.

Lemma after_calm_event {A} (e : Event) (m : M W (A * option error)) :
  is_loud e = false -> logs_its_errors m ->
  logs_its_errors (emit e ;;; m).
Proof.
  intros He Hm w a err w' t E.
  apply (bind_Ret_inv _ _ w tt w [e]) in E; [|reflexivity].
  destruct E as (t2 & E & ->).
  change ([e] ++ t2)%list with (e :: t2). unfold loud_events. cbn [filter].
  rewrite He. exact (Hm _ _ _ _ _ E).
Qed.

Lemma FetchRawImageData_logs (c : Client) imageData :
  logs_its_errors (FetchRawImageData c imageData).
Proof.
  unfold FetchRawImageData, Logger_Info.
  apply after_calm_event; [reflexivity | apply sendRequest_logs].
Qed.

Lemma FetchRawJsonData_logs (c : Client) url :
  logs_its_errors (FetchRawJsonData c url).
Proof.
  unfold FetchRawJsonData, Logger_Info.
  apply after_calm_event; [reflexivity | apply sendRequest_logs].
Qed.

Lemma parseImageResponse_logs (c : Client) data :
  logs_its_errors (parseImageResponse c data).
Proof.
  intros w a err w' t. unfold parseImageResponse. run.
  destruct (json_Unmarshal data) as [archiveResp [e|]].
  { intros [= <- <- <- <-]. split; [discriminate|]. intros _. discriminate. }
  destruct (len (Images archiveResp) =? 0)%Z;
    intros [= <- <- <- <-]; (split; [try discriminate; reflexivity|]);
    intros H; try discriminate; now elim H.
Qed.

Lemma fetchMultipleImageData_logs (c : Client) daysAgo count :
  logs_its_errors (fetchMultipleImageData c daysAgo count).
Proof.
  unfold fetchMultipleImageData, Logger_Info.
  apply after_calm_event; [reflexivity|].
  intros w a err w' t E.
  destruct (FetchRawJsonData_returns c (GetBingApiURL c daysAgo count) w)
    as (body & e1 & w1 & t1 & E1).
  destruct (bind_Ret_inv _ _ _ _ _ _ _ _ _ E1 E) as (t2 & E2 & ->). clear E.
  destruct (FetchRawJsonData_logs c _ _ _ _ _ _ E1) as [Hok1 Hbad1].
  rewrite loud_events_app. destruct e1 as [e1|].
  - injection E2 as <- <- <- <-. rewrite app_nil_r.
    split; [discriminate|]. intros _. apply Hbad1. discriminate.
  - rewrite (Hok1 eq_refl). cbn [app].
    destruct (parseImageResponse_returns c body w1)
      as (images & e2 & w2 & t3 & E3 & _).
    destruct (bind_Ret_inv _ _ _ _ _ _ _ _ _ E3 E2) as (t4 & E4 & ->). clear E2.
    destruct (parseImageResponse_logs c _ _ _ _ _ _ E3) as [Hok2 Hbad2].
    rewrite loud_events_app. destruct e2 as [e2|].
    + injection E4 as <- <- <- <-. rewrite app_nil_r.
      split; [discriminate|]. intros _. apply Hbad2. discriminate.
    + rewrite (Hok2 eq_refl). injection E4 as <- <- <- <-.
      split; [reflexivity|]. intros H; now elim H.
Qed.

Lemma FetchMultipleImageData_logs (c : Client) days :
  (1 <= days <= 16)%Z -> logs_its_errors (FetchMultipleImageData c days).
Proof.
  intros Hdays. unfold FetchMultipleImageData.
  replace ((days <=? 0)%Z || (days >? 16)%Z) with false
    by (symmetry; apply orb_false_iff; split;
        [apply Z.leb_gt | rewrite Z.gtb_ltb; apply Z.ltb_ge]; lia).
  apply fetchMultipleImageData_logs.
Qed.

Variable d : Downloader W.
Hypothesis Hdefault : Generator (Downloader_Storage d) = NewDefaultFilenameGenerator.

Lemma SaveImage_calm data imageData w r w' t :
  SaveImage (Downloader_Storage d) data imageData w = (r, w', t) ->
  loud_events t = [].
Proof.
  unfold SaveImage. rewrite Hdefault.
  cbn [GenerateImageFilename NewDefaultFilenameGenerator].
  unfold DefaultFilenameGenerator_GenerateImageFilename, Save. run.
  destruct (Storage_Save data _ w) as [[e|] w2]; now intros [= <- <- <-].
Qed.

Lemma SaveJson_calm data imageData w r w' t :
  SaveJson (Downloader_Storage d) data imageData w = (r, w', t) ->
  loud_events t = [].
Proof.
  unfold SaveJson. rewrite Hdefault.
  cbn [GenerateJsonFilename NewDefaultFilenameGenerator].
  unfold DefaultFilenameGenerator_GenerateJsonFilename, Save. run.
  destruct (Storage_Save data _ w) as [[e|] w2]; now intros [= <- <- <-].
Qed.

(** [SaveWallpaper] warns whenever it returns an error, and with the JSON
    stage off it logs nothing above [Info] otherwise. *)
Lemma SaveWallpaper_logs imageData daysAgo w a err w' t :
  SaveWallpaper d imageData daysAgo w = (Ret (a, err), w', t) ->
  (err <> None -> loud_events t <> [])
  /\ (SaveJsonData d = false -> err = None -> loud_events t = []).
Proof.
  pose proof (default_well_behaved d Hdefault) as Hg.
  intros E. unfold SaveWallpaper in E.
  apply (bind_Ret_inv _ _ w tt w [EvLog LogLevelInfo "下载并保存图片..." []]) in E;
    [|reflexivity].
  destruct E as (t0 & E & ->).
  change (loud_events ([EvLog LogLevelInfo "下载并保存图片..." []] ++ t0))
    with (loud_events t0).
  destruct (FetchRawImageData_returns (Downloader_Client d) imageData w)
    as (b & e1 & w1 & t1 & E1).
  destruct (bind_Ret_inv _ _ _ _ _ _ _ _ _ E1 E) as (t2 & E2 & ->). clear E.
  destruct (FetchRawImageData_logs _ _ _ _ _ _ _ E1) as [Hok1 _].
  rewrite loud_events_app. destruct e1 as [e1|].
  { injection E2 as <- <- <- <-.
    split; [intros _ H; apply app_eq_nil in H; destruct H as [_ H];
            discriminate H
           | discriminate]. }
  rewrite (Hok1 eq_refl). cbn [app].
  destruct (SaveImage_returns (Downloader_Storage d) b imageData w1 Hg)
    as (p & e2 & w2 & t3 & E3 & _).
  destruct (bind_Ret_inv _ _ _ _ _ _ _ _ _ E3 E2) as (t4 & E4 & ->). clear E2.
  rewrite loud_events_app, (SaveImage_calm _ _ _ _ _ _ E3). cbn [app].
  destruct e2 as [e2|].
  { injection E4 as <- <- <- <-. split; [discriminate|discriminate]. }
  apply (bind_Ret_inv _ _ w2 tt w2
           [EvLog LogLevelInfo "图片已保存到: %s" [fmt.OpString p]]) in E4;
    [|reflexivity].
  destruct E4 as (t5 & E5 & ->).
  change (loud_events ([EvLog LogLevelInfo "图片已保存到: %s" [fmt.OpString p]] ++ t5))
    with (loud_events t5).
  apply bind_inv in E5.
  destruct E5 as [(r & w3 & t6 & t7 & E6 & E7 & ->)|(msg & _ & H)];
    [|discriminate].
  injection E7 as <- <- <- <-.
  split; [intros H; now elim H|].
  intros Hjson _. rewrite Hjson in E6. injection E6 as <- <- <-. reflexivity.
Qed.

(** The loop of [SaveWallpapers] logs an error whenever it ends on one it
    did not start with, and with the JSON stage off it logs nothing above
    [Info] when it ends without. *)
Lemma SaveWallpapers_loop_logs (n : Z) (continueOnError : bool) :
  forall rest i results0 lastError w results err w' t,
    SaveWallpapers_loop d n continueOnError i rest results0 lastError w
    = (Ret (results, err), w', t) ->
    (err <> None -> lastError <> None \/ loud_events t <> [])
    /\ (SaveJsonData d = false -> err = None -> loud_events t = [])
    /\ (continueOnError = true -> lastError <> None -> err <> None).
Proof.
  pose proof (default_well_behaved d Hdefault) as Hg.
  induction rest as [|imageData rest IH];
    intros i results0 lastError w results err w' t E.
  - cbn [SaveWallpapers_loop] in E. unfold SaveWallpapers_end in E.
    apply bind_inv in E.
    destruct E as [(u & w1 & t1 & t2 & E1 & E2 & ->)|(msg & _ & H)];
      [|discriminate].
    inversion E1; subst; clear E1.
    destruct lastError as [e|], continueOnError; cbn [not_nil andb] in E2;
      injection E2 as <- <- <- <-; unfold fmt.Errorf;
      (split; [intros H; first [now elim H | left; discriminate]|]);
      (split; [intros _ H; first [reflexivity | discriminate H]|]);
      intros H1 H2; first [discriminate H1 | now elim H2 | discriminate].
  - cbn [SaveWallpapers_loop] in E.
    destruct (SaveWallpaper_outcome d Hg imageData i w)
      as ([entry e] & w1 & t1 & E1 & (r & Hr & _)).
    cbn [fst] in Hr. subst entry.
    destruct (SaveWallpaper_logs _ _ _ _ _ _ _ E1) as [Hbad1 Hok1].
    destruct (bind_Ret_inv _ _ _ _ _ _ _ _ _ E1 E) as (t2 & E2 & ->).
    clear E. cbv beta iota in E2. rewrite loud_events_app.
    assert (forall lastError1 t3,
               (pause <- (if (i <? n - 1)%Z then
                   Logger_Debug "等待1秒后继续..." [] ;;;
                   time_Sleep (1 * time_Second)
                 else ret tt) ;;
                SaveWallpapers_loop d n continueOnError (i + 1) rest
                  (results0 ++ [Some r]) lastError1) w1
               = (Ret (results, err), w', t3) ->
               (err <> None -> lastError1 <> None \/ loud_events t3 <> [])
               /\ (SaveJsonData d = false -> err = None -> loud_events t3 = [])
               /\ (continueOnError = true -> lastError1 <> None -> err <> None))
      as Hnext.
    { intros lastError1 t3 E3.
      destruct (pause_sleeps i n w1) as (tp & Ep & _).
      destruct (bind_Ret_inv _ _ _ _ _ _ _ _ _ Ep E3) as (t4 & E4 & ->).
      apply IH in E4. rewrite loud_events_app.
      assert (loud_events tp = []) as ->.
      { destruct (i <? n - 1)%Z; injection Ep as <-; reflexivity. }
      exact E4. }
    destruct e as [e|].
    + apply bind_inv in E2.
      destruct E2 as [(u & w2 & t3 & t4 & E3 & E4 & ->)|(msg & _ & H)];
        [|discriminate].
      inversion E3; subst; clear E3.
      split; [intros _; right; intros H; apply app_eq_nil in H;
              destruct H as [_ H]; discriminate H|].
      destruct continueOnError; cbn [negb] in E4.
      * destruct (Hnext _ _ E4) as (_ & _ & Hlast).
        split; [|intros _ _; apply Hlast; [reflexivity|discriminate]].
        intros _ Herr. exfalso. revert Herr.
        apply Hlast; [reflexivity|discriminate].
      * injection E4 as <- <- <- <-. split; [discriminate|discriminate].
    + destruct (Hnext _ _ E2) as (Hbad & Hok & Hlast).
      split; [|split; [|exact Hlast]].
      * intros Herr. destruct (Hbad Herr) as [H|H]; [now left|right].
        intros H'. apply app_eq_nil in H'. now destruct H'.
      * intros Hjson Herr. rewrite (Hok1 Hjson eq_refl). now apply Hok.
Qed.

(** [DownloadLatestWallpapers], for [days] in 1..16. *)
Lemma DownloadLatestWallpapers_logs (days : Z) (continueOnError : bool)
    (w : W) (results : list (option DownloadResult)) (err : option error)
    (w' : W) (t : list Event) :
  (1 <= days <= 16)%Z ->
  DownloadLatestWallpapers d days continueOnError w = (Ret (results, err), w', t) ->
  (err <> None -> loud_events t <> [])
  /\ (SaveJsonData d = false -> err = None -> loud_events t = []).
Proof.
  intros Hdays E. unfold DownloadLatestWallpapers in E.
  replace ((days <=? 0)%Z || (days >? 16)%Z) with false in E
    by (symmetry; apply orb_false_iff; split;
        [apply Z.leb_gt | rewrite Z.gtb_ltb; apply Z.ltb_ge]; lia).
  apply (bind_Ret_inv _ _ w tt w
           [EvLog LogLevelInfo "正在批量获取最近 %d 天的壁纸" [fmt.OpInt days]]) in E;
    [|reflexivity].
  destruct E as (t0 & E & ->).
  change (loud_events
            ([EvLog LogLevelInfo "正在批量获取最近 %d 天的壁纸" [fmt.OpInt days]] ++ t0))
    with (loud_events t0).
  apply bind_inv in E.
  destruct E as [([images e1] & w1 & t1 & t2 & E1 & E2 & ->)|(msg & _ & H)];
    [|discriminate].
  destruct (FetchMultipleImageData_logs _ days Hdays _ _ _ _ _ E1) as [Hok1 Hbad1].
  rewrite loud_events_app. destruct e1 as [e1|].
  - injection E2 as <- <- <- <-.
    split; [|discriminate]. intros _ H. apply app_eq_nil in H.
    destruct H as [_ H]. discriminate H.
  - rewrite (Hok1 eq_refl). cbn [app].
    rewrite SaveWallpapers_unfold in E2.
    destruct (SaveWallpapers_loop d _ _ _ _ _ _ w1) as [[r w2] t3] eqn:E3.
    injection E2 as -> -> <-.
    change (loud_events (EvLog LogLevelInfo "开始处理 %d 张壁纸" [fmt.OpInt (len images)] :: t3))
      with (loud_events t3).
    destruct (SaveWallpapers_loop_logs _ _ _ _ _ _ _ _ _ _ _ E3)
      as (Hbad & Hok & _).
    split; [|exact Hok].
    intros Herr. destruct (Hbad Herr) as [H|H]; [now elim H | exact H].
Qed.

End Loud.

Section LoudTheorem.

Context {W : Type} {env : Env W}.

(** [X19] For [days] in 1..16, [DownloadLatestWallpapers] never returns an
    error in silence: a warning or an error has been logged; and with the
    JSON stage off a run that returns no error has logged nothing above
    the [Info] level.  (The error for [days] outside 1..16 is the one that
    is returned without a log line.) *)
Theorem DownloadLatestWallpapers_logs_its_errors (c : Client)
    (outputDir : string) (saveJson : bool) (days : Z) (continueOnError : bool)
    (w : W) (results : list (option DownloadResult)) (err : option error)
    (w' : W) (t : list Event) :
  let d := default_downloader c outputDir saveJson in
  (1 <= days <= 16)%Z ->
  DownloadLatestWallpapers d days continueOnError w = (Ret (results, err), w', t) ->
  (err <> None -> loud_events t <> [])
  /\ (saveJson = false -> err = None -> loud_events t = []).
Proof.
  intros d Hdays E.
  exact (DownloadLatestWallpapers_logs d eq_refl days continueOnError
           w results err w' t Hdays E).
Qed.

End LoudTheorem.

(** ** The default logger, and the nil record *)

Lemma DefaultLogger_feed_quiet (l : DefaultLogger) (t : list Event) :
  (2 <= LogLevel_value (level l))%Z ->
  loud_events t = [] ->
  forall nows, DefaultLogger_feed l nows t = l.
Proof.
  intros Hl. induction t as [|e t IH]; intros Ht nows; [reflexivity|].
  unfold loud_events in Ht. cbn [filter] in Ht.
  destruct e as [lv format args| | |]; cbn [DefaultLogger_feed];
    try (apply IH; exact Ht).
  destruct lv; cbn [is_loud] in Ht; try discriminate Ht; cbv zeta;
    unfold DefaultLogger_Debug, DefaultLogger_Info, DefaultLogger_log;
    cbn [LogLevel_value];
    (replace (_ <? LogLevel_value (level l))%Z with true
       by (symmetry; apply Z.ltb_lt; lia));
    apply IH; exact Ht.
Qed.

Section Quiet.

Context {W : Type} {env : Env W}.

(** [X20] A [DefaultLogger] set to [Warning] or [Error] writes nothing
    during a [DownloadLatestWallpapers] that returns no error with the JSON
    stage off, for [days] in 1..16: the logger is as it was. *)
Theorem DefaultLogger_silent_on_success (c : Client) (outputDir : string)
    (days : Z) (continueOnError : bool) (w : W)
    (results : list (option DownloadResult)) (w' : W) (t : list Event)
    (l : DefaultLogger) (nows : list string) :
  (1 <= days <= 16)%Z ->
  level l = LogLevelWarning \/ level l = LogLevelError ->
  DownloadLatestWallpapers (default_downloader c outputDir false) days
    continueOnError w = (Ret (results, None), w', t) ->
  DefaultLogger_feed l nows t = l.
Proof.
  intros Hdays Hl E. apply DefaultLogger_feed_quiet.
  - destruct Hl as [-> | ->]; cbn; lia.
  - now apply (DownloadLatestWallpapers_logs (default_downloader c outputDir false)
                 eq_refl days continueOnError w results None w' t Hdays E).
Qed.

End Quiet.

Section NilRecord.

Context {W : Type} {env : Env W}.

(** [FetchImageData] hands back a record exactly when it hands back no
    error. *)
Lemma FetchImageData_record_or_error (c : Client) (daysAgo : Z) (w : W)
    (imageData : option ImageData) (err : option error) (w1 : W)
    (t1 : list Event) :
  FetchImageData c daysAgo w = (Ret (imageData, err), w1, t1) ->
  (imageData <> None /\ err = None) \/ (imageData = None /\ err <> None).
Proof.
  intros E. unfold FetchImageData in E.
  destruct (fetchMultipleImageData_returns c daysAgo 1 w)
    as (images & e & w0 & t0 & E0 & Hne).
  destruct (bind_Ret_inv _ _ _ _ _ _ _ _ _ E0 E) as (t2 & E2 & _). clear E.
  destruct e as [e|].
  - injection E2 as <- <- _ _. right. split; [reflexivity|discriminate].
  - destruct images as [|image0 images]; [now elim (Hne eq_refl)|].
    injection E2 as <- <- _ _. left. split; [discriminate|reflexivity].
Qed.

(** [X21] [FetchAndSaveWallpaper] never hands a nil record to
    [SaveWallpaper]: [FetchImageData] gives a record exactly when it gives
    no error, so the call is [SaveWallpaper] on that record after the
    metadata request, or the wrapped metadata error with a nil result;
    the nil dereference is never reached. *)
Theorem FetchAndSaveWallpaper_never_passes_nil (d : Downloader W)
    (daysAgo : Z) (w : W) (imageData : option ImageData)
    (err : option error) (w1 : W) (t1 : list Event) :
  FetchImageData (Downloader_Client d) daysAgo w
  = (Ret (imageData, err), w1, t1) ->
  match imageData, err with
  | Some record, None =>
      FetchAndSaveWallpaper d daysAgo w
      = (let '(r, w2, t2) := SaveWallpaper d record daysAgo w1 in
         (r, w2, (day_started daysAgo :: t1 ++ t2)%list))
  | None, Some _ =>
      FetchAndSaveWallpaper d daysAgo w
      = (Ret (None, fmt.Errorf "获取图片数据失败: %v" [fmt.OpError err]), w1,
         (day_started daysAgo
          :: t1 ++ [EvLog LogLevelError "获取图片数据失败: %v"
                      [fmt.OpError err]])%list)
  | _, _ => False
  end.
Proof.
  intros E.
  destruct (FetchImageData_record_or_error _ _ _ _ _ _ _ E)
    as [[Hsome ->]|[-> Herr]].
  - destruct imageData as [record|]; [|now elim Hsome].
    unfold FetchAndSaveWallpaper. run. rewrite E.
    now destruct (SaveWallpaper d record daysAgo w1) as [[r w2] t2].
  - destruct err as [e|]; [|now elim Herr].
    unfold FetchAndSaveWallpaper. run. now rewrite E.
Qed.

End NilRecord.

(** ** The JSON stage *)

Section JsonStage.

Context {W : Type} {env : Env W}.

Variable d : Downloader W.
Hypothesis Hdefault : Generator (Downloader_Storage d) = NewDefaultFilenameGenerator.

Lemma SaveJson_path data imageData w p e w' t :
  SaveJson (Downloader_Storage d) data imageData w = (Ret (p, e), w', t) ->
  (e = None -> p <> "") /\ (e <> None -> p = "").
Proof.
  unfold SaveJson. rewrite Hdefault.
  cbn [GenerateJsonFilename NewDefaultFilenameGenerator].
  unfold DefaultFilenameGenerator_GenerateJsonFilename, Save. run.
  destruct (Storage_Save data _ w) as [[e'|] w2]; intros [= <- <- <- <-].
  - split; [discriminate | reflexivity].
  - split; [|intros H; now elim H]. intros _. apply Join_not_empty.
    discriminate.
Qed.

(** What [SaveWallpaper] leaves in the JSON fields of its record. *)
Lemma SaveWallpaper_json_fields imageData daysAgo w r err w' t :
  SaveWallpaper d imageData daysAgo w = (Ret (Some r, err), w', t) ->
  (err <> None -> JsonPath r = "" /\ JsonErr r = None)
  /\ (err = None ->
      if SaveJsonData d then JsonPath r <> "" <-> JsonErr r = None
      else JsonPath r = "" /\ JsonErr r = None).
Proof.
  pose proof (default_well_behaved d Hdefault) as Hg.
  intros E. unfold SaveWallpaper in E.
  apply (bind_Ret_inv _ _ w tt w [EvLog LogLevelInfo "下载并保存图片..." []]) in E;
    [|reflexivity].
  destruct E as (t0 & E & _).
  destruct (FetchRawImageData_returns (Downloader_Client d) imageData w)
    as (b & e1 & w1 & t1 & E1).
  destruct (bind_Ret_inv _ _ _ _ _ _ _ _ _ E1 E) as (t2 & E2 & _). clear E.
  destruct e1 as [e1|].
  { injection E2 as <- <- _ _. cbn. split; [now split | discriminate]. }
  destruct (SaveImage_returns (Downloader_Storage d) b imageData w1 Hg)
    as (p & e2 & w2 & t3 & E3 & _).
  destruct (bind_Ret_inv _ _ _ _ _ _ _ _ _ E3 E2) as (t4 & E4 & _). clear E2.
  destruct e2 as [e2|].
  { injection E4 as <- <- _ _. cbn. split; [now split | discriminate]. }
  apply (bind_Ret_inv _ _ w2 tt w2
           [EvLog LogLevelInfo "图片已保存到: %s" [fmt.OpString p]]) in E4;
    [|reflexivity].
  destruct E4 as (t5 & E5 & _).
  apply bind_inv in E5.
  destruct E5 as [(r' & w3 & t6 & t7 & E6 & E7 & _)|(msg & _ & H)];
    [|discriminate].
  injection E7 as <- <- _ _.
  split; [intros H; now elim H|]. intros _.
  destruct (SaveJsonData d).
  - apply (bind_Ret_inv _ _ w2 tt w2
             [EvLog LogLevelInfo "下载并保存 JSON 数据..." []]) in E6;
      [|reflexivity].
    destruct E6 as (t8 & E6 & _).
    destruct (FetchRawJsonData_returns (Downloader_Client d)
                (GetBingApiURL (Downloader_Client d) daysAgo 1) w2)
      as (jb & e3 & w4 & t9 & E8).
    destruct (bind_Ret_inv _ _ _ _ _ _ _ _ _ E8 E6) as (t10 & E9 & _). clear E6.
    destruct e3 as [e3|].
    { injection E9 as <- _ _. cbn. split; [intros H; now elim H | discriminate]. }
    destruct (SaveJson_returns (Downloader_Storage d) jb imageData w4 Hg)
      as (jp & e4 & w5 & t11 & E10 & _).
    destruct (bind_Ret_inv _ _ _ _ _ _ _ _ _ E10 E9) as (t12 & E11 & _). clear E9.
    destruct (SaveJson_path _ _ _ _ _ _ _ E10) as [Hok Hbad].
    destruct e4 as [e4|].
    + injection E11 as <- _ _. cbn.
      split; [intros H; now elim H | discriminate].
    + injection E11 as <- _ _. cbn. split; [reflexivity | intros _; now apply Hok].
  - injection E6 as <- _ _. cbn. now split.
Qed.

End JsonStage.

Section JsonTheorems.

Context {W : Type} {env : Env W}.

(** [X22] The JSON fields of the record [SaveWallpaper] returns follow
    [SaveJsonData]: after a failure both are empty; after a success with
    the JSON stage on exactly one of [JsonPath] and [JsonErr] is set, and
    with the stage off both are empty. *)
Theorem SaveWallpaper_json_stage_follows_flag (c : Client)
    (outputDir : string) (saveJson : bool) (imageData : ImageData)
    (daysAgo : Z) (w : W) (r : DownloadResult) (err : option error)
    (w' : W) (t : list Event) :
  SaveWallpaper (default_downloader c outputDir saveJson) imageData daysAgo w
  = (Ret (Some r, err), w', t) ->
  (err <> None -> JsonPath r = "" /\ JsonErr r = None)
  /\ (err = None ->
      if saveJson then JsonPath r <> "" <-> JsonErr r = None
      else JsonPath r = "" /\ JsonErr r = None).
Proof.
  intros E.
  exact (SaveWallpaper_json_fields (default_downloader c outputDir saveJson)
           eq_refl imageData daysAgo w r err w' t E).
Qed.

(** [X23] The batch-only [main] parses [-json] and never passes it on:
    whatever the flag says, [NewDownloader] leaves the JSON stage on, and
    every record of a run without error has gone through it (exactly one
    of its [JsonPath] and [JsonErr] is set). *)
Theorem main_batch_ignores_json_flag (absOutputDir : string)
    (highQuality saveJson : bool) (locale : string) (days : Z) (w : W)
    (results : list (option DownloadResult)) (w' : W) (t : list Event) :
  DownloadLatestWallpapers
    (main_batch_downloader absOutputDir highQuality saveJson locale) days true w
  = (Ret (results, None), w', t) ->
  forall r, In (Some r) results -> JsonPath r <> "" <-> JsonErr r = None.
Proof.
  set (d := main_batch_downloader absOutputDir highQuality saveJson locale).
  assert (well_behaved (Generator (Downloader_Storage d))) as Hg
    by apply NewDefaultFilenameGenerator_well_behaved.
  intros E r Hin. unfold DownloadLatestWallpapers in E.
  destruct ((days <=? 0)%Z || (days >? 16)%Z); [discriminate|].
  apply bind_inv in E.
  destruct E as [(_ & w1 & t1 & t2 & _ & E & _)|(msg & _ & H)];
    [|discriminate].
  apply bind_inv in E.
  destruct E as [([images [e|]] & w2 & t3 & t4 & _ & E & _)|(msg & _ & H)];
    [| |discriminate].
  { apply bind_inv in E.
    destruct E as [(_ & w3 & t5 & t6 & _ & E & _)|(msg & _ & H)];
      discriminate. }
  destruct (SaveWallpapers_loop_continue d (len images) Hg images 0 [] None w2)
    as (entries & err & w3 & t5 & E' & HF & Herr).
  rewrite SaveWallpapers_unfold, E' in E. cbn [app] in E.
  injection E as <- -> _ _.
  assert (forall entry, In entry entries ->
            exists imageData e, produced d imageData entry e /\ entry_ok entry)
    as Hprod.
  { clear - HF Herr. destruct (proj1 Herr eq_refl) as [_ Hall].
    induction HF as [|imageData entry l entries (e & Hp & _) _ IH];
      intros x []; inversion Hall; subst.
    - now exists imageData, e.
    - now apply IH. }
  destruct (Hprod _ Hin) as (imageData & e & (daysAgo & w0 & w4 & t0 & Erun) & Hok).
  destruct (SaveWallpaper_json_fields d eq_refl _ _ _ _ _ _ _ Erun) as [Hbad Hgood].
  destruct e as [e|].
  - destruct (SaveWallpaper_returns d imageData daysAgo w0 Hg)
      as (r0 & err0 & w5 & t7 & E0 & _ & Hiff & _).
    rewrite Erun in E0. injection E0 as <- <- _ _.
    destruct Hok as (r1 & [= <-] & Hnil & _).
    apply Hiff in Hnil. discriminate Hnil.
  - exact (Hgood eq_refl).
Qed.

End JsonTheorems.

(** ** Concrete runs of the further properties *)

Lemma FormatDate_checks_length_only_witness :
  String.length "20240115" = 8%nat /\ snd (FormatDate "20240115") = None.
Proof.
  split; [reflexivity|].
  exact (proj2 (proj1 FormatDate_checks_length_only "20240115") eq_refl).
Defined.

Lemma FormatFullDateTime_reads_12_bytes_witness :
  String.length "202401151600" = 12%nat
  /\ FormatFullDateTime ("202401151600" ++ "+0800")
     = FormatFullDateTime "202401151600".
Proof.
  split; [reflexivity|].
  exact (proj2 FormatFullDateTime_reads_12_bytes "202401151600" "+0800" eq_refl).
Defined.

Section AllSaved.

#[local] Existing Instance no_json_env.

Lemma generated_paths_in_base_directory_witness :
  no_slash (Startdate aurora)
  /\ exists t,
       GenerateImageFilename NewDefaultFilenameGenerator aurora "/out/" no_files
       = (Ret "/out/20240115_Aurora_Borealis.jpg", no_files, t).
Proof.
  assert (no_slash (Startdate aurora)) as H
    by (apply no_slash_literal; reflexivity).
  split; [exact H|].
  exact (proj1 (generated_paths_in_base_directory aurora "/out/" no_files H)).
Defined.

Lemma generated_path_leaves_base_directory_witness :
  plain_element "out" /\ no_slash "x"
  /\ Startdate (sample "../x" "T") = "../" ++ "x"
  /\ exists t,
       GenerateImageFilename NewDefaultFilenameGenerator (sample "../x" "T")
         "/out" no_files
       = (Ret "/x_T.jpg", no_files, t).
Proof.
  assert (plain_element "out") as Hd
    by (split; [apply no_slash_literal; reflexivity
               | repeat split; discriminate]).
  assert (no_slash "x") as Hr by (apply no_slash_literal; reflexivity).
  split; [exact Hd|]. split; [exact Hr|]. split; [reflexivity|].
  destruct (generated_path_leaves_base_directory (sample "../x" "T") "out" "x"
              no_files Hd Hr eq_refl) as (t & E & _).
  exists t. exact E.
Defined.

Lemma CustomFilenameGenerator_settles_witness :
  CustomFilename (mkCustomFilenameGenerator "wall") <> ""
  /\ exists path g',
       CustomFilenameGenerator_GenerateImageFilename
         (mkCustomFilenameGenerator "wall") aurora "/out" no_files
       = (Ret (path, g'), no_files, [])
       /\ path = filepath.Join ["/out"; CustomFilename g'].
Proof.
  assert (CustomFilename (mkCustomFilenameGenerator "wall") <> "") as H
    by discriminate.
  split; [exact H|].
  destruct (CustomFilenameGenerator_settles (mkCustomFilenameGenerator "wall")
              aurora "/out" no_files H) as (path & g' & E & Hpath & _).
  exists path, g'. split; [exact E | exact Hpath].
Defined.

Lemma main_guard_probes_written_path_witness :
  plain_element "wall"
  /\ exists g',
       CustomFilenameGenerator_GenerateImageFilename
         (mkCustomFilenameGenerator "wall") aurora "/out" no_files
       = (Ret (main_guarded_path "/out" "wall", g'), no_files, []).
Proof.
  assert (plain_element "wall") as H
    by (split; [apply no_slash_literal; reflexivity
               | repeat split; discriminate]).
  split; [exact H|].
  exact (main_guard_probes_written_path "/out" "wall" aurora no_files H).
Defined.

Lemma requests_carry_client_settings_witness :
  exists r w' t,
    DownloadLatestWallpapers sample_downloader 5 true no_files = (r, w', t)
    /\ Forall (stamped sample_client) t.
Proof.
  do 3 eexists.
  match goal with
  | |- ?H1 /\ _ => assert (h : H1) by (vm_compute; reflexivity)
  end.
  split; [exact h|].
  exact (proj1 (requests_carry_client_settings sample_client "/out" true)
           5%Z true no_files _ _ _ h).
Defined.

Lemma SaveWallpaper_confined_witness :
  exists r w' t,
    SaveWallpaper sample_downloader aurora 0 no_files = (r, w', t)
    /\ Forall (confined sample_downloader aurora 0) t.
Proof.
  do 3 eexists.
  match goal with
  | |- ?H1 /\ _ => assert (h : H1) by (vm_compute; reflexivity)
  end.
  split; [exact h|].
  exact (SaveWallpaper_confined sample_client "/out" true aurora 0
           no_files _ _ _ h).
Defined.

Lemma main_never_counts_a_failure_witness :
  well_behaved (Generator (Downloader_Storage sample_downloader))
  /\ exists results w' t,
       DownloadLatestWallpapers sample_downloader 5 true no_files
       = (Ret (results, None), w', t)
       /\ main_count results 0 0 = Ret (5%Z, 0%Z).
Proof.
  assert (well_behaved (Generator (Downloader_Storage sample_downloader))) as Hg
    by apply NewDefaultFilenameGenerator_well_behaved.
  split; [exact Hg|]. do 3 eexists.
  match goal with
  | |- ?H1 /\ _ => assert (h : H1) by (vm_compute; reflexivity)
  end.
  split; [exact h|].
  exact (proj1 (main_never_counts_a_failure sample_downloader Hg)
           5%Z no_files _ _ _ h).
Defined.

Lemma FetchAndSaveWallpapers_does_not_validate_days_witness :
  well_behaved (Generator (Downloader_Storage sample_downloader))
  /\ (0 <= 17 <= 65535)%Z
  /\ exists results err w' t,
       FetchAndSaveWallpapers sample_downloader 17 true no_files
       = (Ret (results, err), w', t).
Proof.
  assert (well_behaved (Generator (Downloader_Storage sample_downloader))) as Hg
    by apply NewDefaultFilenameGenerator_well_behaved.
  assert (0 <= 17 <= 65535)%Z as Hdays by (split; discriminate).
  split; [exact Hg|]. split; [exact Hdays|].
  exact (proj1 (proj2 (proj2 (FetchAndSaveWallpapers_does_not_validate_days
                                sample_downloader Hg))) 17%Z no_files Hdays).
Defined.

Lemma main_guard_misses_directory_names_witness :
  "/out" <> "" /\ plain_element "sub"
  /\ main_guarded_path "/out" ("sub" ++ "/") = "/out/sub.jpg"
  /\ exists g',
       CustomFilenameGenerator_GenerateImageFilename
         (mkCustomFilenameGenerator ("sub" ++ "/")) aurora "/out" no_files
       = (Ret ("/out/sub/.jpg", g'), no_files, []).
Proof.
  assert ("/out" <> "") as Ha by discriminate.
  assert (plain_element "sub") as Hd
    by (split; [apply no_slash_literal; reflexivity
               | repeat split; discriminate]).
  split; [exact Ha|]. split; [exact Hd|].
  destruct (main_guard_misses_directory_names "/out" "sub" aurora no_files Ha Hd)
    as (Hguard & g' & E & _).
  split; [exact Hguard|]. exists g'. exact E.
Defined.

Lemma FetchAndSaveWallpaper_never_passes_nil_witness :
  exists w1 t1,
    FetchImageData (Downloader_Client sample_downloader) 1 no_files
    = (Ret (Some (sample "20240114" "Day 1"), None), w1, t1)
    /\ FetchAndSaveWallpaper sample_downloader 1 no_files
       = (let '(r, w2, t2) :=
            SaveWallpaper sample_downloader (sample "20240114" "Day 1") 1 w1 in
          (r, w2, (day_started 1 :: t1 ++ t2)%list)).
Proof.
  do 2 eexists.
  match goal with
  | |- ?H1 /\ _ => assert (h : H1) by (vm_compute; reflexivity)
  end.
  split; [exact h|].
  exact (FetchAndSaveWallpaper_never_passes_nil sample_downloader 1 no_files
           _ _ _ _ h).
Defined.

Lemma DefaultLogger_silent_on_success_witness :
  exists results w' t,
    (1 <= 5 <= 16)%Z
    /\ level (NewLogger "" [WithLevel LogLevelError; WithTimeDisplay false])
       = LogLevelError
    /\ DownloadLatestWallpapers sample_downloader_no_json 5 true no_files
       = (Ret (results, None), w', t)
    /\ DefaultLogger_feed
         (NewLogger "" [WithLevel LogLevelError; WithTimeDisplay false]) [] t
       = NewLogger "" [WithLevel LogLevelError; WithTimeDisplay false].
Proof.
  do 3 eexists.
  assert (1 <= 5 <= 16)%Z as Hdays by (split; discriminate).
  match goal with
  | |- _ /\ ?H2 /\ ?H3 /\ _ =>
      assert (h2 : H2) by reflexivity;
      assert (h3 : H3) by (vm_compute; reflexivity)
  end.
  split; [exact Hdays|]. split; [exact h2|]. split; [exact h3|].
  exact (DefaultLogger_silent_on_success sample_client "/out" 5 true no_files
           _ _ _ _ [] Hdays (or_intror h2) h3).
Defined.

Lemma SaveWallpaper_json_stage_follows_flag_witness :
  exists r w' t,
    SaveWallpaper sample_downloader_no_json aurora 0 no_files
    = (Ret (Some r, None), w', t)
    /\ JsonPath r = "" /\ JsonErr r = None.
Proof.
  do 3 eexists.
  match goal with
  | |- ?H1 /\ _ => assert (h : H1) by (vm_compute; reflexivity)
  end.
  split; [exact h|].
  exact (proj2 (SaveWallpaper_json_stage_follows_flag sample_client "/out" false
                  aurora 0 no_files _ None _ _ h) eq_refl).
Defined.

Lemma main_batch_ignores_json_flag_witness :
  exists results w' t,
    DownloadLatestWallpapers
      (main_batch_downloader "/out" true false "zh-CN") 5 true no_files
    = (Ret (results, None), w', t)
    /\ forall r, In (Some r) results -> JsonPath r <> "" <-> JsonErr r = None.
Proof.
  do 3 eexists.
  match goal with
  | |- ?H1 /\ _ => assert (h : H1) by (vm_compute; reflexivity)
  end.
  split; [exact h|].
  exact (main_batch_ignores_json_flag "/out" true false "zh-CN" 5 no_files
           _ _ _ h).
Defined.

End AllSaved.

Section OneUnwritable.

#[local] Existing Instance unwritable_image_env.


Lemma SaveWallpapers_stop_returns_saved_prefix_witness :
  well_behaved (Generator (Downloader_Storage sample_downloader))
  /\ exists results err w' t,
       SaveWallpapers sample_downloader five_days false no_files
       = (Ret (results, err), w', t)
       /\ Forall2 saved_entry (firstn (List.length results) five_days) results
       /\ (err = None <-> List.length results = List.length five_days).
Proof.
  assert (well_behaved (Generator (Downloader_Storage sample_downloader))) as Hg
    by apply NewDefaultFilenameGenerator_well_behaved.
  split; [exact Hg|].
  destruct (SaveWallpapers_stop_returns_saved_prefix sample_downloader
              five_days no_files Hg) as (results & err & w' & t & E & HF & Hiff & _).
  exists results, err, w', t. split; [exact E|]. split; [exact HF | exact Hiff].
Defined.

Lemma batches_pause_between_records_witness :
  exists results err w' t,
    SaveWallpapers sample_downloader five_days true no_files
    = (Ret (results, err), w', t)
    /\ sleeps t = repeat (1 * time_Second)%Z 4.
Proof.
  do 4 eexists.
  match goal with
  | |- ?H1 /\ _ => assert (h : H1) by (vm_compute; reflexivity)
  end.
  split; [exact h|].
  exact (proj1 (batches_pause_between_records sample_client "/out" true)
           five_days true no_files _ _ _ _ h).
Defined.

Lemma DownloadLatestWallpapers_logs_its_errors_witness :
  exists results err w' t,
    (1 <= 5 <= 16)%Z
    /\ DownloadLatestWallpapers sample_downloader 5 true no_files
       = (Ret (results, err), w', t)
    /\ err <> None /\ loud_events t <> [].
Proof.
  do 4 eexists.
  assert (1 <= 5 <= 16)%Z as Hdays by (split; discriminate).
  match goal with
  | |- _ /\ ?H2 /\ _ => assert (h2 : H2) by (vm_compute; reflexivity)
  end.
  split; [exact Hdays|]. split; [exact h2|].
  assert (forall e : error, Some e <> None) as Hsome by discriminate.
  split; [apply Hsome|].
  exact (proj1 (DownloadLatestWallpapers_logs_its_errors sample_client "/out"
                  true 5 true no_files _ _ _ _ Hdays h2) (Hsome _)).
Defined.

End OneUnwritable.

Section TwoUnwritable.

#[local] Existing Instance two_unwritable_env.

Lemma SaveWallpapers_error_names_last_failure_witness :
  well_behaved (Generator (Downloader_Storage sample_downloader))
  /\ exists results err w' t r,
       SaveWallpapers sample_downloader five_days true no_files
       = (Ret (results, err), w', t)
       /\ nth_error results 3 = Some (Some r)
       /\ DownloadErr r = Some (mkError "permission denied")
       /\ (forall j r', (3 < j)%nat -> nth_error results j = Some (Some r') ->
                        DownloadErr r' = None)
       /\ exists stage,
            failed_stage stage
            /\ err = fmt.Errorf "有部分壁纸处理失败: %v"
                       [fmt.OpError
                          (fmt.Errorf "处理第 %d 张壁纸失败: %v"
                             [fmt.OpInt 3;
                              fmt.OpError
                                (fmt.Errorf stage
                                   [fmt.OpError
                                      (Some (mkError "permission denied"))])])].
Proof.
  assert (well_behaved (Generator (Downloader_Storage sample_downloader))) as Hg
    by apply NewDefaultFilenameGenerator_well_behaved.
  split; [exact Hg|]. do 5 eexists.
  match goal with
  | |- ?H1 /\ ?H2 /\ ?H3 /\ ?H4 /\ _ =>
      assert (h1 : H1) by (vm_compute; reflexivity);
      assert (h2 : H2) by reflexivity;
      assert (h3 : H3) by reflexivity;
      assert (h4 : H4)
        by (intros [|[|[|[|[|j]]]]] r' Hj E; try lia;
            [injection E as <-; reflexivity | destruct j; discriminate E])
  end.
  split; [exact h1|]. split; [exact h2|]. split; [exact h3|]. split; [exact h4|].
  exact (SaveWallpapers_error_names_last_failure sample_downloader five_days
           no_files _ _ _ _ 3%nat _ _ Hg h1 h2 h3 h4).
Defined.

End TwoUnwritable.

Section ShortArchive.

#[local] Existing Instance short_archive_env.

Lemma DownloadLatestWallpapers_follows_archive_witness :
  well_behaved (Generator (Downloader_Storage sample_downloader))
  /\ (1 <= 7 <= 16)%Z
  /\ exists w1 t1,
       FetchMultipleImageData sample_client 7 no_files
       = (Ret (five_days, None), w1, t1)
       /\ exists results err' w' t,
            DownloadLatestWallpapers sample_downloader 7 true no_files
            = (Ret (results, err'), w', t)
            /\ Forall2 (fun imageData entry =>
                          exists r, entry = Some r /\ ImageDataOf r = imageData)
                 five_days results.
Proof.
  assert (well_behaved (Generator (Downloader_Storage sample_downloader))) as Hg
    by apply NewDefaultFilenameGenerator_well_behaved.
  assert (1 <= 7 <= 16)%Z as Hdays by (split; discriminate).
  split; [exact Hg|]. split; [exact Hdays|]. do 2 eexists.
  match goal with
  | |- ?H1 /\ _ => assert (h : H1) by (vm_compute; reflexivity)
  end.
  split; [exact h|].
  exact (DownloadLatestWallpapers_follows_archive sample_downloader 7 no_files
           five_days None _ _ Hg Hdays h).
Defined.

End ShortArchive.
